(** * VoiceAssistant: the conversational borrow / purchase flows

    A shallow embedding of [src/components/VoiceAssistant.tsx]: the React
    component state, its transcript handlers ([handleTranscript],
    [handleQuickCommands], [handleBorrowReply], [handlePurchaseReply]), the
    confirmation panel (field edits, Save and Edit buttons) and the
    [add-borrow-result] / [add-purchase-result] notifications.

    Strings are JavaScript strings seen as their UTF-8 bytes.  Every handler
    runs to completion on the state of the last render, so a handler is a
    function from the component state to the next one (a transcript is one
    that the debounce let through); what the component
    sends to the outside (window events, spoken prompts) is appended to logs
    kept next to the state.  The collaborators answer later: the result of a
    commit and the result of a voice command reach the component as inputs
    of their own, after the handler that asked for them has returned. *)

From Stdlib Require Import String Ascii List ZArith Bool Lia.
From Stdlib Require Import DecimalString.
From Stdlib Require DecimalPos.
Import ListNotations.

Open Scope string_scope.
Open Scope Z_scope.

(** ** JavaScript string and regular-expression primitives *)

Module Js.

(** [s || d] on strings: the empty string is falsy. *)
Definition or_else (s d : string) : string :=
  match s with
  | EmptyString => d
  | _ => s
  end.

(** Truthiness of a string: [!s] is [negb (truthy s)]. *)
Definition truthy (s : string) : bool :=
  match s with
  | EmptyString => false
  | _ => true
  end.

(** Case folding of the [i] flag (no [u] flag): the ASCII letters fold, every
    other code unit only matches itself. *)
Definition fold_case (c : ascii) : ascii :=
  let n := nat_of_ascii c in
  if andb (Nat.leb 65 n) (Nat.leb n 90) then ascii_of_nat (n + 32) else c.

Definition eqb_ci (a b : ascii) : bool :=
  Ascii.eqb (fold_case a) (fold_case b).

(** Does the literal [p] match at the start of [s], ignoring case? *)
Fixpoint starts_with_ci (p s : string) : bool :=
  match p, s with
  | EmptyString, _ => true
  | String _ _, EmptyString => false
  | String a p', String b s' => andb (eqb_ci a b) (starts_with_ci p' s')
  end.

(** Does the literal [p] occur somewhere in [s], ignoring case? *)
Fixpoint includes_ci (p s : string) : bool :=
  orb (starts_with_ci p s)
      match s with
      | EmptyString => false
      | String _ s' => includes_ci p s'
      end.

(** [/a|b|c/i.test(s)] for literal alternatives. *)
Definition test_alternatives (alts : list string) (s : string) : bool :=
  existsb (fun p => includes_ci p s) alts.

(** Case-sensitive versions, for [String.prototype.includes]. *)
Fixpoint starts_with (p s : string) : bool :=
  match p, s with
  | EmptyString, _ => true
  | String _ _, EmptyString => false
  | String a p', String b s' => andb (Ascii.eqb a b) (starts_with p' s')
  end.

Fixpoint includes (p s : string) : bool :=
  orb (starts_with p s)
      match s with
      | EmptyString => false
      | String _ s' => includes p s'
      end.

(** [\d]: the ASCII digits. *)
Definition is_digit (c : ascii) : bool :=
  let n := nat_of_ascii c in andb (Nat.leb 48 n) (Nat.leb n 57).

Fixpoint take_digits (s : string) : string :=
  match s with
  | EmptyString => EmptyString
  | String c s' => if is_digit c then String c (take_digits s') else EmptyString
  end.

(** [s.match(/\d+/)]: the first maximal run of digits, [None] for JavaScript's
    [null].  Only element 0 of the match array is used by the component. *)
Fixpoint match_digits (s : string) : option string :=
  match s with
  | EmptyString => None
  | String c s' => if is_digit c then Some (take_digits s) else match_digits s'
  end.

(** [parseInt] on a run of digits.  JavaScript rounds a long run to a double;
    the component only compares the result with [0], which rounding keeps. *)
Definition digit_value (c : ascii) : Z := Z.of_nat (nat_of_ascii c) - 48.

Fixpoint parseInt_from (acc : Z) (s : string) : Z :=
  match s with
  | EmptyString => acc
  | String c s' => parseInt_from (10 * acc + digit_value c) s'
  end.

Definition parseInt (s : string) : Z := parseInt_from 0 s.

(** [n.toString()] for an integer [n]. *)
Definition toString (n : Z) : string := NilZero.string_of_int (Z.to_int n).

(** White space of [String.prototype.trim] and of [Number(s)]: the ASCII
    blanks and line terminators, and the UTF-8 encodings of U+00A0, U+1680,
    U+2000 to U+200A, U+2028, U+2029, U+202F, U+205F, U+3000 and U+FEFF. *)
Definition bytes (l : list nat) : string :=
  fold_right (fun n s => String (ascii_of_nat n) s) EmptyString l.

Definition white_space : list string :=
  map bytes
    (app [ [9]; [10]; [11]; [12]; [13]; [32]; [194; 160]; [225; 154; 128] ]
    (app (map (fun k => [226; 128; k])
              [128; 129; 130; 131; 132; 133; 134; 135; 136; 137; 138])
         [ [226; 128; 168]; [226; 128; 169]; [226; 128; 175]; [226; 129; 159];
           [227; 128; 128]; [239; 187; 191] ]))%nat.

Fixpoint drop (n : nat) (s : string) : string :=
  match n, s with
  | O, _ => s
  | S _, EmptyString => EmptyString
  | S n', String _ s' => drop n' s'
  end.

(** The white-space sequence [s] starts with, if any. *)
Definition leading_space (s : string) : option string :=
  find (fun w => starts_with w s) white_space.

Fixpoint trim_start_fuel (fuel : nat) (s : string) : string :=
  match fuel with
  | O => s
  | S fuel' =>
      match leading_space s with
      | Some w => trim_start_fuel fuel' (drop (String.length w) s)
      | None => s
      end
  end.

Definition trimStart (s : string) : string := trim_start_fuel (String.length s) s.

Fixpoint rev_onto (s acc : string) : string :=
  match s with
  | EmptyString => acc
  | String c s' => rev_onto s' (String c acc)
  end.

Definition reverse (s : string) : string := rev_onto s EmptyString.

Definition trailing_space (r : string) : option string :=
  find (fun w => starts_with (reverse w) r) white_space.

Fixpoint trim_end_fuel (fuel : nat) (r : string) : string :=
  match fuel with
  | O => r
  | S fuel' =>
      match trailing_space r with
      | Some w => trim_end_fuel fuel' (drop (String.length w) r)
      | None => r
      end
  end.

Definition trimEnd (s : string) : string :=
  reverse (trim_end_fuel (String.length s) (reverse s)).

Definition trim (s : string) : string := trimEnd (trimStart s).

(** [isNaN(Number(s))] is [negb (is_numeric s)]: [Number] accepts, between
    optional white space, nothing at all (giving 0), a binary, octal or
    hexadecimal literal, or a signed decimal literal or [Infinity]. *)
Fixpoint drop_while (p : ascii -> bool) (s : string) : string :=
  match s with
  | EmptyString => EmptyString
  | String c s' => if p c then drop_while p s' else s
  end.

Definition starts_in (p : ascii -> bool) (s : string) : bool :=
  match s with
  | EmptyString => false
  | String c _ => p c
  end.

Definition all_in (p : ascii -> bool) (s : string) : bool :=
  andb (starts_in p s)
       match drop_while p s with EmptyString => true | _ => false end.

Definition is_sign (c : ascii) : bool :=
  orb (Ascii.eqb c "+") (Ascii.eqb c "-").

Definition drop_sign (s : string) : string :=
  match s with
  | String c s' => if is_sign c then s' else s
  | EmptyString => s
  end.

Definition exponent_opt (s : string) : bool :=
  match s with
  | EmptyString => true
  | String c s' =>
      andb (orb (Ascii.eqb c "e") (Ascii.eqb c "E")) (all_in is_digit (drop_sign s'))
  end.

Definition unsigned_decimal (s : string) : bool :=
  let int_part := starts_in is_digit s in
  match drop_while is_digit s with
  | String "." r =>
      andb (orb int_part (starts_in is_digit r)) (exponent_opt (drop_while is_digit r))
  | r => andb int_part (exponent_opt r)
  end.

Definition is_hex_digit (c : ascii) : bool :=
  let n := nat_of_ascii (fold_case c) in
  orb (is_digit c) (andb (Nat.leb 97 n) (Nat.leb n 102)).

Definition is_octal_digit (c : ascii) : bool :=
  let n := nat_of_ascii c in andb (Nat.leb 48 n) (Nat.leb n 55).

Definition is_binary_digit (c : ascii) : bool :=
  orb (Ascii.eqb c "0") (Ascii.eqb c "1").

Definition non_decimal (s : string) : bool :=
  match s with
  | String "0" (String k r) =>
      let k' := fold_case k in
      if Ascii.eqb k' "x" then all_in is_hex_digit r
      else if Ascii.eqb k' "o" then all_in is_octal_digit r
      else if Ascii.eqb k' "b" then all_in is_binary_digit r
      else false
  | _ => false
  end.

Definition is_numeric (s : string) : bool :=
  let t := trim s in
  match t with
  | EmptyString => true
  | _ =>
      orb (non_decimal t)
          (let u := drop_sign t in
           orb (String.eqb u "Infinity") (unsigned_decimal u))
  end.

(** Every maximal run of digits of [s], in order; [match_digits] gives the
    first of them. *)
Fixpoint digit_runs (s : string) : list string :=
  match s with
  | EmptyString => []
  | String c s' =>
      let rs := digit_runs s' in
      if is_digit c then
        if starts_in is_digit s' then
          match rs with
          | r :: rs' => String c r :: rs'
          | [] => [String c EmptyString]
          end
        else String c EmptyString :: rs
      else rs
  end.

End Js.

(** ** Conversation states *)

Module Borrow.

(** [BorrowConversationStep] and [BorrowConversationState]. *)
Inductive Step : Set := idle | askName | askAmount | askPaid | confirm | done.

Record State : Set := mk { step : Step; name : string; amount : string; paid : string }.

Definition step_eqb (a b : Step) : bool :=
  match a, b with
  | idle, idle | askName, askName | askAmount, askAmount
  | askPaid, askPaid | confirm, confirm | done, done => true
  | _, _ => false
  end.

Definition with_step (st : Step) (s : State) : State :=
  mk st (name s) (amount s) (paid s).
Definition with_name (v : string) (s : State) : State :=
  mk (step s) v (amount s) (paid s).
Definition with_amount (v : string) (s : State) : State :=
  mk (step s) (name s) v (paid s).
Definition with_paid (v : string) (s : State) : State :=
  mk (step s) (name s) (amount s) v.

End Borrow.

Module Purchase.

(** [PurchaseConversationStep] and [PurchaseConversationState]. *)
Inductive Step : Set := idle | askSupplier | askAmount | askPaid | confirm | done.

Record State : Set := mk { step : Step; supplier : string; amount : string; paid : string }.

Definition step_eqb (a b : Step) : bool :=
  match a, b with
  | idle, idle | askSupplier, askSupplier | askAmount, askAmount
  | askPaid, askPaid | confirm, confirm | done, done => true
  | _, _ => false
  end.

Definition with_step (st : Step) (s : State) : State :=
  mk st (supplier s) (amount s) (paid s).
Definition with_supplier (v : string) (s : State) : State :=
  mk (step s) v (amount s) (paid s).
Definition with_amount (v : string) (s : State) : State :=
  mk (step s) (supplier s) v (paid s).
Definition with_paid (v : string) (s : State) : State :=
  mk (step s) (supplier s) (amount s) v.

End Purchase.

Definition BorrowConversationState : Set := Borrow.State.
Definition PurchaseConversationState : Set := Purchase.State.

(** ** What the component sends out *)

(** The [CustomEvent]s the component dispatches on [window], with their
    [detail]. *)
Inductive WindowEvent : Set :=
| AddBorrow (name totalGiven amountPaid : string)
| AddPurchase (supplierName totalAmount amountPaid : string)
| AddTransaction (type : string) (amount : Z) (category description : string)
| DataUpdated.

(** A call [speakMemo(text, onDone)]: [resume] tells whether [autoListen] was
    passed as [onDone]. *)
Record Spoken : Set := say { text : string; resume : bool }.

(** The result of [VoiceCommandService.processCommand], a collaborator of the
    component. *)
Module Command.
Record Result : Set := mk {
  success : bool;
  message : string;
  summary : string;
  debug : string;
  type : string;
  amount : Z;
  category : string;
  description : string
}.
End Command.

(** ** The component *)

(** The [useState] cells of [VoiceAssistant] that the flows use, followed by
    the surroundings the handlers act on: the events dispatched so far, the
    prompts spoken so far, the commands handed to [processVoiceCommand], and
    the number of [handleSaveResult] listeners that Save clicks have left
    registered for each result event. *)
Record VoiceAssistant : Set := mkVA {
  isProcessing : bool;
  isSaving : bool;
  response : string;
  debugInfo : string;
  borrowState : BorrowConversationState;
  purchaseState : PurchaseConversationState;
  borrowConfirmEdit : option BorrowConversationState;
  purchaseConfirmEdit : option PurchaseConversationState;
  dispatched : list WindowEvent;
  spoken : list Spoken;
  commands : list string;
  borrowSaveListeners : nat;
  purchaseSaveListeners : nat
}.

Definition setIsProcessing (v : bool) (s : VoiceAssistant) : VoiceAssistant :=
  mkVA v (isSaving s) (response s) (debugInfo s) (borrowState s) (purchaseState s)
       (borrowConfirmEdit s) (purchaseConfirmEdit s) (dispatched s) (spoken s)
       (commands s) (borrowSaveListeners s) (purchaseSaveListeners s).

Definition setIsSaving (v : bool) (s : VoiceAssistant) : VoiceAssistant :=
  mkVA (isProcessing s) v (response s) (debugInfo s) (borrowState s) (purchaseState s)
       (borrowConfirmEdit s) (purchaseConfirmEdit s) (dispatched s) (spoken s)
       (commands s) (borrowSaveListeners s) (purchaseSaveListeners s).

Definition setResponse (v : string) (s : VoiceAssistant) : VoiceAssistant :=
  mkVA (isProcessing s) (isSaving s) v (debugInfo s) (borrowState s) (purchaseState s)
       (borrowConfirmEdit s) (purchaseConfirmEdit s) (dispatched s) (spoken s)
       (commands s) (borrowSaveListeners s) (purchaseSaveListeners s).

Definition setDebugInfo (v : string) (s : VoiceAssistant) : VoiceAssistant :=
  mkVA (isProcessing s) (isSaving s) (response s) v (borrowState s) (purchaseState s)
       (borrowConfirmEdit s) (purchaseConfirmEdit s) (dispatched s) (spoken s)
       (commands s) (borrowSaveListeners s) (purchaseSaveListeners s).

(** [setBorrowState(f)] with an updater [f]; [setBorrowState(v)] is
    [setBorrowState (fun _ => v)]. *)
Definition setBorrowState (f : BorrowConversationState -> BorrowConversationState)
    (s : VoiceAssistant) : VoiceAssistant :=
  mkVA (isProcessing s) (isSaving s) (response s) (debugInfo s) (f (borrowState s))
       (purchaseState s) (borrowConfirmEdit s) (purchaseConfirmEdit s) (dispatched s)
       (spoken s) (commands s) (borrowSaveListeners s) (purchaseSaveListeners s).

Definition setPurchaseState (f : PurchaseConversationState -> PurchaseConversationState)
    (s : VoiceAssistant) : VoiceAssistant :=
  mkVA (isProcessing s) (isSaving s) (response s) (debugInfo s) (borrowState s)
       (f (purchaseState s)) (borrowConfirmEdit s) (purchaseConfirmEdit s) (dispatched s)
       (spoken s) (commands s) (borrowSaveListeners s) (purchaseSaveListeners s).

Definition setBorrowConfirmEdit
    (f : option BorrowConversationState -> option BorrowConversationState)
    (s : VoiceAssistant) : VoiceAssistant :=
  mkVA (isProcessing s) (isSaving s) (response s) (debugInfo s) (borrowState s)
       (purchaseState s) (f (borrowConfirmEdit s)) (purchaseConfirmEdit s) (dispatched s)
       (spoken s) (commands s) (borrowSaveListeners s) (purchaseSaveListeners s).

Definition setPurchaseConfirmEdit
    (f : option PurchaseConversationState -> option PurchaseConversationState)
    (s : VoiceAssistant) : VoiceAssistant :=
  mkVA (isProcessing s) (isSaving s) (response s) (debugInfo s) (borrowState s)
       (purchaseState s) (borrowConfirmEdit s) (f (purchaseConfirmEdit s)) (dispatched s)
       (spoken s) (commands s) (borrowSaveListeners s) (purchaseSaveListeners s).

Definition log_event (e : WindowEvent) (s : VoiceAssistant) : VoiceAssistant :=
  mkVA (isProcessing s) (isSaving s) (response s) (debugInfo s) (borrowState s)
       (purchaseState s) (borrowConfirmEdit s) (purchaseConfirmEdit s)
       (dispatched s ++ [e])%list (spoken s) (commands s) (borrowSaveListeners s)
       (purchaseSaveListeners s).

Definition log_spoken (u : Spoken) (s : VoiceAssistant) : VoiceAssistant :=
  mkVA (isProcessing s) (isSaving s) (response s) (debugInfo s) (borrowState s)
       (purchaseState s) (borrowConfirmEdit s) (purchaseConfirmEdit s) (dispatched s)
       (spoken s ++ [u])%list (commands s) (borrowSaveListeners s)
       (purchaseSaveListeners s).

Definition log_command (c : string) (s : VoiceAssistant) : VoiceAssistant :=
  mkVA (isProcessing s) (isSaving s) (response s) (debugInfo s) (borrowState s)
       (purchaseState s) (borrowConfirmEdit s) (purchaseConfirmEdit s) (dispatched s)
       (spoken s) (commands s ++ [c])%list (borrowSaveListeners s)
       (purchaseSaveListeners s).

Definition setBorrowSaveListeners (n : nat) (s : VoiceAssistant) : VoiceAssistant :=
  mkVA (isProcessing s) (isSaving s) (response s) (debugInfo s) (borrowState s)
       (purchaseState s) (borrowConfirmEdit s) (purchaseConfirmEdit s) (dispatched s)
       (spoken s) (commands s) n (purchaseSaveListeners s).

Definition setPurchaseSaveListeners (n : nat) (s : VoiceAssistant) : VoiceAssistant :=
  mkVA (isProcessing s) (isSaving s) (response s) (debugInfo s) (borrowState s)
       (purchaseState s) (borrowConfirmEdit s) (purchaseConfirmEdit s) (dispatched s)
       (spoken s) (commands s) (borrowSaveListeners s) n.

(** Statements of a handler, in the order the source runs them. *)
Notation "s |> f" := (f s) (at level 45, left associativity, only parsing).

(** [window.dispatchEvent(e)]: the component itself listens to [add-borrow]
    and [add-purchase] and answers each with a [data-updated] event. *)
Definition dispatchEvent (e : WindowEvent) (s : VoiceAssistant) : VoiceAssistant :=
  match e with
  | AddBorrow _ _ _ | AddPurchase _ _ _ => s |> log_event e |> log_event DataUpdated
  | _ => s |> log_event e
  end.

(** [speakMemo(text)] and [speakMemo(text, autoListen)]. *)
Definition speakMemo (t : string) (s : VoiceAssistant) : VoiceAssistant :=
  log_spoken (say t false) s.

Definition speakMemo_autoListen (t : string) (s : VoiceAssistant) : VoiceAssistant :=
  log_spoken (say t true) s.

(** The state of the first render. *)
Definition initial : VoiceAssistant :=
  mkVA false false EmptyString EmptyString
       (Borrow.mk Borrow.idle EmptyString EmptyString EmptyString)
       (Purchase.mk Purchase.idle EmptyString EmptyString EmptyString)
       None None [] [] [] 0%nat 0%nat.

(** The double quote of the prompts that quote the transcript. *)
Definition dq : string := String (ascii_of_nat 34) EmptyString.

(** The vocabularies of the regular expressions. *)
Definition affirmative : list string :=
  ["yes"; "save"; "okay"; "confirm"; "ശരി"; "സേവ്"; "ഉണ്ട്"].
Definition negative : list string :=
  ["no"; "change"; "back"; "വേണ്ട"; "മാറ്റം"; "തിരിച്ച്"].
Definition reset_words : list string :=
  ["clear"; "reset"; "വ്യക്തം"; "റീസെറ്റ്"].
Definition cancel_words : list string :=
  ["cancel"; "exit"; "stop"; "വേണ്ട"; "പുറത്ത്"].
Definition purchase_words : list string :=
  ["purchase"; "buy"; "വാങ്ങൽ"; "വാങ്ങി"].
Definition borrow_words : list string :=
  ["borrow"; "കടം"].
Definition unrecognized_supplier : list string :=
  ["unknown"; "blank"; "supplier"; "person"; "അജ്ഞാത"].

Definition is_affirmative (t : string) : bool := Js.test_alternatives affirmative t.
Definition is_negative (t : string) : bool := Js.test_alternatives negative t.
Definition is_reset (t : string) : bool := Js.test_alternatives reset_words t.
Definition is_cancel (t : string) : bool := Js.test_alternatives cancel_words t.

(** The [detail] of an [add-borrow-result] or [add-purchase-result] event;
    an absent [error] is the empty string, which [||] treats alike. *)
Record SaveResult : Set := result { success : bool; error : string }.

Section Component.

(** [language === "english"], fixed for the life of the component. *)
Variable isEnglish : bool.

(** [universalNumberParser], imported from [services/voiceCommandService];
    [None] is its [null]. *)
Variable universalNumberParser : string -> option Z.

Definition localized (en ml : string) : string := if isEnglish then en else ml.

(** *** The borrow flow *)

Definition resetBorrowConversation : VoiceAssistant -> VoiceAssistant :=
  setBorrowState (fun _ => Borrow.mk Borrow.idle EmptyString EmptyString EmptyString).

Definition startBorrowConversation (s : VoiceAssistant) : VoiceAssistant :=
  s |> setBorrowState (fun _ => Borrow.mk Borrow.askName EmptyString EmptyString EmptyString)
    |> setResponse (localized "Let’s add a borrow record. Who did you borrow from?"
                              "ആർക്കാണ് കടം കൊടുത്തത്?")
    |> speakMemo_autoListen (localized "Let’s add a borrow record. Who did you borrow from?"
                                       "ആർക്കാണ് കടം കൊടുത്തത്?").

(** The amount an [askAmount] reply gives, in both flows: the parsed number
    words when positive, else the first run of digits when positive, else
    nothing ([None]: the handler prompts again and returns). *)
Definition amountOf (transcript : string) : option string :=
  let digits :=
    match Js.match_digits transcript with
    | Some digitMatch => if 0 <? Js.parseInt digitMatch then Some digitMatch else None
    | None => None
    end in
  match universalNumberParser transcript with
  | Some parsedAmount =>
      if 0 <? parsedAmount then Some (Js.toString parsedAmount) else digits
  | None => digits
  end.

(** The paid amount an [askPaid] reply gives, in both flows; it starts as
    ['0'] and falls back to ['0']. *)
Definition paidOf (transcript : string) : string :=
  let digits :=
    match Js.match_digits transcript with
    | Some digitMatch => if 0 <=? Js.parseInt digitMatch then digitMatch else "0"
    | None => "0"
    end in
  match universalNumberParser transcript with
  | Some parsedPaid =>
      if 0 <=? parsedPaid then Js.toString parsedPaid else digits
  | None => digits
  end.

Definition amountNotUnderstood (transcript : string) : string :=
  localized
    ("I couldn't understand the amount " ++ dq ++ transcript ++ dq
       ++ ". Please say a clear number like " ++ dq ++ "1000" ++ dq ++ " or "
       ++ dq ++ "one thousand" ++ dq ++ ".")
    ("തുക " ++ dq ++ transcript ++ dq ++ " മനസ്സിലായില്ല. ദയവായി " ++ dq ++ "1000"
       ++ dq ++ " അല്ലെങ്കിൽ " ++ dq ++ "ആയിരം" ++ dq ++ " പോലെ വ്യക്തമായി പറയുക.").

Definition amountNotUnderstoodSpoken : string :=
  localized
    ("I couldn't understand the amount. Please say a clear number like " ++ dq
       ++ "1000" ++ dq ++ " or " ++ dq ++ "one thousand" ++ dq ++ ".")
    ("തുക മനസ്സിലായില്ല. ദയവായി " ++ dq ++ "1000" ++ dq ++ " അല്ലെങ്കിൽ " ++ dq
       ++ "ആയിരം" ++ dq ++ " പോലെ വ്യക്തമായി പറയുക.").

Definition borrowSummary (b : BorrowConversationState) (paid : string) : string :=
  localized
    ("You borrowed ₹" ++ Borrow.amount b ++ " from " ++ Borrow.name b
       ++ " and have paid back ₹" ++ paid ++ ". Should I save this?")
    ("നിങ്ങൾ " ++ Borrow.name b ++ " എന്നയാളിൽ നിന്ന് ₹" ++ Borrow.amount b
       ++ " കടം എടുത്തു, ഇതുവരെ ₹" ++ paid ++ " തിരികെ നൽകി. ഇത് സേവ് ചെയ്യട്ടേ?").

Definition borrowMissing : string :=
  localized "Missing required information. Please provide the person's name and amount."
            "ആവശ്യമായ വിവരങ്ങൾ കാണുന്നില്ല. ദയവായി വ്യക്തിയുടെ പേരും തുകയും നൽകുക.".

Definition sayYesOrNo : string :=
  localized "Please say Yes to save, or No to change."
            "സേവ് ചെയ്യാൻ ഉണ്ട് എന്ന് പറയുക, അല്ലെങ്കിൽ മാറ്റാൻ വേണ്ട എന്ന് പറയുക.".

(** The validation both reply handlers and the borrow Save button share:
    [!data.name || !data.amount || data.amount === '0']. *)
Definition invalid (name amount : string) : bool :=
  negb (Js.truthy name) || negb (Js.truthy amount) || String.eqb amount "0".

(** [borrowConfirmEdit || borrowState] and
    [purchaseConfirmEdit || purchaseState]: the fields an affirmative reply
    commits. *)
Definition borrowData (s : VoiceAssistant) : BorrowConversationState :=
  match borrowConfirmEdit s with Some e => e | None => borrowState s end.

Definition purchaseData (s : VoiceAssistant) : PurchaseConversationState :=
  match purchaseConfirmEdit s with Some e => e | None => purchaseState s end.

Definition handleBorrowReply (transcript : string) (s : VoiceAssistant) : VoiceAssistant :=
  match Borrow.step (borrowState s) with
  | Borrow.askName =>
      s |> setBorrowState
             (fun b => Borrow.with_step Borrow.askAmount (Borrow.with_name transcript b))
        |> setResponse (localized ("How much did you borrow from " ++ transcript ++ "?")
                                  (transcript ++ " എത്ര രൂപ കടം കൊടുത്തു?"))
        |> speakMemo_autoListen
             (localized ("How much did you borrow from " ++ transcript ++ "?")
                        (transcript ++ " എത്ര രൂപ കടം കൊടുത്തു?"))
  | Borrow.askAmount =>
      match amountOf transcript with
      | None =>
          s |> setResponse (amountNotUnderstood transcript)
            |> speakMemo_autoListen amountNotUnderstoodSpoken
      | Some amount =>
          s |> setBorrowState
                 (fun b => Borrow.with_step Borrow.askPaid (Borrow.with_amount amount b))
            |> setResponse (localized "How much have you paid back so far?"
                                      "ഇതുവരെ എത്ര രൂപ തിരികെ നൽകി?")
            |> speakMemo_autoListen (localized "How much have you paid back so far?"
                                               "ഇതുവരെ എത്ര രൂപ തിരികെ നൽകി?")
      end
  | Borrow.askPaid =>
      let paid := paidOf transcript in
      let newState :=
        Borrow.with_step Borrow.confirm (Borrow.with_paid paid (borrowState s)) in
      s |> setBorrowState (fun _ => newState)
        |> setBorrowConfirmEdit (fun _ => Some newState)
        |> setResponse (borrowSummary (borrowState s) paid)
        |> speakMemo_autoListen (borrowSummary (borrowState s) paid)
  | Borrow.confirm =>
      if is_affirmative transcript then
        let data := borrowData s in
        if invalid (Borrow.name data) (Borrow.amount data) then
          s |> setResponse borrowMissing
            |> speakMemo_autoListen borrowMissing
        else
          s |> dispatchEvent (AddBorrow (Borrow.name data) (Borrow.amount data)
                                        (Js.or_else (Borrow.paid data) "0"))
            |> setBorrowState (Borrow.with_step Borrow.done)
            |> setBorrowConfirmEdit (fun _ => None)
            |> setResponse (localized "Record added successfully!"
                                      "റെക്കോർഡ് വിജയകരമായി ചേർത്തു!")
            |> speakMemo (localized "Record added successfully!"
                                    "റെക്കോർഡ് വിജയകരമായി ചേർത്തു!")
      else if is_negative transcript then
        s |> setBorrowState (Borrow.with_step Borrow.askAmount)
          |> setBorrowConfirmEdit (fun _ => None)
          |> setResponse (localized "Okay, let’s change the amount. How much did you borrow?"
                                    "ശരി, എത്ര രൂപ കടം എടുത്തു?")
          |> speakMemo_autoListen
               (localized "Okay, let’s change the amount. How much did you borrow?"
                          "ശരി, എത്ര രൂപ കടം എടുത്തു?")
      else
        s |> setResponse sayYesOrNo
          |> speakMemo_autoListen sayYesOrNo
  | Borrow.idle | Borrow.done => s
  end.

Definition handleQuickCommands (transcript : string) (s : VoiceAssistant)
    : bool * VoiceAssistant :=
  if is_reset transcript then
    (true,
     s |> resetBorrowConversation
       |> setResponse (localized "Form cleared. Let’s start again. Who did you borrow from?"
                                 "ഫോം ക്ലിയർ ചെയ്തു. ആരിൽ നിന്നാണ് കടം എടുത്തത്?")
       |> speakMemo_autoListen
            (localized "Form cleared. Let’s start again. Who did you borrow from?"
                       "ഫോം ക്ലിയർ ചെയ്തു. ആരിൽ നിന്നാണ് കടം എടുത്തത്?")
       |> setBorrowState (Borrow.with_step Borrow.askName))
  else if is_cancel transcript then
    (true,
     s |> resetBorrowConversation
       |> setResponse (localized "Cancelled." "റദ്ദാക്കി.")
       |> speakMemo (localized "Cancelled." "റദ്ദാക്കി."))
  else (false, s).

(** *** The purchase flow *)

Definition resetPurchaseConversation : VoiceAssistant -> VoiceAssistant :=
  setPurchaseState
    (fun _ => Purchase.mk Purchase.idle EmptyString EmptyString EmptyString).

Definition startPurchaseConversation (s : VoiceAssistant) : VoiceAssistant :=
  s |> setPurchaseState
         (fun _ => Purchase.mk Purchase.askSupplier EmptyString EmptyString EmptyString)
    |> setResponse (localized "Let’s add a purchase record. Who is the supplier?"
                              "വാങ്ങൽ രേഖ ചേർക്കാം. സപ്ലയർ ആരാണ്?")
    |> speakMemo_autoListen (localized "Let’s add a purchase record. Who is the supplier?"
                                       "വാങ്ങൽ രേഖ ചേർക്കാം. സപ്ലയർ ആരാണ്?").

Definition purchaseSummary (b : PurchaseConversationState) (paid : string) : string :=
  localized
    ("You purchased for ₹" ++ Purchase.amount b ++ " from " ++ Purchase.supplier b
       ++ " and have paid ₹" ++ paid ++ ". Should I save this?")
    ("നിങ്ങൾ " ++ Purchase.supplier b ++ "യിൽ നിന്ന് ₹" ++ Purchase.amount b
       ++ "ക്ക് വാങ്ങി, ഇതുവരെ ₹" ++ paid ++ " നൽകി. ഇത് സേവ് ചെയ്യട്ടേ?").

Definition purchaseMissing : string :=
  localized "Missing required information. Please provide the supplier name and amount."
            "ആവശ്യമായ വിവരങ്ങൾ കാണുന്നില്ല. ദയവായി സപ്ലയർ പേരും തുകയും നൽകുക.".

Definition handlePurchaseReply (transcript : string) (s : VoiceAssistant)
    : VoiceAssistant :=
  match Purchase.step (purchaseState s) with
  | Purchase.askSupplier =>
      s |> setPurchaseState
             (fun b => Purchase.with_step Purchase.askAmount
                         (Purchase.with_supplier transcript b))
        |> setResponse (localized ("How much did you purchase from " ++ transcript ++ "?")
                                  (transcript ++ "യിൽ നിന്ന് എത്ര രൂപയ്ക്ക് വാങ്ങി?"))
        |> speakMemo_autoListen
             (localized ("How much did you purchase from " ++ transcript ++ "?")
                        (transcript ++ "യിൽ നിന്ന് എത്ര രൂപയ്ക്ക് വാങ്ങി?"))
  | Purchase.askAmount =>
      match amountOf transcript with
      | None =>
          s |> setResponse (amountNotUnderstood transcript)
            |> speakMemo_autoListen amountNotUnderstoodSpoken
      | Some amount =>
          s |> setPurchaseState
                 (fun b => Purchase.with_step Purchase.askPaid
                             (Purchase.with_amount amount b))
            |> setResponse (localized "How much have you paid so far?"
                                      "ഇതുവരെ എത്ര രൂപ നൽകി?")
            |> speakMemo_autoListen (localized "How much have you paid so far?"
                                               "ഇതുവരെ എത്ര രൂപ നൽകി?")
      end
  | Purchase.askPaid =>
      let paid := paidOf transcript in
      let newState :=
        Purchase.with_step Purchase.confirm
          (Purchase.with_paid paid (purchaseState s)) in
      s |> setPurchaseState (fun _ => newState)
        |> setPurchaseConfirmEdit (fun _ => Some newState)
        |> setResponse (purchaseSummary (purchaseState s) paid)
        |> speakMemo_autoListen (purchaseSummary (purchaseState s) paid)
  | Purchase.confirm =>
      if is_affirmative transcript then
        let data := purchaseData s in
        if invalid (Purchase.supplier data) (Purchase.amount data) then
          s |> setResponse purchaseMissing
            |> speakMemo_autoListen purchaseMissing
        else
          s |> dispatchEvent (AddPurchase (Purchase.supplier data) (Purchase.amount data)
                                          (Js.or_else (Purchase.paid data) "0"))
            |> setPurchaseState (Purchase.with_step Purchase.done)
            |> setPurchaseConfirmEdit (fun _ => None)
            |> setResponse (localized "Purchase record added successfully!"
                                      "വാങ്ങൽ രേഖ വിജയകരമായി ചേർത്തു!")
            |> speakMemo (localized "Purchase record added successfully!"
                                    "വാങ്ങൽ രേഖ വിജയകരമായി ചേർത്തു!")
      else if is_negative transcript then
        s |> setPurchaseState (Purchase.with_step Purchase.askAmount)
          |> setPurchaseConfirmEdit (fun _ => None)
          |> setResponse
               (localized "Okay, let’s change the amount. How much did you purchase?"
                          "ശരി, എത്ര രൂപയ്ക്ക് വാങ്ങി?")
          |> speakMemo_autoListen
               (localized "Okay, let’s change the amount. How much did you purchase?"
                          "ശരി, എത്ര രൂപയ്ക്ക് വാങ്ങി?")
      else
        s |> setResponse sayYesOrNo
          |> speakMemo_autoListen sayYesOrNo
  | Purchase.idle | Purchase.done => s
  end.

Definition handlePurchaseQuickCommands (transcript : string) (s : VoiceAssistant)
    : bool * VoiceAssistant :=
  if is_reset transcript then
    (true,
     s |> resetPurchaseConversation
       |> setResponse (localized "Form cleared. Let’s start again. Who is the supplier?"
                                 "ഫോം ക്ലിയർ ചെയ്തു. സപ്ലയർ ആരാണ്?")
       |> speakMemo_autoListen
            (localized "Form cleared. Let’s start again. Who is the supplier?"
                       "ഫോം ക്ലിയർ ചെയ്തു. സപ്ലയർ ആരാണ്?")
       |> setPurchaseState (Purchase.with_step Purchase.askSupplier))
  else if is_cancel transcript then
    (true,
     s |> resetPurchaseConversation
       |> setResponse (localized "Cancelled." "റദ്ദാക്കി.")
       |> speakMemo (localized "Cancelled." "റദ്ദാക്കി."))
  else (false, s).

(** *** Routing a transcript *)

(** [processVoiceCommand] up to its [await]: the command is handed to
    [VoiceCommandService.processCommand]. *)
Definition processVoiceCommand (command : string) (s : VoiceAssistant) : VoiceAssistant :=
  s |> setIsProcessing true |> log_command command.

(** [processVoiceCommand] after its [await], on the service's [result]. *)
Definition commandProcessed (r : Command.Result) (s : VoiceAssistant) : VoiceAssistant :=
  let s1 :=
    s |> setResponse (Command.message r)
      |> setDebugInfo (Command.debug r)
      |> setIsProcessing false
      |> speakMemo (Js.or_else (Command.summary r) (Command.message r)) in
  if Command.success r
     && (Js.includes "successfully" (Command.message r)
         || Js.includes "വിജയകരമായി" (Command.message r))
  then
    (if Js.truthy (Command.type r) && negb (Command.amount r =? 0)
        && Js.truthy (Command.category r)
     then s1 |> dispatchEvent (AddTransaction (Command.type r) (Command.amount r)
                                              (Command.category r)
                                              (Command.description r))
     else s1)
      |> dispatchEvent DataUpdated
  else s1.

Definition handleTranscript (transcript : string) (s : VoiceAssistant) : VoiceAssistant :=
  if negb (Purchase.step_eqb (Purchase.step (purchaseState s)) Purchase.idle) then
    let (handled, s') := handlePurchaseQuickCommands transcript s in
    if handled then s' else handlePurchaseReply transcript s
  else if negb (Borrow.step_eqb (Borrow.step (borrowState s)) Borrow.idle) then
    let (handled, s') := handleQuickCommands transcript s in
    if handled then s' else handleBorrowReply transcript s
  else if Js.test_alternatives purchase_words transcript then
    startPurchaseConversation s
  else if Js.test_alternatives borrow_words transcript then
    startBorrowConversation s
  else processVoiceCommand transcript s.

(** *** The confirmation panels *)

(** The borrow panel is rendered while
    [borrowState.step === 'confirm' && borrowConfirmEdit]. *)
Definition borrowPanelShown (s : VoiceAssistant) : bool :=
  Borrow.step_eqb (Borrow.step (borrowState s)) Borrow.confirm
  && match borrowConfirmEdit s with Some _ => true | None => false end.

Definition purchasePanelShown (s : VoiceAssistant) : bool :=
  Purchase.step_eqb (Purchase.step (purchaseState s)) Purchase.confirm
  && match purchaseConfirmEdit s with Some _ => true | None => false end.

(** The [onChange] of the three inputs of each panel:
    [setBorrowConfirmEdit(s => s && ({ ...s, name: value }))]. *)
Definition editBorrowName (value : string) (s : VoiceAssistant) : VoiceAssistant :=
  if borrowPanelShown s
  then setBorrowConfirmEdit (option_map (Borrow.with_name value)) s else s.

Definition editBorrowAmount (value : string) (s : VoiceAssistant) : VoiceAssistant :=
  if borrowPanelShown s
  then setBorrowConfirmEdit (option_map (Borrow.with_amount value)) s else s.

Definition editBorrowPaid (value : string) (s : VoiceAssistant) : VoiceAssistant :=
  if borrowPanelShown s
  then setBorrowConfirmEdit (option_map (Borrow.with_paid value)) s else s.

Definition editPurchaseSupplier (value : string) (s : VoiceAssistant) : VoiceAssistant :=
  if purchasePanelShown s
  then setPurchaseConfirmEdit (option_map (Purchase.with_supplier value)) s else s.

Definition editPurchaseAmount (value : string) (s : VoiceAssistant) : VoiceAssistant :=
  if purchasePanelShown s
  then setPurchaseConfirmEdit (option_map (Purchase.with_amount value)) s else s.

Definition editPurchasePaid (value : string) (s : VoiceAssistant) : VoiceAssistant :=
  if purchasePanelShown s
  then setPurchaseConfirmEdit (option_map (Purchase.with_paid value)) s else s.

(** The [disabled] attribute of the two Save buttons. *)
Definition borrowSaveDisabled (s : VoiceAssistant) : bool :=
  negb (Borrow.step_eqb (Borrow.step (borrowState s)) Borrow.confirm)
  || match borrowConfirmEdit s with
     | Some e => invalid (Borrow.name e) (Borrow.amount e)
     | None => true
     end
  || isProcessing s
  || isSaving s.

Definition purchaseSaveDisabled (s : VoiceAssistant) : bool :=
  negb (Purchase.step_eqb (Purchase.step (purchaseState s)) Purchase.confirm)
  || match purchaseConfirmEdit s with
     | Some e =>
         (negb (Js.truthy (Purchase.supplier e))
          || Js.test_alternatives unrecognized_supplier (Purchase.supplier e))
         || (negb (Js.truthy (Purchase.amount e))
             || negb (Js.is_numeric (Purchase.amount e)))
     | None => true
     end
  || isProcessing s
  || isSaving s.

(** The continuation of the borrow Save click after [await waitForSave]:
    the promise resolved, or it rejected and the [catch] block ran; the
    [finally] block closes both. *)
Definition borrowSaveSuccess : string :=
  localized "Borrow record added successfully!" "കടം രേഖ വിജയകരമായി ചേർത്തു!".

Definition borrowSaveSucceeded (s : VoiceAssistant) : VoiceAssistant :=
  s |> setBorrowState (Borrow.with_step Borrow.done)
    |> setBorrowConfirmEdit (fun _ => None)
    |> setResponse borrowSaveSuccess
    |> speakMemo borrowSaveSuccess
    |> setIsSaving false.

(** The [errorMessage] of the [catch] block; the error it caught is only
    written to the console. *)
Definition borrowSaveFailure : string :=
  localized "Failed to save borrow record. Please try again."
            "കടം രേഖ സേവ് ചെയ്യുന്നതിൽ പിഴവ് സംഭവിച്ചു. ദയവായി വീണ്ടും ശ്രമിക്കുക.".

Definition borrowSaveFailed (s : VoiceAssistant) : VoiceAssistant :=
  s |> setResponse borrowSaveFailure
    |> speakMemo borrowSaveFailure
    |> setIsSaving false.

(** The [onClick] of the borrow Save button, up to [await waitForSave].
    [eventDispatched] is what [window.dispatchEvent] returns: [false] when a
    listener of [add-borrow] cancelled the event, which rejects the promise at
    once.  A button that is not rendered or is disabled takes no click. *)
Definition clickBorrowSave (eventDispatched : bool) (s : VoiceAssistant)
    : VoiceAssistant :=
  match borrowConfirmEdit s with
  | Some e =>
      if borrowPanelShown s && negb (borrowSaveDisabled s) then
        let waiting :=
          s |> setIsSaving true
            |> setBorrowSaveListeners (S (borrowSaveListeners s))
            |> dispatchEvent (AddBorrow (Js.trim (Borrow.name e)) (Borrow.amount e)
                                        (Js.or_else (Borrow.paid e) "0")) in
        if eventDispatched then waiting
        else waiting |> setBorrowSaveListeners (borrowSaveListeners s)
                     |> borrowSaveFailed
      else s
  | None => s
  end.

(** The Edit button of the borrow panel. *)
Definition clickBorrowEdit (s : VoiceAssistant) : VoiceAssistant :=
  if borrowPanelShown s then
    s |> setBorrowState (Borrow.with_step Borrow.askAmount)
      |> setBorrowConfirmEdit (fun _ => None)
  else s.

Definition purchaseSaveSuccess : string :=
  localized "Purchase record added successfully!" "വാങ്ങൽ രേഖ വിജയകരമായി ചേർത്തു!".

Definition purchaseSaveSucceeded (s : VoiceAssistant) : VoiceAssistant :=
  s |> setPurchaseState (Purchase.with_step Purchase.done)
    |> setPurchaseConfirmEdit (fun _ => None)
    |> setResponse purchaseSaveSuccess
    |> speakMemo purchaseSaveSuccess
    |> setIsSaving false.

Definition purchaseSaveFailure : string :=
  localized "Failed to save purchase. Please try again."
            "വാങ്ങൽ സേവ് ചെയ്യുന്നതിൽ പിഴവ് സംഭവിച്ചു. ദയവായി വീണ്ടും ശ്രമിക്കുക.".

Definition purchaseSaveFailed (s : VoiceAssistant) : VoiceAssistant :=
  s |> setResponse purchaseSaveFailure
    |> speakMemo purchaseSaveFailure
    |> setIsSaving false.

Definition clickPurchaseSave (eventDispatched : bool) (s : VoiceAssistant)
    : VoiceAssistant :=
  match purchaseConfirmEdit s with
  | Some e =>
      if purchasePanelShown s && negb (purchaseSaveDisabled s) then
        let waiting :=
          s |> setIsSaving true
            |> setPurchaseSaveListeners (S (purchaseSaveListeners s))
            |> dispatchEvent (AddPurchase (Js.trim (Purchase.supplier e))
                                          (Purchase.amount e)
                                          (Js.or_else (Purchase.paid e) "0")) in
        if eventDispatched then waiting
        else waiting |> setPurchaseSaveListeners (purchaseSaveListeners s)
                     |> purchaseSaveFailed
      else s
  | None => s
  end.

Definition clickPurchaseEdit (s : VoiceAssistant) : VoiceAssistant :=
  if purchasePanelShown s then
    s |> setPurchaseState (Purchase.with_step Purchase.askAmount)
      |> setPurchaseConfirmEdit (fun _ => None)
  else s.

(** *** Result notifications *)

(** The text of a failed result: the reported error, or a stock phrase when
    there is none.  The Malayalam text shown on the page ends in a blank that
    the spoken one does not have. *)
Definition borrowResultError (e : SaveResult) : string :=
  localized ("Error: " ++ Js.or_else (error e) "Failed to add record.")
            ("തിരിച്ച്: " ++ Js.or_else (error e) "റെക്കോർഡ് ചേർതാൻ").

(** [handleAddBorrowResult], the listener the effect keeps on
    [add-borrow-result]: the effect does not register it, and the handler
    returns at once, when [borrowState.step === 'done']. *)
Definition handleAddBorrowResult (e : SaveResult) (s : VoiceAssistant) : VoiceAssistant :=
  if Borrow.step_eqb (Borrow.step (borrowState s)) Borrow.done then s
  else if success e then
    s |> setResponse (localized "Record added successfully!"
                                "റെക്കോർഡ് വിജയകരമായി ചേർത്തു!")
      |> speakMemo (localized "Record added successfully!"
                              "റെക്കോർഡ് വിജയകരമായി ചേർത്തു!")
      |> setBorrowState (Borrow.with_step Borrow.done)
      |> setBorrowConfirmEdit (fun _ => None)
  else
    s |> setResponse (borrowResultError e ++ localized EmptyString " ")
      |> speakMemo (borrowResultError e).

(** An [add-borrow-result] event reaches the listeners on [window]: the
    effect's listener runs in the dispatch; every [handleSaveResult] a Save
    click left there removes itself and settles its promise, whose
    continuation runs once the dispatch is over. *)
Definition addBorrowResult (e : SaveResult) (s : VoiceAssistant) : VoiceAssistant :=
  s |> handleAddBorrowResult e
    |> setBorrowSaveListeners 0
    |> Nat.iter (borrowSaveListeners s)
         (if success e then borrowSaveSucceeded else borrowSaveFailed).

(** The component keeps no listener of its own on [add-purchase-result]:
    only the Save clicks listen. *)
Definition addPurchaseResult (e : SaveResult) (s : VoiceAssistant) : VoiceAssistant :=
  s |> setPurchaseSaveListeners 0
    |> Nat.iter (purchaseSaveListeners s)
         (if success e then purchaseSaveSucceeded else purchaseSaveFailed).

(** *** Everything that can happen to the component *)

Inductive Input : Set :=
| Heard (transcript : string)
| CommandProcessed (r : Command.Result)
| BorrowNameEdited (value : string)
| BorrowAmountEdited (value : string)
| BorrowPaidEdited (value : string)
| BorrowSaveClicked (eventDispatched : bool)
| BorrowEditClicked
| PurchaseSupplierEdited (value : string)
| PurchaseAmountEdited (value : string)
| PurchasePaidEdited (value : string)
| PurchaseSaveClicked (eventDispatched : bool)
| PurchaseEditClicked
| BorrowResult (e : SaveResult)
| PurchaseResult (e : SaveResult).

Definition react (i : Input) : VoiceAssistant -> VoiceAssistant :=
  match i with
  | Heard transcript => handleTranscript transcript
  | CommandProcessed r => commandProcessed r
  | BorrowNameEdited v => editBorrowName v
  | BorrowAmountEdited v => editBorrowAmount v
  | BorrowPaidEdited v => editBorrowPaid v
  | BorrowSaveClicked d => clickBorrowSave d
  | BorrowEditClicked => clickBorrowEdit
  | PurchaseSupplierEdited v => editPurchaseSupplier v
  | PurchaseAmountEdited v => editPurchaseAmount v
  | PurchasePaidEdited v => editPurchasePaid v
  | PurchaseSaveClicked d => clickPurchaseSave d
  | PurchaseEditClicked => clickPurchaseEdit
  | BorrowResult e => addBorrowResult e
  | PurchaseResult e => addPurchaseResult e
  end.

Definition run (inputs : list Input) (s : VoiceAssistant) : VoiceAssistant :=
  fold_left (fun st i => react i st) inputs s.

End Component.

(** A parser that knows no number words: every amount then comes from the
    digits of the transcript. *)
Definition digitsOnly : string -> option Z := fun _ => None.

(** ** The quantity parser *)

Module QuantityParser.

(** Modelled from the spec: [universalNumberParser] lives in
    [services/voiceCommandService], which is not among the sources; this is
    the parser of section 4.1.  Word-number parsing comes first: the utterance
    is cut into tokens and each token is looked up in the lexicon of the
    language, which holds number words, the scale words hundred and thousand
    and filler words; any other token is skipped.  A scale word multiplies the
    sub-total accumulated so far and folds it into the running total; said on
    its own it stands for one of its kind, as the one word for one thousand of
    the secondary language does.  Number words that follow each other without
    a scale word sum or concatenate by context: units after a word for tens
    sum (twenty five is 25), anything else is appended as decimal digits (two
    five is 25 as well).  When no number word was seen, the first run of
    digits is the amount; failing that there is no result.

    The spec names the word classes and not the words.  Its example twenty
    five = 25 needs more than the digit words for 0 to 9, so the two lexicons
    below hold the usual number words up to ninety. *)
Inductive Language : Set := english | secondaryLanguage.

Inductive ScaleWord : Set := hundred | thousand.

Definition multiplier (w : ScaleWord) : Z :=
  match w with hundred => 100 | thousand => 1000 end.

(** A word of a lexicon: a number word with the number it names, a scale
    word, or a filler word. *)
Inductive Word : Set :=
| Number (v : nat)
| Scale (w : ScaleWord)
| Filler.

Definition Lexicon : Set := list (string * Word).

Definition lexicon (l : Language) : Lexicon :=
  match l with
  | english =>
      [("zero", Number 0); ("one", Number 1); ("two", Number 2); ("three", Number 3);
       ("four", Number 4); ("five", Number 5); ("six", Number 6); ("seven", Number 7);
       ("eight", Number 8); ("nine", Number 9); ("ten", Number 10);
       ("eleven", Number 11); ("twelve", Number 12); ("thirteen", Number 13);
       ("fourteen", Number 14); ("fifteen", Number 15); ("sixteen", Number 16);
       ("seventeen", Number 17); ("eighteen", Number 18); ("nineteen", Number 19);
       ("twenty", Number 20); ("thirty", Number 30); ("forty", Number 40);
       ("fifty", Number 50); ("sixty", Number 60); ("seventy", Number 70);
       ("eighty", Number 80); ("ninety", Number 90);
       ("hundred", Scale hundred); ("thousand", Scale thousand);
       ("and", Filler); ("rupees", Filler); ("only", Filler)]
  | secondaryLanguage =>
      [("പൂജ്യം", Number 0); ("ഒന്ന്", Number 1); ("രണ്ട്", Number 2);
       ("മൂന്ന്", Number 3); ("നാല്", Number 4); ("അഞ്ച്", Number 5);
       ("ആറ്", Number 6); ("ഏഴ്", Number 7); ("എട്ട്", Number 8);
       ("ഒമ്പത്", Number 9); ("പത്ത്", Number 10); ("പതിനൊന്ന്", Number 11);
       ("പന്ത്രണ്ട്", Number 12); ("പതിമൂന്ന്", Number 13); ("പതിനാല്", Number 14);
       ("പതിനഞ്ച്", Number 15); ("പതിനാറ്", Number 16); ("പതിനേഴ്", Number 17);
       ("പതിനെട്ട്", Number 18); ("പത്തൊമ്പത്", Number 19); ("ഇരുപത്", Number 20);
       ("മുപ്പത്", Number 30); ("നാല്പത്", Number 40); ("അമ്പത്", Number 50);
       ("അറുപത്", Number 60); ("എഴുപത്", Number 70); ("എൺപത്", Number 80);
       ("തൊണ്ണൂറ്", Number 90);
       ("നൂറ്", Scale hundred); ("ആയിരം", Scale thousand);
       ("രൂപ", Filler); ("മാത്രം", Filler)]
  end.

Definition classify (lex : Lexicon) (tok : string) : option Word :=
  option_map snd (find (fun e => String.eqb (fst e) tok) lex).

(** Tokens are the maximal runs of characters other than the blank. *)
Definition is_blank (c : ascii) : bool := Ascii.eqb c " ".

Definition close_token (cur : string) (rest : list string) : list string :=
  match cur with
  | EmptyString => rest
  | _ => cur :: rest
  end.

Fixpoint tokens_from (cur : string) (s : string) : list string :=
  match s with
  | EmptyString => close_token cur []
  | String c s' =>
      if is_blank c then close_token cur (tokens_from EmptyString s')
      else tokens_from (cur ++ String c EmptyString) s'
  end.

Definition tokenize (utterance : string) : list string :=
  tokens_from EmptyString utterance.

(** The running total; the sub-total, [None] while no number word has come
    since the start or the last scale word; whether the last number word was
    a word for tens, which units may follow; whether a number or scale word
    was seen at all. *)
Record Acc : Set :=
  acc { total : Z; sub_total : option Z; tens_open : bool; seen : bool }.

(** The words for twenty to ninety, and the units that sum with them. *)
Definition is_tens (v : nat) : bool :=
  (20 <=? v)%nat && (v <? 100)%nat && (v mod 10 =? 0)%nat.

Definition is_unit (v : nat) : bool := (1 <=? v)%nat && (v <=? 9)%nat.

(** The numbers that have a word of their own. *)
Definition in_lexicon (v : nat) : bool := (v <? 20)%nat || is_tens v.

(** The sub-total after one more number word: units after tens sum, anything
    else is appended as one or two decimal digits. *)
Definition join (a : Acc) (v : nat) : Z :=
  match sub_total a with
  | None => Z.of_nat v
  | Some s =>
      if tens_open a && is_unit v then s + Z.of_nat v
      else if (v <? 10)%nat then 10 * s + Z.of_nat v
      else 100 * s + Z.of_nat v
  end.

Definition accumulate (lex : Lexicon) (a : Acc) (tok : string) : Acc :=
  match classify lex tok with
  | Some (Number v) => acc (total a) (Some (join a v)) (is_tens v) true
  | Some (Scale w) =>
      acc (total a
           + match sub_total a with Some s => s | None => 1 end * multiplier w)
          None false true
  | Some Filler | None => a
  end.

Definition parse_words (lex : Lexicon) (utterance : string) : option Z :=
  let a := fold_left (accumulate lex) (tokenize utterance) (acc 0 None false false) in
  if seen a
  then Some (total a + match sub_total a with Some s => s | None => 0 end)
  else None.

Definition parse (utterance : string) (language : Language) : option Z :=
  match parse_words (lexicon language) utterance with
  | Some n => Some n
  | None => option_map Js.parseInt (Js.match_digits utterance)
  end.

(** *** The utterances made of number words only *)

(** A number below one hundred as it is said: one word (zero to nineteen, or
    a word for tens), or a word for tens followed by units. *)
Inductive Below100 : Set :=
| Single (v : nat)
| TensUnits (t u : nat).

Definition below100_numbers (b : Below100) : list nat :=
  match b with
  | Single v => [v]
  | TensUnits t u => [(10 * t)%nat; u]
  end.

Definition below100_value (b : Below100) : Z :=
  match b with
  | Single v => Z.of_nat v
  | TensUnits t u => 10 * Z.of_nat t + Z.of_nat u
  end.

Definition below100_ok (b : Below100) : bool :=
  match b with
  | Single v => in_lexicon v
  | TensUnits t u => (2 <=? t)%nat && (t <=? 9)%nat && is_unit u
  end.

(** How often a scale word counts: the number said before it, or one when it
    is said on its own ([None]). *)
Definition Count : Set := option Below100.

Definition count_value (c : Count) : Z :=
  match c with Some b => below100_value b | None => 1 end.

Definition count_numbers (c : Count) : list nat :=
  match c with Some b => below100_numbers b | None => [] end.

Definition count_ok (c : Count) : bool :=
  match c with Some b => below100_ok b | None => true end.

(** An utterance of number words: thousands, hundreds and a rest below one
    hundred, each of them optional, as in two thousand five hundred or twenty
    five; or digit words said one after another, as in two five zero zero. *)
Inductive Quantity : Set :=
| Composed (thousands hundreds : option Count) (rest : option Below100)
| Spelled (digits : list nat).

(** The word of a lexicon for a number or a scale. *)
Definition word_eqb (a b : Word) : bool :=
  match a, b with
  | Number v, Number v' => Nat.eqb v v'
  | Scale hundred, Scale hundred | Scale thousand, Scale thousand => true
  | Filler, Filler => true
  | _, _ => false
  end.

Definition word_for (lex : Lexicon) (w : Word) : string :=
  match find (fun e => word_eqb (snd e) w) lex with
  | Some e => fst e
  | None => EmptyString
  end.

Definition number_words (lex : Lexicon) (vs : list nat) : list string :=
  map (fun v => word_for lex (Number v)) vs.

Definition scaled_words (lex : Lexicon) (w : ScaleWord) (g : option Count)
    : list string :=
  match g with
  | Some c => (number_words lex (count_numbers c) ++ [word_for lex (Scale w)])%list
  | None => []
  end.

Definition words (lex : Lexicon) (q : Quantity) : list string :=
  match q with
  | Composed th h r =>
      (scaled_words lex thousand th ++ scaled_words lex hundred h
       ++ number_words lex (match r with Some b => below100_numbers b | None => [] end))%list
  | Spelled ds => number_words lex ds
  end.

Definition utterance (l : Language) (q : Quantity) : string :=
  String.concat " " (words (lexicon l) q).

(** The integer the words compose. *)
Definition scaled_value (w : ScaleWord) (g : option Count) : Z :=
  match g with Some c => count_value c * multiplier w | None => 0 end.

Definition value (q : Quantity) : Z :=
  match q with
  | Composed th h r =>
      scaled_value thousand th + scaled_value hundred h
      + match r with Some b => below100_value b | None => 0 end
  | Spelled ds => fold_left (fun n d => 10 * n + Z.of_nat d) ds 0
  end.

(** The parts are said as the lexicon allows, and there is at least one
    word. *)
Definition well_formed (q : Quantity) : bool :=
  match q with
  | Composed th h r =>
      match th with Some c => count_ok c | None => true end
      && match h with Some c => count_ok c | None => true end
      && match r with Some b => below100_ok b | None => true end
      && match th, h, r with None, None, None => false | _, _, _ => true end
  | Spelled ds =>
      forallb (fun d => (d <? 10)%nat) ds
      && match ds with [] => false | _ :: _ => true end
  end.

(** The usual way to say a number below one hundred, and a number of up to
    four digits. *)
Definition below100 (r : nat) : Below100 :=
  if (r <? 20)%nat || (r mod 10 =? 0)%nat then Single r
  else TensUnits (r / 10) (r mod 10).

Definition say (n : nat) : Quantity :=
  Composed
    (if (n / 1000 =? 0)%nat then None else Some (Some (below100 (n / 1000))))
    (if ((n / 100) mod 10 =? 0)%nat then None
     else Some (Some (below100 ((n / 100) mod 10))))
    (if (n mod 100 =? 0)%nat && (100 <=? n)%nat then None
     else Some (below100 (n mod 100))).

(** A token as [tokenize] cuts them: not empty and free of blanks. *)
Fixpoint no_blank (w : string) : bool :=
  match w with
  | EmptyString => true
  | String c w' => negb (is_blank c) && no_blank w'
  end.

Definition token (w : string) : bool := Js.truthy w && no_blank w.

End QuantityParser.

(** ** States of two sample conversations *)

Module Sample.

Definition borrow_asking_amount : VoiceAssistant :=
  run true digitsOnly [Heard "borrow"; Heard "Ravi"] initial.

Definition borrow_asking_paid : VoiceAssistant :=
  run true digitsOnly [Heard "500"] borrow_asking_amount.

Definition borrow_confirming : VoiceAssistant :=
  run true digitsOnly [Heard "200"] borrow_asking_paid.

Definition purchase_asking_amount : VoiceAssistant :=
  run true digitsOnly [Heard "purchase"; Heard "ABC Traders"] initial.

Definition purchase_asking_paid : VoiceAssistant :=
  run true digitsOnly [Heard "1000"] purchase_asking_amount.

Definition purchase_confirming : VoiceAssistant :=
  run true digitsOnly [Heard "400"] purchase_asking_paid.

(** Both flows after the user said yes. *)
Definition borrow_done : VoiceAssistant :=
  run true digitsOnly [Heard "yes"] borrow_confirming.

Definition purchase_done : VoiceAssistant :=
  run true digitsOnly [Heard "yes"] purchase_confirming.

(** The purchase panel after the user typed 0 over the amount. *)
Definition purchase_amount_zeroed : VoiceAssistant :=
  run true digitsOnly [PurchaseAmountEdited "0"] purchase_confirming.

(** A failed result that gives its reason. *)
Definition disk_full : SaveResult := result false "disk full".

End Sample.

(** ** What is watched over a whole session *)

(** The inputs that are result notifications. *)
Definition is_result (i : Input) : bool :=
  match i with
  | BorrowResult _ | PurchaseResult _ => true
  | _ => false
  end.

(** The Save clicks still waiting for their result, over both panels. *)
Definition saves_pending (s : VoiceAssistant) : nat :=
  (borrowSaveListeners s + purchaseSaveListeners s)%nat.

(** At most one flow is under way. *)
Definition one_flow (s : VoiceAssistant) : bool :=
  Purchase.step_eqb (Purchase.step (purchaseState s)) Purchase.idle
  || Borrow.step_eqb (Borrow.step (borrowState s)) Borrow.idle.

(** The commit events of each flow among the dispatched events. *)
Definition borrow_commits (l : list WindowEvent) : list WindowEvent :=
  filter (fun e => match e with AddBorrow _ _ _ => true | _ => false end) l.

Definition purchase_commits (l : list WindowEvent) : list WindowEvent :=
  filter (fun e => match e with AddPurchase _ _ _ => true | _ => false end) l.

(** An [add-transaction] event that carries its three required fields. *)
Definition complete_transaction (e : WindowEvent) : bool :=
  match e with
  | AddTransaction type amount category _ =>
      Js.truthy type && negb (amount =? 0) && Js.truthy category
  | _ => true
  end.

(** ** Shapes of text *)

Module Text.

(** Every character of [s] satisfies [p]. *)
Fixpoint every (p : ascii -> bool) (s : string) : bool :=
  match s with
  | EmptyString => true
  | String c s' => p c && every p s'
  end.

Definition digits_only (s : string) : bool := every Js.is_digit s.

Definition no_digit (s : string) : bool := every (fun c => negb (Js.is_digit c)) s.

(** [s] with its ASCII capitals turned to small letters. *)
Fixpoint lowercase (s : string) : string :=
  match s with
  | EmptyString => EmptyString
  | String c s' => String (Js.fold_case c) (lowercase s')
  end.

End Text.

(** The vocabularies the component tests a transcript or a name against,
    each the alternatives of one regular expression with the [i] flag. *)
Definition vocabularies : list (list string) :=
  [affirmative; negative; reset_words; cancel_words; purchase_words; borrow_words;
   unrecognized_supplier].

(** ** The debounce helper *)

Module Debounce.

Section Debounce.

(** The arguments of the debounced function and the delay, in milliseconds. *)
Variable Args : Type.
Variable delay : nat.

(** The [timer] of the closure: the timeout that is pending, with the time at
    which it is due and the arguments its callback passes to [fn]. *)
Record Timeout : Type := setTimeout { due : nat; args : Args }.

(** The function [debounce] returns, called at time [now]:
    [clearTimeout(timer)], then [timer = setTimeout(() => fn(...args), delay)]. *)
Definition debounce (now : nat) (a : Args) (timer : option Timeout) : option Timeout :=
  Some (setTimeout (now + delay)%nat a).

(** The clock reaching [now]: a pending timeout that is due runs [fn].  The
    result is the timer that is left and the arguments [fn] ran on. *)
Definition elapse (now : nat) (timer : option Timeout)
    : option Timeout * list Args :=
  match timer with
  | Some t => if (due t <=? now)%nat then (None, [args t]) else (timer, [])
  | None => (None, [])
  end.

(** A series of calls, each with its time, in the order they are made, and
    after the last one the clock running on: the arguments [fn] runs on, in
    order. *)
Fixpoint calls (cs : list (nat * Args)) (timer : option Timeout) : list Args :=
  match cs with
  | [] => match timer with Some t => [args t] | None => [] end
  | (now, a) :: cs' =>
      let (timer', ran) := elapse now timer in
      (ran ++ calls cs' (debounce now a timer'))%list
  end.

(** Calls in order of time, each less than [delay] after the one before. *)
Fixpoint rapid (cs : list (nat * Args)) : bool :=
  match cs with
  | (t1, _) :: cs' =>
      match cs' with
      | (t2, _) :: _ => (t1 <=? t2)%nat && (t2 <? t1 + delay)%nat
      | [] => true
      end && rapid cs'
  | [] => true
  end.

(** Calls in order of time, each more than [delay] after the one before. *)
Fixpoint spaced (cs : list (nat * Args)) : bool :=
  match cs with
  | (t1, _) :: cs' =>
      match cs' with
      | (t2, _) :: _ => (t1 + delay <? t2)%nat
      | [] => true
      end && spaced cs'
  | [] => true
  end.

End Debounce.

Arguments setTimeout {Args}.
Arguments due {Args}.
Arguments args {Args}.
Arguments debounce {Args}.
Arguments elapse {Args}.
Arguments calls {Args}.
Arguments rapid {Args}.
Arguments spaced {Args}.

End Debounce.

(** ** The voice of the assistant *)

Module Voices.

(** The fields of a [SpeechSynthesisVoice] the component reads. *)
Record SpeechSynthesisVoice : Set := voice { name : string; lang : string; voiceURI : string }.

(** [/Google|Microsoft|Apple/i.test(v.name)] *)
Definition vendors : list string := ["Google"; "Microsoft"; "Apple"].

Definition preferred (v : SpeechSynthesisVoice) : bool :=
  Js.test_alternatives vendors (name v).

(** [voices.filter(v => v.lang === l)] *)
Definition of_lang (l : string) (voices : list SpeechSynthesisVoice)
    : list SpeechSynthesisVoice :=
  filter (fun v => String.eqb (lang v) l) voices.

(** [!selectedVoiceURI], on a [string | undefined]. *)
Definition unselected (selectedVoiceURI : option string) : bool :=
  match selectedVoiceURI with
  | Some uri => negb (Js.truthy uri)
  | None => true
  end.

(** [preferred ? preferred.voiceURI : vs[0].voiceURI], evaluated only on a
    list that is not empty; on an empty one [vs[0].voiceURI] throws, which is
    [None] here. *)
Definition default_voice (vs : list SpeechSynthesisVoice) : option string :=
  match find preferred vs with
  | Some p => Some (voiceURI p)
  | None =>
      match vs with
      | first :: _ => Some (voiceURI first)
      | [] => None
      end
  end.

(** The three cells [populateVoices] sets. *)
Record Selection : Set :=
  selection { mlVoices : list SpeechSynthesisVoice;
              enVoices : list SpeechSynthesisVoice;
              selectedVoiceURI : option string }.

Definition populateVoices (language : string) (selected : option string)
    (voices : list SpeechSynthesisVoice) : Selection :=
  let ml := of_lang "ml-IN" voices in
  let en := of_lang "en-US" voices in
  selection ml en
    (if String.eqb language "malayalam" && (0 <? length ml)%nat && unselected selected
     then default_voice ml
     else if String.eqb language "english" && (0 <? length en)%nat && unselected selected
     then default_voice en
     else selected).

(** The [lang] of the voices that speak the language of the session. *)
Definition lang_of (language : string) : option string :=
  if String.eqb language "malayalam" then Some "ml-IN"
  else if String.eqb language "english" then Some "en-US"
  else None.

End Voices.

(** ** Speech recognition errors *)

Section Microphone.

Variable isEnglish : bool.

(** The [errorMessage] of [handleSpeechError]. *)
Definition speechErrorMessage (error : string) : string :=
  if Js.includes "no-speech" error then
    localized isEnglish "No speech detected. Please speak clearly and try again."
              "സംസാരം കണ്ടെത്തിയില്ല. ദയവായി വ്യക്തമായി സംസാരിച്ച് വീണ്ടും ശ്രമിക്കുക."
  else if Js.includes "audio-capture" error then
    localized isEnglish "Microphone access denied. Please allow microphone access and try again."
              "മൈക്രോഫോൺ ആക്സസ് നിഷേധിച്ചു. ദയവായി മൈക്രോഫോൺ ആക്സസ് അനുവദിച്ച് വീണ്ടും ശ്രമിക്കുക."
  else if Js.includes "network" error then
    localized isEnglish "Network error. Please check your internet connection and try again."
              "നെറ്റ്‌വർക്ക് പിഴവ്. ദയവായി ഇന്റർനെറ്റ് കണക്ഷൻ പരിശോധിച്ച് വീണ്ടും ശ്രമിക്കുക."
  else
    localized isEnglish ("Speech recognition error: " ++ error ++ ". Please try again.")
              ("സംസാര തിരിച്ചറിയൽ പിഴവ്: " ++ error ++ ". ദയവായി വീണ്ടും ശ്രമിക്കുക.").

(** [handleSpeechError]: the new state of the component and the new value of
    the [micError] cell. *)
Definition handleSpeechError (error : string) (s : VoiceAssistant)
    : VoiceAssistant * string :=
  (s |> setResponse (speechErrorMessage error)
     |> speakMemo (speechErrorMessage error),
   speechErrorMessage error).

End Microphone.

(** The cells of the component that decide what it does next; the texts it
    shows and speaks and its logs are left out. *)
Record Conversation : Set :=
  conversation_of {
    conv_processing : bool;
    conv_saving : bool;
    conv_borrow : BorrowConversationState;
    conv_purchase : PurchaseConversationState;
    conv_borrow_edit : option BorrowConversationState;
    conv_purchase_edit : option PurchaseConversationState;
    conv_dispatched : list WindowEvent;
    conv_borrow_listeners : nat;
    conv_purchase_listeners : nat }.

Definition conversation (s : VoiceAssistant) : Conversation :=
  conversation_of (isProcessing s) (isSaving s) (borrowState s) (purchaseState s)
    (borrowConfirmEdit s) (purchaseConfirmEdit s) (dispatched s)
    (borrowSaveListeners s) (purchaseSaveListeners s).

(** ** Focus and ARIA attributes of a dialog *)

Module Accessibility.

(** A DOM element that matches the selector of the focusable elements: its
    identity, whether it has the [disabled] attribute and whether it is
    rendered ([offsetParent !== null]). *)
Record HTMLElement : Set := element { node : nat; disabled : bool; rendered : bool }.

(** [focusableElements] of [handleKeyDown]: the matches that are enabled and
    rendered. *)
Definition focusableElements (matches : list HTMLElement) : list HTMLElement :=
  filter (fun el => negb (disabled el) && rendered el) matches.

Inductive Key : Set := Tab | OtherKey.

(** [handleKeyDown] of the focus trap, on the matches of the selector in the
    container and the identity of [document.activeElement]: the element it
    moves the focus to after [event.preventDefault()], or [None] when it
    leaves the event to the browser. *)
Definition handleKeyDown (key : Key) (shiftKey : bool) (activeElement : nat)
    (matches : list HTMLElement) : option HTMLElement :=
  match key with
  | Tab =>
      match focusableElements matches with
      | [] => None
      | firstElement :: rest =>
          let lastElement := last rest firstElement in
          if shiftKey then
            if Nat.eqb activeElement (node firstElement) then Some lastElement else None
          else
            if Nat.eqb activeElement (node lastElement) then Some firstElement else None
      end
  | OtherKey => None
  end.

(** The attributes of the container, in the order they were set. *)
Definition Attributes : Set := list (string * string).

Definition getAttribute (name : string) (attrs : Attributes) : option string :=
  option_map snd (find (fun a => String.eqb (fst a) name) attrs).

Definition hasAttribute (name : string) (attrs : Attributes) : bool :=
  match getAttribute name attrs with Some _ => true | None => false end.

Fixpoint setAttribute (name value : string) (attrs : Attributes) : Attributes :=
  match attrs with
  | [] => [(name, value)]
  | (n, v) :: attrs' =>
      if String.eqb n name then (n, value) :: attrs'
      else (n, v) :: setAttribute name value attrs'
  end.

(** The effect that adds the ARIA attributes, on the attributes of the
    container and on [heading]: the [id] of the first heading in it (the
    empty string for a heading without one), [None] when it has no heading. *)
Definition addAriaAttributes (heading : option string) (attrs : Attributes)
    : Attributes :=
  let attrs1 :=
    if negb (hasAttribute "role" attrs) then setAttribute "role" "dialog" attrs
    else attrs in
  let attrs2 :=
    if negb (hasAttribute "aria-modal" attrs1) then setAttribute "aria-modal" "true" attrs1
    else attrs1 in
  if negb (hasAttribute "aria-label" attrs2) && negb (hasAttribute "aria-labelledby" attrs2)
  then
    match heading with
    | Some id =>
        if Js.truthy id then setAttribute "aria-labelledby" id attrs2
        else setAttribute "aria-label" "Dialog" attrs2
    | None => setAttribute "aria-label" "Dialog" attrs2
    end
  else attrs2.

(** The attribute names the effect may set. *)
Definition aria_names : list string :=
  ["role"; "aria-modal"; "aria-label"; "aria-labelledby"].

End Accessibility.

(** * Facts *)

(** ** Digits of a transcript *)

Lemma digit_runs_head s :
  Js.starts_in Js.is_digit s = true ->
  exists rs, Js.digit_runs s = Js.take_digits s :: rs.
Proof.
  induction s as [|c s IH]; [discriminate|].
  cbn [Js.starts_in]. intros Hc.
  cbn [Js.digit_runs Js.take_digits]. rewrite Hc.
  destruct (Js.starts_in Js.is_digit s) eqn:Hs.
  - destruct (IH eq_refl) as [rs ->]. exists rs. reflexivity.
  - exists (Js.digit_runs s). f_equal. f_equal.
    destruct s as [|c' s']; [reflexivity|].
    cbn [Js.starts_in] in Hs. cbn [Js.take_digits]. rewrite Hs. reflexivity.
Qed.

Lemma match_digits_first s :
  Js.match_digits s = hd_error (Js.digit_runs s).
Proof.
  induction s as [|c s IH]; [reflexivity|].
  cbn [Js.match_digits]. destruct (Js.is_digit c) eqn:Hc.
  - destruct (digit_runs_head (String c s) Hc) as [rs ->]. reflexivity.
  - cbn [Js.digit_runs]. rewrite Hc. exact IH.
Qed.

Lemma match_digits_is_run s d :
  Js.match_digits s = Some d -> In d (Js.digit_runs s).
Proof.
  rewrite match_digits_first.
  destruct (Js.digit_runs s) as [|r rs]; [discriminate|].
  intros [= ->]. left. reflexivity.
Qed.

Section Replies.

Variable isEnglish : bool.
Variable universalNumberParser : string -> option Z.

Lemma amountOf_none t :
  (forall n, universalNumberParser t = Some n -> n <= 0) ->
  Forall (fun d => Js.parseInt d <= 0) (Js.digit_runs t) ->
  amountOf universalNumberParser t = None.
Proof.
  intros Hwords Hruns. unfold amountOf.
  assert (Hd : match Js.match_digits t with
               | Some d => if 0 <? Js.parseInt d then Some d else None
               | None => None
               end = None).
  { destruct (Js.match_digits t) as [d|] eqn:Hm; [|reflexivity].
    apply match_digits_is_run in Hm.
    rewrite Forall_forall in Hruns. specialize (Hruns d Hm).
    destruct (Z.ltb_spec 0 (Js.parseInt d)); [lia|reflexivity]. }
  rewrite Hd.
  destruct (universalNumberParser t) as [n|] eqn:Hp; [|reflexivity].
  specialize (Hwords n eq_refl).
  destruct (Z.ltb_spec 0 n); [lia|reflexivity].
Qed.

Lemma paidOf_default t :
  universalNumberParser t = None -> Js.match_digits t = None -> paidOf universalNumberParser t = "0".
Proof. intros Hp Hm. unfold paidOf. rewrite Hp, Hm. reflexivity. Qed.

(** C4.  A reply at [askAmount] from which the number-word parser gets no
    positive value, and none of whose digit runs is a positive integer, is
    answered in both flows by the prompt that the amount was not understood
    and that asks for a clear number; the step stays [askAmount], no amount is
    stored, nothing is dispatched. *)
Theorem amount_reply_not_understood t s :
  (forall n, universalNumberParser t = Some n -> n <= 0) ->
  Forall (fun d => Js.parseInt d <= 0) (Js.digit_runs t) ->
  (Borrow.step (borrowState s) = Borrow.askAmount ->
   let s' := handleBorrowReply isEnglish universalNumberParser t s in
   borrowState s' = borrowState s
   /\ borrowConfirmEdit s' = borrowConfirmEdit s
   /\ dispatched s' = dispatched s
   /\ response s' = amountNotUnderstood isEnglish t
   /\ spoken s' = (spoken s ++ [say (amountNotUnderstoodSpoken isEnglish) true])%list)
  /\
  (Purchase.step (purchaseState s) = Purchase.askAmount ->
   let s' := handlePurchaseReply isEnglish universalNumberParser t s in
   purchaseState s' = purchaseState s
   /\ purchaseConfirmEdit s' = purchaseConfirmEdit s
   /\ dispatched s' = dispatched s
   /\ response s' = amountNotUnderstood isEnglish t
   /\ spoken s' = (spoken s ++ [say (amountNotUnderstoodSpoken isEnglish) true])%list).
Proof.
  intros Hwords Hruns.
  pose proof (amountOf_none t Hwords Hruns) as Hnone.
  split; intros Hstep; cbv zeta.
  - unfold handleBorrowReply. rewrite Hstep, Hnone. repeat split.
  - unfold handlePurchaseReply. rewrite Hstep, Hnone. repeat split.
Qed.

(** C5.  A reply at [askPaid] that gives neither a parsed number nor a digit
    run stores ['0'] as the paid amount and moves to [confirm], with the edit
    buffer set to the new state and the summary as the prompt: neither flow
    asks for the paid amount again. *)
Theorem paid_reply_defaults_to_zero t s :
  universalNumberParser t = None ->
  Js.match_digits t = None ->
  (Borrow.step (borrowState s) = Borrow.askPaid ->
   let s' := handleBorrowReply isEnglish universalNumberParser t s in
   borrowState s'
   = Borrow.mk Borrow.confirm (Borrow.name (borrowState s))
               (Borrow.amount (borrowState s)) "0"
   /\ borrowConfirmEdit s' = Some (borrowState s')
   /\ dispatched s' = dispatched s
   /\ response s' = borrowSummary isEnglish (borrowState s) "0")
  /\
  (Purchase.step (purchaseState s) = Purchase.askPaid ->
   let s' := handlePurchaseReply isEnglish universalNumberParser t s in
   purchaseState s'
   = Purchase.mk Purchase.confirm (Purchase.supplier (purchaseState s))
                 (Purchase.amount (purchaseState s)) "0"
   /\ purchaseConfirmEdit s' = Some (purchaseState s')
   /\ dispatched s' = dispatched s
   /\ response s' = purchaseSummary isEnglish (purchaseState s) "0").
Proof.
  intros Hwords Hdigits.
  pose proof (paidOf_default t Hwords Hdigits) as Hpaid.
  split; intros Hstep; cbv zeta.
  - unfold handleBorrowReply. rewrite Hstep, Hpaid. repeat split.
  - unfold handlePurchaseReply. rewrite Hstep, Hpaid. repeat split.
Qed.

(** C6, amended.  A reply that the reply handler receives at [confirm], that
    matches the negative vocabulary and does not match the affirmative one
    (which the handler tests first), moves the flow back to [askAmount], keeps
    the name or supplier, and drops the edit buffer. *)
Theorem negative_reply_returns_to_amount t s :
  is_negative t = true ->
  is_affirmative t = false ->
  (Borrow.step (borrowState s) = Borrow.confirm ->
   let s' := handleBorrowReply isEnglish universalNumberParser t s in
   Borrow.step (borrowState s') = Borrow.askAmount
   /\ Borrow.name (borrowState s') = Borrow.name (borrowState s)
   /\ borrowConfirmEdit s' = None
   /\ dispatched s' = dispatched s)
  /\
  (Purchase.step (purchaseState s) = Purchase.confirm ->
   let s' := handlePurchaseReply isEnglish universalNumberParser t s in
   Purchase.step (purchaseState s') = Purchase.askAmount
   /\ Purchase.supplier (purchaseState s') = Purchase.supplier (purchaseState s)
   /\ purchaseConfirmEdit s' = None
   /\ dispatched s' = dispatched s).
Proof.
  intros Hneg Haff.
  split; intros Hstep; cbv zeta.
  - unfold handleBorrowReply. rewrite Hstep, Haff, Hneg. repeat split.
  - unfold handlePurchaseReply. rewrite Hstep, Haff, Hneg. repeat split.
Qed.

End Replies.

(** ** Proof steps shared by the facts below *)

(** Two component states with the same cells and the same surroundings are
    the same state. *)
Lemma state_ext s1 s2 :
  isProcessing s1 = isProcessing s2 ->
  isSaving s1 = isSaving s2 ->
  response s1 = response s2 ->
  debugInfo s1 = debugInfo s2 ->
  borrowState s1 = borrowState s2 ->
  purchaseState s1 = purchaseState s2 ->
  borrowConfirmEdit s1 = borrowConfirmEdit s2 ->
  purchaseConfirmEdit s1 = purchaseConfirmEdit s2 ->
  dispatched s1 = dispatched s2 ->
  spoken s1 = spoken s2 ->
  commands s1 = commands s2 ->
  borrowSaveListeners s1 = borrowSaveListeners s2 ->
  purchaseSaveListeners s1 = purchaseSaveListeners s2 ->
  s1 = s2.
Proof.
  destruct s1, s2. cbn. intros. subst. reflexivity.
Qed.

Lemma borrow_at_step st b :
  Borrow.step b = st -> Borrow.with_step st b = b.
Proof. destruct b. cbn. intros ->. reflexivity. Qed.

Lemma purchase_at_step st b :
  Purchase.step b = st -> Purchase.with_step st b = b.
Proof. destruct b. cbn. intros ->. reflexivity. Qed.

(** Reads a cell of the state after the updates of a handler, leaving the
    texts and the lists alone. *)
Ltac run_updates :=
  cbn [setIsProcessing setIsSaving setResponse setDebugInfo setBorrowState
       setPurchaseState setBorrowConfirmEdit setPurchaseConfirmEdit log_event
       log_spoken log_command setBorrowSaveListeners setPurchaseSaveListeners
       dispatchEvent speakMemo speakMemo_autoListen
       borrowSaveFailed borrowSaveSucceeded purchaseSaveFailed purchaseSaveSucceeded
       resetBorrowConversation resetPurchaseConversation
       Borrow.with_step Borrow.with_name Borrow.with_amount Borrow.with_paid
       Purchase.with_step Purchase.with_supplier Purchase.with_amount
       Purchase.with_paid
       isProcessing isSaving response debugInfo borrowState purchaseState
       borrowConfirmEdit purchaseConfirmEdit dispatched spoken commands
       borrowSaveListeners purchaseSaveListeners
       Borrow.step Borrow.name Borrow.amount Borrow.paid
       Purchase.step Purchase.supplier Purchase.amount Purchase.paid
       Borrow.step_eqb Purchase.step_eqb
       success error andb orb negb fst snd] in *.

Ltac same_state :=
  apply state_ext; run_updates;
  try reflexivity; try assumption; try (rewrite <- app_assoc; reflexivity).

(** ** Saving from the confirmation panel *)

Section Saving.

Variable isEnglish : bool.

Lemma iter_borrowSaveFailed n s :
  Nat.iter (S n) (borrowSaveFailed isEnglish) s
  = mkVA (isProcessing s) false (borrowSaveFailure isEnglish) (debugInfo s)
         (borrowState s) (purchaseState s) (borrowConfirmEdit s)
         (purchaseConfirmEdit s) (dispatched s)
         (spoken s ++ repeat (say (borrowSaveFailure isEnglish) false) (S n))%list
         (commands s) (borrowSaveListeners s) (purchaseSaveListeners s).
Proof.
  induction n as [|n IH]; [same_state|].
  change (Nat.iter (S (S n)) (borrowSaveFailed isEnglish) s)
    with (borrowSaveFailed isEnglish (Nat.iter (S n) (borrowSaveFailed isEnglish) s)).
  rewrite IH. same_state.
  rewrite <- app_assoc. f_equal. symmetry. apply (repeat_cons (S n)).
Qed.

Lemma iter_purchaseSaveFailed n s :
  Nat.iter (S n) (purchaseSaveFailed isEnglish) s
  = mkVA (isProcessing s) false (purchaseSaveFailure isEnglish) (debugInfo s)
         (borrowState s) (purchaseState s) (borrowConfirmEdit s)
         (purchaseConfirmEdit s) (dispatched s)
         (spoken s ++ repeat (say (purchaseSaveFailure isEnglish) false) (S n))%list
         (commands s) (borrowSaveListeners s) (purchaseSaveListeners s).
Proof.
  induction n as [|n IH]; [same_state|].
  change (Nat.iter (S (S n)) (purchaseSaveFailed isEnglish) s)
    with (purchaseSaveFailed isEnglish (Nat.iter (S n) (purchaseSaveFailed isEnglish) s)).
  rewrite IH. same_state.
  rewrite <- app_assoc. f_equal. symmetry. apply (repeat_cons (S n)).
Qed.

Lemma iter_borrowSaveSucceeded n s :
  Nat.iter (S n) (borrowSaveSucceeded isEnglish) s
  = mkVA (isProcessing s) false (borrowSaveSuccess isEnglish)
         (debugInfo s) (Borrow.with_step Borrow.done (borrowState s)) (purchaseState s)
         None (purchaseConfirmEdit s) (dispatched s)
         (spoken s ++ repeat (say (borrowSaveSuccess isEnglish) false) (S n))%list
         (commands s) (borrowSaveListeners s) (purchaseSaveListeners s).
Proof.
  induction n as [|n IH]; [same_state|].
  change (Nat.iter (S (S n)) (borrowSaveSucceeded isEnglish) s)
    with (borrowSaveSucceeded isEnglish
            (Nat.iter (S n) (borrowSaveSucceeded isEnglish) s)).
  rewrite IH. same_state.
  rewrite <- app_assoc. f_equal. symmetry. apply (repeat_cons (S n)).
Qed.

Lemma iter_purchaseSaveSucceeded n s :
  Nat.iter (S n) (purchaseSaveSucceeded isEnglish) s
  = mkVA (isProcessing s) false (purchaseSaveSuccess isEnglish)
         (debugInfo s) (borrowState s)
         (Purchase.with_step Purchase.done (purchaseState s))
         (borrowConfirmEdit s) None (dispatched s)
         (spoken s ++ repeat (say (purchaseSaveSuccess isEnglish) false) (S n))%list
         (commands s) (borrowSaveListeners s) (purchaseSaveListeners s).
Proof.
  induction n as [|n IH]; [same_state|].
  change (Nat.iter (S (S n)) (purchaseSaveSucceeded isEnglish) s)
    with (purchaseSaveSucceeded isEnglish
            (Nat.iter (S n) (purchaseSaveSucceeded isEnglish) s)).
  rewrite IH. same_state.
  rewrite <- app_assoc. f_equal. symmetry. apply (repeat_cons (S n)).
Qed.

End Saving.

Section Commit.

Variable isEnglish : bool.
Variable universalNumberParser : string -> option Z.

Lemma borrow_panel_shown s :
  borrowPanelShown s = true ->
  Borrow.step (borrowState s) = Borrow.confirm
  /\ borrowConfirmEdit s = Some (borrowData s).
Proof.
  unfold borrowPanelShown, borrowData. intros H.
  apply andb_true_iff in H as [Hst He].
  destruct (borrowConfirmEdit s); [|discriminate].
  split; [|reflexivity].
  destruct (Borrow.step (borrowState s)); try discriminate; reflexivity.
Qed.

Lemma purchase_panel_shown s :
  purchasePanelShown s = true ->
  Purchase.step (purchaseState s) = Purchase.confirm
  /\ purchaseConfirmEdit s = Some (purchaseData s).
Proof.
  unfold purchasePanelShown, purchaseData. intros H.
  apply andb_true_iff in H as [Hst He].
  destruct (purchaseConfirmEdit s); [|discriminate].
  split; [|reflexivity].
  destruct (Purchase.step (purchaseState s)); try discriminate; reflexivity.
Qed.

(** What a Save click that the page let through leaves behind. *)
Lemma clickBorrowSave_waiting s :
  borrowPanelShown s = true ->
  borrowSaveDisabled s = false ->
  clickBorrowSave isEnglish true s
  = mkVA (isProcessing s) true (response s) (debugInfo s) (borrowState s)
         (purchaseState s) (borrowConfirmEdit s) (purchaseConfirmEdit s)
         (dispatched s
          ++ [AddBorrow (Js.trim (Borrow.name (borrowData s)))
                        (Borrow.amount (borrowData s))
                        (Js.or_else (Borrow.paid (borrowData s)) "0");
              DataUpdated])%list
         (spoken s) (commands s) (S (borrowSaveListeners s)) (purchaseSaveListeners s).
Proof.
  intros Hshown Hdis. unfold clickBorrowSave. rewrite Hshown, Hdis.
  destruct (borrow_panel_shown s Hshown) as [_ He]. rewrite He.
  same_state.
Qed.

Lemma clickPurchaseSave_waiting s :
  purchasePanelShown s = true ->
  purchaseSaveDisabled s = false ->
  clickPurchaseSave isEnglish true s
  = mkVA (isProcessing s) true (response s) (debugInfo s) (borrowState s)
         (purchaseState s) (borrowConfirmEdit s) (purchaseConfirmEdit s)
         (dispatched s
          ++ [AddPurchase (Js.trim (Purchase.supplier (purchaseData s)))
                          (Purchase.amount (purchaseData s))
                          (Js.or_else (Purchase.paid (purchaseData s)) "0");
              DataUpdated])%list
         (spoken s) (commands s) (borrowSaveListeners s) (S (purchaseSaveListeners s)).
Proof.
  intros Hshown Hdis. unfold clickPurchaseSave. rewrite Hshown, Hdis.
  destruct (purchase_panel_shown s Hshown) as [_ He]. rewrite He.
  same_state.
Qed.


(** C1, amended.  At [confirm], an affirmative reply whose fields pass the
    validation dispatches exactly one commit event and at once sets the step
    to [done] and clears the edit buffer, without waiting for a result.  A
    click on an enabled Save button dispatches exactly one commit event and
    leaves the step at [confirm] and the edit buffer as it is while the result
    is awaited; a successful result then sets the step to [done] and clears
    the edit buffer, dispatches nothing more, and any later result leaves the
    state as it is. *)
Theorem commit_once_then_done t s :
  (Borrow.step (borrowState s) = Borrow.confirm ->
   is_affirmative t = true ->
   invalid (Borrow.name (borrowData s)) (Borrow.amount (borrowData s)) = false ->
   let s' := handleBorrowReply isEnglish universalNumberParser t s in
   dispatched s'
   = (dispatched s
      ++ [AddBorrow (Borrow.name (borrowData s)) (Borrow.amount (borrowData s))
                    (Js.or_else (Borrow.paid (borrowData s)) "0");
          DataUpdated])%list
   /\ Borrow.step (borrowState s') = Borrow.done
   /\ borrowConfirmEdit s' = None)
  /\
  (Purchase.step (purchaseState s) = Purchase.confirm ->
   is_affirmative t = true ->
   invalid (Purchase.supplier (purchaseData s)) (Purchase.amount (purchaseData s))
   = false ->
   let s' := handlePurchaseReply isEnglish universalNumberParser t s in
   dispatched s'
   = (dispatched s
      ++ [AddPurchase (Purchase.supplier (purchaseData s))
                      (Purchase.amount (purchaseData s))
                      (Js.or_else (Purchase.paid (purchaseData s)) "0");
          DataUpdated])%list
   /\ Purchase.step (purchaseState s') = Purchase.done
   /\ purchaseConfirmEdit s' = None)
  /\
  (borrowPanelShown s = true ->
   borrowSaveDisabled s = false ->
   let s1 := clickBorrowSave isEnglish true s in
   dispatched s1
   = (dispatched s
      ++ [AddBorrow (Js.trim (Borrow.name (borrowData s)))
                    (Borrow.amount (borrowData s))
                    (Js.or_else (Borrow.paid (borrowData s)) "0");
          DataUpdated])%list
   /\ borrowState s1 = borrowState s
   /\ borrowConfirmEdit s1 = borrowConfirmEdit s
   /\ forall reason,
        let s2 := addBorrowResult isEnglish (result true reason) s1 in
        Borrow.step (borrowState s2) = Borrow.done
        /\ borrowConfirmEdit s2 = None
        /\ dispatched s2 = dispatched s1
        /\ forall e, addBorrowResult isEnglish e s2 = s2)
  /\
  (purchasePanelShown s = true ->
   purchaseSaveDisabled s = false ->
   let s1 := clickPurchaseSave isEnglish true s in
   dispatched s1
   = (dispatched s
      ++ [AddPurchase (Js.trim (Purchase.supplier (purchaseData s)))
                      (Purchase.amount (purchaseData s))
                      (Js.or_else (Purchase.paid (purchaseData s)) "0");
          DataUpdated])%list
   /\ purchaseState s1 = purchaseState s
   /\ purchaseConfirmEdit s1 = purchaseConfirmEdit s
   /\ forall reason,
        let s2 := addPurchaseResult isEnglish (result true reason) s1 in
        Purchase.step (purchaseState s2) = Purchase.done
        /\ purchaseConfirmEdit s2 = None
        /\ dispatched s2 = dispatched s1
        /\ forall e, addPurchaseResult isEnglish e s2 = s2).
Proof.
  split; [|split; [|split]].
  - intros Hstep Haff Hvalid. cbv zeta.
    unfold handleBorrowReply. rewrite Hstep, Haff, Hvalid.
    run_updates. rewrite <- app_assoc. repeat split.
  - intros Hstep Haff Hvalid. cbv zeta.
    unfold handlePurchaseReply. rewrite Hstep, Haff, Hvalid.
    run_updates. rewrite <- app_assoc. repeat split.
  - intros Hshown Hdis. cbv zeta.
    pose proof (clickBorrowSave_waiting s Hshown Hdis) as Hwait.
    destruct (borrow_panel_shown s Hshown) as [Hstep _].
    assert (Hdone : forall reason,
               addBorrowResult isEnglish (result true reason)
                 (clickBorrowSave isEnglish true s)
               = mkVA (isProcessing s) false (borrowSaveSuccess isEnglish)
                      (debugInfo s) (Borrow.with_step Borrow.done (borrowState s))
                      (purchaseState s) None (purchaseConfirmEdit s)
                      (dispatched (clickBorrowSave isEnglish true s))
                      ((spoken s ++ [say (localized isEnglish "Record added successfully!"
                                                             "റെക്കോർഡ് വിജയകരമായി ചേർത്തു!")
                                         false])
                       ++ repeat (say (borrowSaveSuccess isEnglish) false)
                                 (S (borrowSaveListeners s)))%list
                      (commands s) 0%nat (purchaseSaveListeners s)).
    { intros reason. rewrite Hwait. unfold addBorrowResult. run_updates.
      rewrite iter_borrowSaveSucceeded. unfold handleAddBorrowResult.
      run_updates. rewrite Hstep. same_state. }
    rewrite Hwait in *. run_updates.
    repeat split; try intros e; rewrite Hdone; reflexivity.
  - intros Hshown Hdis. cbv zeta.
    pose proof (clickPurchaseSave_waiting s Hshown Hdis) as Hwait.
    assert (Hdone : forall reason,
               addPurchaseResult isEnglish (result true reason)
                 (clickPurchaseSave isEnglish true s)
               = mkVA (isProcessing s) false (purchaseSaveSuccess isEnglish)
                      (debugInfo s) (borrowState s)
                      (Purchase.with_step Purchase.done (purchaseState s))
                      (borrowConfirmEdit s) None
                      (dispatched (clickPurchaseSave isEnglish true s))
                      (spoken s
                       ++ repeat (say (purchaseSaveSuccess isEnglish) false)
                                 (S (purchaseSaveListeners s)))%list
                      (commands s) (borrowSaveListeners s) 0%nat).
    { intros reason. rewrite Hwait. unfold addPurchaseResult. run_updates.
      rewrite iter_purchaseSaveSucceeded. same_state. }
    rewrite Hwait in *. run_updates.
    repeat split; try intros e; rewrite Hdone; reflexivity.
Qed.

End Commit.

(** ** Text of a prompt *)

Lemma starts_with_app r q : Js.starts_with r (r ++ q) = true.
Proof.
  induction r as [|c r IH]; [reflexivity|].
  cbn [append Js.starts_with]. rewrite Ascii.eqb_refl. exact IH.
Qed.

Lemma includes_here r q : Js.includes r (r ++ q) = true.
Proof.
  destruct (r ++ q) eqn:E; cbn [Js.includes];
    rewrite <- E, starts_with_app; reflexivity.
Qed.

Lemma includes_after p r x :
  Js.includes r x = true -> Js.includes r (p ++ x) = true.
Proof.
  intros H. induction p as [|c p IH]; [exact H|].
  cbn [append Js.includes]. rewrite IH. apply orb_true_r.
Qed.

Section Failure.

Variable isEnglish : bool.

(** The spoken text of a failed borrow result carries the reported error. *)
Lemma borrowResultError_has_reason e :
  Js.includes (error e) (borrowResultError isEnglish e) = true.
Proof.
  unfold borrowResultError, localized.
  assert (H : forall d, Js.includes (error e) (Js.or_else (error e) d) = true).
  { intros d. destruct (error e) as [|c r] eqn:E; [destruct d; reflexivity|].
    cbn [Js.or_else]. rewrite <- (includes_here (String c r) EmptyString) at 1.
    f_equal. clear. induction (String c r) as [|a x IH]; [reflexivity|].
    cbn [append]. f_equal. exact IH. }
  destruct isEnglish; apply includes_after, H.
Qed.

Lemma save_stays_enabled_borrow s s' :
  borrowSaveDisabled s = false ->
  borrowState s' = borrowState s ->
  borrowConfirmEdit s' = borrowConfirmEdit s ->
  isProcessing s' = isProcessing s ->
  isSaving s' = false ->
  borrowSaveDisabled s' = false.
Proof.
  unfold borrowSaveDisabled. intros H -> -> -> ->.
  apply orb_false_iff in H as [H _]. rewrite H. reflexivity.
Qed.

Lemma save_stays_enabled_purchase s s' :
  purchaseSaveDisabled s = false ->
  purchaseState s' = purchaseState s ->
  purchaseConfirmEdit s' = purchaseConfirmEdit s ->
  isProcessing s' = isProcessing s ->
  isSaving s' = false ->
  purchaseSaveDisabled s' = false.
Proof.
  unfold purchaseSaveDisabled. intros H -> -> -> ->.
  apply orb_false_iff in H as [H _]. rewrite H. reflexivity.
Qed.

(** C3, amended.  When the commit of a Save click is answered by a failed
    result, the flow is still at [confirm] with its slots and its edit buffer
    unchanged, the Save button is enabled again, and the stock failure message
    is shown and spoken; in the borrow flow the result listener also speaks a
    text that carries the reported error. *)
Theorem failed_save_stays_confirming e s :
  success e = false ->
  (borrowPanelShown s = true ->
   borrowSaveDisabled s = false ->
   let s2 := addBorrowResult isEnglish e (clickBorrowSave isEnglish true s) in
   Borrow.step (borrowState s2) = Borrow.confirm
   /\ borrowState s2 = borrowState s
   /\ borrowConfirmEdit s2 = borrowConfirmEdit s
   /\ borrowSaveDisabled s2 = false
   /\ response s2 = borrowSaveFailure isEnglish
   /\ In (say (borrowSaveFailure isEnglish) false) (spoken s2)
   /\ In (say (borrowResultError isEnglish e) false) (spoken s2)
   /\ Js.includes (error e) (borrowResultError isEnglish e) = true)
  /\
  (purchasePanelShown s = true ->
   purchaseSaveDisabled s = false ->
   let s2 := addPurchaseResult isEnglish e (clickPurchaseSave isEnglish true s) in
   Purchase.step (purchaseState s2) = Purchase.confirm
   /\ purchaseState s2 = purchaseState s
   /\ purchaseConfirmEdit s2 = purchaseConfirmEdit s
   /\ purchaseSaveDisabled s2 = false
   /\ response s2 = purchaseSaveFailure isEnglish
   /\ In (say (purchaseSaveFailure isEnglish) false) (spoken s2)).
Proof.
  intros Hfail. split.
  - intros Hshown Hdis. cbv zeta.
    rewrite (clickBorrowSave_waiting isEnglish s Hshown Hdis).
    destruct (borrow_panel_shown s Hshown) as [Hstep _].
    unfold addBorrowResult. run_updates. rewrite Hfail, iter_borrowSaveFailed.
    unfold handleAddBorrowResult. run_updates. rewrite Hstep, Hfail. run_updates.
    repeat split.
    + exact Hstep.
    + apply (save_stays_enabled_borrow s); auto.
    + apply in_or_app. right. left. reflexivity.
    + apply in_or_app. left. apply in_or_app. right. left. reflexivity.
    + apply borrowResultError_has_reason.
  - intros Hshown Hdis. cbv zeta.
    rewrite (clickPurchaseSave_waiting isEnglish s Hshown Hdis).
    destruct (purchase_panel_shown s Hshown) as [Hstep _].
    unfold addPurchaseResult. run_updates. rewrite Hfail, iter_purchaseSaveFailed.
    run_updates.
    repeat split.
    + exact Hstep.
    + apply (save_stays_enabled_purchase s); auto.
    + apply in_or_app. right. left. reflexivity.
Qed.

End Failure.

(** ** Routing, quick commands and late results *)

Section Routing.

Variable isEnglish : bool.
Variable universalNumberParser : string -> option Z.

(** A transcript that is no quick command reaches the reply handler of the
    flow that is under way, the purchase flow first. *)
Lemma handleTranscript_purchase_reply t s :
  Purchase.step (purchaseState s) <> Purchase.idle ->
  is_reset t = false ->
  is_cancel t = false ->
  handleTranscript isEnglish universalNumberParser t s
  = handlePurchaseReply isEnglish universalNumberParser t s.
Proof.
  intros Hstep Hreset Hcancel. unfold handleTranscript, handlePurchaseQuickCommands.
  rewrite Hreset, Hcancel.
  destruct (Purchase.step (purchaseState s)); try reflexivity. contradiction.
Qed.

Lemma handleTranscript_borrow_reply t s :
  Purchase.step (purchaseState s) = Purchase.idle ->
  Borrow.step (borrowState s) <> Borrow.idle ->
  is_reset t = false ->
  is_cancel t = false ->
  handleTranscript isEnglish universalNumberParser t s
  = handleBorrowReply isEnglish universalNumberParser t s.
Proof.
  intros Hidle Hstep Hreset Hcancel. unfold handleTranscript, handleQuickCommands.
  rewrite Hidle, Hreset, Hcancel. cbn [Purchase.step_eqb negb].
  destruct (Borrow.step (borrowState s)); try reflexivity. contradiction.
Qed.

(** C8, amended.  At [done] the reply handlers change nothing, whatever the
    reply; a transcript that is neither a reset nor a cancel quick command
    therefore leaves the whole component as it is.  The two quick commands are
    still obeyed at [done]: reset starts the flow again at its first step with
    empty slots, cancel brings it back to [idle]. *)
Theorem reply_at_done_is_ignored t s :
  (Borrow.step (borrowState s) = Borrow.done ->
   handleBorrowReply isEnglish universalNumberParser t s = s)
  /\
  (Purchase.step (purchaseState s) = Purchase.done ->
   handlePurchaseReply isEnglish universalNumberParser t s = s)
  /\
  (Purchase.step (purchaseState s) = Purchase.done ->
   let s' := handleTranscript isEnglish universalNumberParser t s in
   (is_reset t = false -> is_cancel t = false -> s' = s)
   /\ (is_reset t = true ->
       purchaseState s'
       = Purchase.mk Purchase.askSupplier EmptyString EmptyString EmptyString)
   /\ (is_reset t = false -> is_cancel t = true ->
       purchaseState s'
       = Purchase.mk Purchase.idle EmptyString EmptyString EmptyString))
  /\
  (Purchase.step (purchaseState s) = Purchase.idle ->
   Borrow.step (borrowState s) = Borrow.done ->
   let s' := handleTranscript isEnglish universalNumberParser t s in
   (is_reset t = false -> is_cancel t = false -> s' = s)
   /\ (is_reset t = true ->
       borrowState s' = Borrow.mk Borrow.askName EmptyString EmptyString EmptyString)
   /\ (is_reset t = false -> is_cancel t = true ->
       borrowState s' = Borrow.mk Borrow.idle EmptyString EmptyString EmptyString)).
Proof.
  assert (Hb : Borrow.step (borrowState s) = Borrow.done ->
               handleBorrowReply isEnglish universalNumberParser t s = s).
  { intros Hdone. unfold handleBorrowReply. rewrite Hdone. reflexivity. }
  assert (Hp : Purchase.step (purchaseState s) = Purchase.done ->
               handlePurchaseReply isEnglish universalNumberParser t s = s).
  { intros Hdone. unfold handlePurchaseReply. rewrite Hdone. reflexivity. }
  split; [exact Hb|]. split; [exact Hp|]. split.
  - intros Hdone. cbv zeta. split; [|split].
    + intros Hreset Hcancel. rewrite handleTranscript_purchase_reply; auto.
      rewrite Hdone. discriminate.
    + intros Hreset. unfold handleTranscript, handlePurchaseQuickCommands.
      rewrite Hdone, Hreset. reflexivity.
    + intros Hreset Hcancel. unfold handleTranscript, handlePurchaseQuickCommands.
      rewrite Hdone, Hreset, Hcancel. reflexivity.
  - intros Hidle Hdone. cbv zeta. split; [|split].
    + intros Hreset Hcancel. rewrite handleTranscript_borrow_reply; auto.
      rewrite Hdone. discriminate.
    + intros Hreset. unfold handleTranscript, handleQuickCommands.
      rewrite Hidle, Hdone, Hreset. reflexivity.
    + intros Hreset Hcancel. unfold handleTranscript, handleQuickCommands.
      rewrite Hidle, Hdone, Hreset, Hcancel. reflexivity.
Qed.

(** C9, amended.  The result listener checks for [done] only.  Once the
    borrow flow is at [done] the listener ignores every result, the step and
    the slots stay as they are, and with no Save click waiting the whole state
    is unchanged; likewise for the purchase flow, whose only listeners are the
    Save clicks. *)
Theorem late_result_ignored_when_done e s :
  (Borrow.step (borrowState s) = Borrow.done ->
   handleAddBorrowResult isEnglish e s = s
   /\ borrowState (addBorrowResult isEnglish e s) = borrowState s
   /\ (borrowSaveListeners s = 0%nat -> addBorrowResult isEnglish e s = s))
  /\
  (Purchase.step (purchaseState s) = Purchase.done ->
   purchaseState (addPurchaseResult isEnglish e s) = purchaseState s
   /\ (purchaseSaveListeners s = 0%nat -> addPurchaseResult isEnglish e s = s)).
Proof.
  split; intros Hdone.
  - assert (Hl : handleAddBorrowResult isEnglish e s = s).
    { unfold handleAddBorrowResult. rewrite Hdone. reflexivity. }
    split; [exact Hl|]. unfold addBorrowResult. rewrite Hl. split.
    + destruct (borrowSaveListeners s) as [|n]; [reflexivity|].
      destruct (success e).
      * rewrite iter_borrowSaveSucceeded. run_updates.
        apply borrow_at_step, Hdone.
      * rewrite iter_borrowSaveFailed. reflexivity.
    + intros Hnone. rewrite Hnone. cbn [Nat.iter nat_rect]. same_state.
      symmetry. exact Hnone.
  - unfold addPurchaseResult. split.
    + destruct (purchaseSaveListeners s) as [|n]; [reflexivity|].
      destruct (success e).
      * rewrite iter_purchaseSaveSucceeded. run_updates.
        apply purchase_at_step, Hdone.
      * rewrite iter_purchaseSaveFailed. reflexivity.
    + intros Hnone. rewrite Hnone. cbn [Nat.iter nat_rect]. same_state.
      symmetry. exact Hnone.
Qed.

(** C10, amended.  At [confirm], a transcript that matches the cancel
    vocabulary is taken by the quick commands and never as a negative reply:
    the slots are cleared, nothing is dispatched and the step is not
    [askAmount].  When it does not also match the reset vocabulary, which is
    tested first, the flow is back at [idle] and the cancellation is
    announced; when it does, the flow starts again at its first step.  The
    Malayalam word of both the cancel and the negative vocabulary is such a
    transcript. *)
Theorem cancel_word_at_confirm t s :
  is_cancel t = true ->
  (Purchase.step (purchaseState s) = Purchase.idle ->
   Borrow.step (borrowState s) = Borrow.confirm ->
   let s' := handleTranscript isEnglish universalNumberParser t s in
   Borrow.step (borrowState s') <> Borrow.askAmount
   /\ Borrow.name (borrowState s') = EmptyString
   /\ Borrow.amount (borrowState s') = EmptyString
   /\ Borrow.paid (borrowState s') = EmptyString
   /\ dispatched s' = dispatched s
   /\ (is_reset t = false ->
       borrowState s'
       = Borrow.mk Borrow.idle EmptyString EmptyString EmptyString
       /\ response s' = localized isEnglish "Cancelled." "റദ്ദാക്കി.")
   /\ (is_reset t = true ->
       borrowState s'
       = Borrow.mk Borrow.askName EmptyString EmptyString EmptyString))
  /\
  (Purchase.step (purchaseState s) = Purchase.confirm ->
   let s' := handleTranscript isEnglish universalNumberParser t s in
   Purchase.step (purchaseState s') <> Purchase.askAmount
   /\ Purchase.supplier (purchaseState s') = EmptyString
   /\ Purchase.amount (purchaseState s') = EmptyString
   /\ Purchase.paid (purchaseState s') = EmptyString
   /\ dispatched s' = dispatched s
   /\ (is_reset t = false ->
       purchaseState s'
       = Purchase.mk Purchase.idle EmptyString EmptyString EmptyString
       /\ response s' = localized isEnglish "Cancelled." "റദ്ദാക്കി.")
   /\ (is_reset t = true ->
       purchaseState s'
       = Purchase.mk Purchase.askSupplier EmptyString EmptyString EmptyString))
  /\
  (is_cancel "വേണ്ട" = true /\ is_reset "വേണ്ട" = false /\ is_negative "വേണ്ട" = true).
Proof.
  intros Hcancel. split; [|split].
  - intros Hidle Hstep. cbv zeta.
    unfold handleTranscript, handleQuickCommands.
    rewrite Hidle, Hstep, Hcancel. cbn [Purchase.step_eqb Borrow.step_eqb negb].
    destruct (is_reset t); run_updates; repeat split; try discriminate.
  - intros Hstep. cbv zeta.
    unfold handleTranscript, handlePurchaseQuickCommands.
    rewrite Hstep, Hcancel. cbn [Purchase.step_eqb negb].
    destruct (is_reset t); run_updates; repeat split; try discriminate.
  - repeat split; vm_compute; reflexivity.
Qed.

(** The validation stops a commit on the three paths that run it: the two
    affirmative replies and the borrow Save button. *)
Lemma invalid_fields_are_not_committed t s :
  is_affirmative t = true ->
  (Borrow.step (borrowState s) = Borrow.confirm ->
   invalid (Borrow.name (borrowData s)) (Borrow.amount (borrowData s)) = true ->
   let s' := handleBorrowReply isEnglish universalNumberParser t s in
   dispatched s' = dispatched s
   /\ borrowState s' = borrowState s
   /\ borrowConfirmEdit s' = borrowConfirmEdit s
   /\ response s' = borrowMissing isEnglish)
  /\
  (Purchase.step (purchaseState s) = Purchase.confirm ->
   invalid (Purchase.supplier (purchaseData s)) (Purchase.amount (purchaseData s))
   = true ->
   let s' := handlePurchaseReply isEnglish universalNumberParser t s in
   dispatched s' = dispatched s
   /\ purchaseState s' = purchaseState s
   /\ purchaseConfirmEdit s' = purchaseConfirmEdit s
   /\ response s' = purchaseMissing isEnglish)
  /\
  (invalid (Borrow.name (borrowData s)) (Borrow.amount (borrowData s)) = true ->
   forall eventDispatched, clickBorrowSave isEnglish eventDispatched s = s).
Proof.
  intros Haff. split; [|split].
  - intros Hstep Hbad. cbv zeta. unfold handleBorrowReply.
    rewrite Hstep, Haff, Hbad. repeat split.
  - intros Hstep Hbad. cbv zeta. unfold handlePurchaseReply.
    rewrite Hstep, Haff, Hbad. repeat split.
  - intros Hbad d. unfold clickBorrowSave, borrowSaveDisabled.
    unfold borrowData in Hbad.
    destruct (borrowConfirmEdit s) as [e|]; [|reflexivity].
    rewrite Hbad. rewrite orb_true_r. cbn [orb negb andb].
    rewrite andb_false_r. reflexivity.
Qed.

End Routing.

(** ** The quantity parser on number words *)

Module QuantityParserFacts.

Import QuantityParser.

Lemma append_nil_r (w : string) : (w ++ EmptyString)%string = w.
Proof. induction w as [|c w IH]; [reflexivity|]. cbn. rewrite IH. reflexivity. Qed.

Lemma append_assoc (a b c : string) : ((a ++ b) ++ c)%string = (a ++ b ++ c)%string.
Proof. induction a as [|x a IH]; [reflexivity|]. cbn. rewrite IH. reflexivity. Qed.

Lemma tokens_from_word cur w rest :
  no_blank w = true ->
  tokens_from cur (w ++ rest) = tokens_from (cur ++ w) rest.
Proof.
  revert cur. induction w as [|c w IH]; intros cur Hw.
  - rewrite append_nil_r. reflexivity.
  - cbn [no_blank] in Hw. apply andb_true_iff in Hw as [Hc Hw].
    cbn [append tokens_from]. apply negb_true_iff in Hc. rewrite Hc.
    rewrite IH by exact Hw. rewrite append_assoc. reflexivity.
Qed.

Lemma tokenize_concat ws :
  forallb token ws = true ->
  tokenize (String.concat " " ws) = ws.
Proof.
  unfold tokenize. induction ws as [|w ws IH]; [reflexivity|].
  cbn [forallb]. intros H. apply andb_true_iff in H as [Hw Hws].
  apply andb_true_iff in Hw as [Hne Hnb].
  destruct ws as [|w' ws'].
  - cbn [String.concat]. rewrite <- (append_nil_r w) at 1.
    rewrite tokens_from_word by exact Hnb. cbn [append tokens_from].
    destruct w; [discriminate|reflexivity].
  - change (String.concat " " (w :: w' :: ws'))
      with (w ++ " " ++ String.concat " " (w' :: ws'))%string.
    rewrite tokens_from_word by exact Hnb.
    cbn [append tokens_from].
    change (is_blank " ") with true. cbv iota.
    rewrite (IH Hws). destruct w; [discriminate|reflexivity].
Qed.

(** Each lexicon has a word for every number of [in_lexicon] and for both
    scales; the word is a token and the lexicon reads it back. *)
Lemma in_lexicon_below v : in_lexicon v = true -> (v < 100)%nat.
Proof.
  unfold in_lexicon, is_tens. intros H. apply orb_true_iff in H as [H|H].
  - apply Nat.ltb_lt in H. lia.
  - apply andb_true_iff in H as [H _]. apply andb_true_iff in H as [_ H].
    apply Nat.ltb_lt in H. exact H.
Qed.

Lemma number_word_read l v :
  in_lexicon v = true ->
  token (word_for (lexicon l) (Number v)) = true
  /\ classify (lexicon l) (word_for (lexicon l) (Number v)) = Some (Number v).
Proof.
  intros H. pose proof (in_lexicon_below v H) as Hv.
  do 100 (destruct v as [|v];
          [first [ discriminate H | destruct l; vm_compute; split; reflexivity ]|]).
  lia.
Qed.

Lemma scale_word_read l w :
  token (word_for (lexicon l) (Scale w)) = true
  /\ classify (lexicon l) (word_for (lexicon l) (Scale w)) = Some (Scale w).
Proof. destruct l, w; vm_compute; split; reflexivity. Qed.

Lemma accumulate_number l v a :
  in_lexicon v = true ->
  accumulate (lexicon l) a (word_for (lexicon l) (Number v))
  = acc (total a) (Some (join a v)) (is_tens v) true.
Proof.
  intros H. unfold accumulate. destruct (number_word_read l v H) as [_ ->].
  reflexivity.
Qed.

Lemma accumulate_scale l w a :
  accumulate (lexicon l) a (word_for (lexicon l) (Scale w))
  = acc (total a + match sub_total a with Some s => s | None => 1 end * multiplier w)
        None false true.
Proof.
  unfold accumulate. destruct (scale_word_read l w) as [_ ->]. reflexivity.
Qed.

Lemma below100_in_lexicon b :
  below100_ok b = true -> forallb in_lexicon (below100_numbers b) = true.
Proof.
  destruct b as [v|t u]; cbn [below100_ok below100_numbers forallb].
  - intros ->. reflexivity.
  - intros H. apply andb_true_iff in H as [H Hu].
    apply andb_true_iff in H as [Ht2 Ht9].
    apply Nat.leb_le in Ht2, Ht9.
    assert (Hu' : in_lexicon u = true).
    { unfold is_unit in Hu. apply andb_true_iff in Hu as [_ Hu].
      apply Nat.leb_le in Hu. unfold in_lexicon.
      apply orb_true_iff. left. apply Nat.ltb_lt. lia. }
    rewrite Hu'.
    do 10 (destruct t as [|t]; [first [lia | reflexivity]|]). lia.
Qed.

Lemma fold_below100 l b t s0 rest :
  below100_ok b = true ->
  exists o,
    fold_left (accumulate (lexicon l))
      (number_words (lexicon l) (below100_numbers b) ++ rest)%list
      (acc t None false s0)
    = fold_left (accumulate (lexicon l)) rest
        (acc t (Some (below100_value b)) o true).
Proof.
  intros Hb. pose proof (below100_in_lexicon b Hb) as Hin.
  destruct b as [v|tens u]; cbn [below100_numbers forallb] in Hin.
  - rewrite andb_true_r in Hin.
    cbn [number_words map below100_numbers app fold_left].
    rewrite (accumulate_number l v _ Hin). exists (is_tens v). reflexivity.
  - apply andb_true_iff in Hin as [Ht Hu]. rewrite andb_true_r in Hu.
    cbn [number_words map below100_numbers app fold_left].
    rewrite (accumulate_number l _ _ Ht), (accumulate_number l _ _ Hu).
    exists (is_tens u). f_equal. f_equal. f_equal.
    cbn [below100_ok] in Hb. apply andb_true_iff in Hb as [Hb Hunit].
    apply andb_true_iff in Hb as [Ht2 Ht9]. apply Nat.leb_le in Ht2, Ht9.
    unfold join. cbn [sub_total tens_open]. rewrite Hunit.
    assert (Hopen : is_tens (10 * tens) = true).
    { do 10 (destruct tens as [|tens]; [first [lia | reflexivity]|]). lia. }
    rewrite Hopen. cbn [andb below100_value]. lia.
Qed.

Lemma fold_scaled l w g t s0 rest :
  match g with Some c => count_ok c | None => true end = true ->
  fold_left (accumulate (lexicon l)) (scaled_words (lexicon l) w g ++ rest)%list
    (acc t None false s0)
  = fold_left (accumulate (lexicon l)) rest
      (acc (t + scaled_value w g) None false
           (match g with Some _ => true | None => s0 end)).
Proof.
  intros Hg. destruct g as [[b|]|]; cbn [scaled_words scaled_value count_numbers
                                         count_value count_ok] in *.
  - rewrite <- app_assoc. destruct (fold_below100 l b t s0 ([word_for (lexicon l) (Scale w)] ++ rest)%list Hg)
      as [o ->].
    cbn [app fold_left]. rewrite accumulate_scale. reflexivity.
  - cbn [number_words map app fold_left]. rewrite accumulate_scale. reflexivity.
  - cbn [app]. rewrite Z.add_0_r. reflexivity.
Qed.

Lemma is_tens_digit d : (d <? 10)%nat = true -> is_tens d = false.
Proof.
  intros H. apply Nat.ltb_lt in H. unfold is_tens.
  destruct (Nat.leb_spec 20 d); [lia|reflexivity].
Qed.

Lemma digit_in_lexicon d : (d <? 10)%nat = true -> in_lexicon d = true.
Proof.
  intros H. apply Nat.ltb_lt in H. unfold in_lexicon.
  apply orb_true_iff. left. apply Nat.ltb_lt. lia.
Qed.

Lemma fold_digits l ds : forall s t,
  forallb (fun d => (d <? 10)%nat) ds = true ->
  fold_left (accumulate (lexicon l)) (number_words (lexicon l) ds)
    (acc t (Some s) false true)
  = acc t (Some (fold_left (fun n d => 10 * n + Z.of_nat d) ds s)) false true.
Proof.
  induction ds as [|d ds IH]; intros s t Hds; [reflexivity|].
  cbn [forallb] in Hds. apply andb_true_iff in Hds as [Hd Hds].
  cbn [number_words map fold_left].
  rewrite (accumulate_number l d _ (digit_in_lexicon d Hd)).
  unfold join. cbn [sub_total tens_open total andb].
  rewrite Hd, (is_tens_digit d Hd). apply (IH _ _ Hds).
Qed.

Lemma number_words_tokens l vs :
  forallb in_lexicon vs = true ->
  forallb token (number_words (lexicon l) vs) = true.
Proof.
  induction vs as [|v vs IH]; [reflexivity|].
  cbn [forallb number_words map]. intros H. apply andb_true_iff in H as [Hv Hvs].
  destruct (number_word_read l v Hv) as [-> _]. exact (IH Hvs).
Qed.

Lemma scaled_words_tokens l w g :
  match g with Some c => count_ok c | None => true end = true ->
  forallb token (scaled_words (lexicon l) w g) = true.
Proof.
  intros Hg. destruct g as [[b|]|]; cbn [scaled_words count_numbers count_ok] in *.
  - rewrite forallb_app, (number_words_tokens l _ (below100_in_lexicon b Hg)).
    cbn [forallb]. destruct (scale_word_read l w) as [-> _]. reflexivity.
  - cbn [number_words map app forallb].
    destruct (scale_word_read l w) as [-> _]. reflexivity.
  - reflexivity.
Qed.

Lemma digits_in_lexicon ds :
  forallb (fun d => (d <? 10)%nat) ds = true -> forallb in_lexicon ds = true.
Proof.
  induction ds as [|d ds IH]; [reflexivity|].
  cbn [forallb]. intros H. apply andb_true_iff in H as [Hd Hds].
  rewrite (digit_in_lexicon d Hd). exact (IH Hds).
Qed.

Lemma words_tokens l q :
  well_formed q = true -> forallb token (words (lexicon l) q) = true.
Proof.
  destruct q as [th h r|ds]; cbn [well_formed words]; intros H.
  - apply andb_true_iff in H as [H _]. apply andb_true_iff in H as [H Hr].
    apply andb_true_iff in H as [Hth Hh].
    rewrite !forallb_app, (scaled_words_tokens l thousand th Hth),
      (scaled_words_tokens l hundred h Hh).
    destruct r as [b|]; [|reflexivity].
    apply number_words_tokens, below100_in_lexicon, Hr.
  - apply andb_true_iff in H as [H _].
    apply number_words_tokens, digits_in_lexicon, H.
Qed.

Lemma parse_words_exact l q :
  well_formed q = true ->
  parse_words (lexicon l) (utterance l q) = Some (value q).
Proof.
  intros Hq. unfold parse_words, utterance.
  rewrite (tokenize_concat _ (words_tokens l q Hq)).
  destruct q as [th h r|ds]; cbn [well_formed words value] in *.
  - apply andb_true_iff in Hq as [Hq Hne]. apply andb_true_iff in Hq as [Hq Hr].
    apply andb_true_iff in Hq as [Hth Hh].
    rewrite (fold_scaled l thousand th 0 false _ Hth).
    rewrite (fold_scaled l hundred h _ _ _ Hh).
    destruct r as [b|].
    + rewrite <- (app_nil_r (number_words _ _)).
      destruct (fold_below100 l b (0 + scaled_value thousand th + scaled_value hundred h)
                  (match h with Some _ => true
                   | None => match th with Some _ => true | None => false end end)
                  [] Hr) as [o ->].
      cbn [fold_left seen total sub_total]. f_equal.
    + cbn [number_words map fold_left seen total sub_total].
      destruct th, h; try discriminate Hne; cbn; f_equal; lia.
  - apply andb_true_iff in Hq as [Hds Hne].
    destruct ds as [|d ds]; [discriminate|].
    cbn [forallb] in Hds. apply andb_true_iff in Hds as [Hd Hds].
    cbn [number_words map fold_left].
    rewrite (accumulate_number l d _ (digit_in_lexicon d Hd)).
    unfold join. cbn [sub_total total]. rewrite (is_tens_digit d Hd).
    rewrite (fold_digits l ds _ _ Hds). cbn [seen total sub_total]. reflexivity.
Qed.

Lemma below100_said r :
  (r < 100)%nat ->
  below100_ok (below100 r) = true /\ below100_value (below100 r) = Z.of_nat r.
Proof.
  intros Hr. unfold below100.
  destruct ((r <? 20)%nat || (r mod 10 =? 0)%nat) eqn:E.
  - cbn [below100_ok below100_value]. split; [|reflexivity].
    unfold in_lexicon, is_tens. apply orb_true_iff in E as [E|E].
    + rewrite E. reflexivity.
    + rewrite E, andb_true_r. destruct (Nat.ltb_spec r 20); [reflexivity|].
      cbn [orb]. apply andb_true_iff. split; [apply Nat.leb_le|apply Nat.ltb_lt]; lia.
  - apply orb_false_iff in E as [E20 Emod].
    apply Nat.ltb_ge in E20. apply Nat.eqb_neq in Emod.
    pose proof (Nat.div_mod_eq r 10) as Hdm.
    pose proof (Nat.mod_upper_bound r 10 ltac:(lia)) as Hm.
    cbn [below100_ok below100_value]. split.
    + unfold is_unit. repeat (apply andb_true_iff; split); apply Nat.leb_le; lia.
    + lia.
Qed.

Lemma say_exact n :
  (Z.of_nat n <= 99999) ->
  well_formed (say n) = true /\ value (say n) = Z.of_nat n.
Proof.
  intros Hn.
  pose proof (Nat.div_mod_eq n 1000) as H1.
  pose proof (Nat.mod_upper_bound n 1000 ltac:(lia)) as B1.
  pose proof (Nat.div_mod_eq n 100) as H2.
  pose proof (Nat.mod_upper_bound n 100 ltac:(lia)) as B2.
  pose proof (Nat.div_mod_eq (n / 100) 10) as H3.
  pose proof (Nat.mod_upper_bound (n / 100) 10 ltac:(lia)) as B3.
  pose proof (Nat.div_mod_eq n 1000) as H4.
  assert (Hth : (n / 1000 < 100)%nat) by lia.
  assert (Hsplit : (n = 1000 * (n / 1000) + 100 * ((n / 100) mod 10) + n mod 100)%nat).
  { pose proof (Nat.div_mod_eq (n / 100) 10) as H5.
    assert (Hq : ((n / 100) / 10 = n / 1000)%nat).
    { rewrite Nat.Div0.div_div. reflexivity. }
    rewrite Hq in H5. lia. }
  destruct (below100_said (n / 1000) Hth) as [Ok1 V1].
  destruct (below100_said ((n / 100) mod 10) ltac:(lia)) as [Ok2 V2].
  destruct (below100_said (n mod 100) B2) as [Ok3 V3].
  unfold say, well_formed, value.
  destruct (Nat.eqb_spec (n / 1000) 0) as [E1|E1];
    destruct (Nat.eqb_spec ((n / 100) mod 10) 0) as [E2|E2];
    destruct (Nat.eqb_spec (n mod 100) 0) as [E3|E3];
    destruct (Nat.leb_spec 100 n) as [E4|E4];
    cbn [andb count_ok scaled_value count_value multiplier];
    rewrite ?Ok1, ?Ok2, ?Ok3, ?V1, ?V2, ?V3; cbn [andb];
    split; try reflexivity; try lia.
Qed.

End QuantityParserFacts.

(** C7.  For both languages, an utterance made only of number words of the
    lexicon parses to exactly the integer the words compose.  The utterances
    are thousands, hundreds and a rest below one hundred, each optional and
    each said as usual (two thousand five hundred, twenty five, a scale word
    on its own for one of its kind), and digit words said one after another.
    Every integer up to 99999 has such an utterance, its usual name, and the
    parser returns that integer for it. *)
Theorem number_words_parse_exactly l :
  (forall q,
     QuantityParser.well_formed q = true ->
     QuantityParser.parse (QuantityParser.utterance l q) l
     = Some (QuantityParser.value q))
  /\ (forall n,
        0 <= n <= 99999 ->
        QuantityParser.well_formed (QuantityParser.say (Z.to_nat n)) = true
        /\ QuantityParser.parse
             (QuantityParser.utterance l (QuantityParser.say (Z.to_nat n))) l
           = Some n).
Proof.
  assert (H : forall q,
            QuantityParser.well_formed q = true ->
            QuantityParser.parse (QuantityParser.utterance l q) l
            = Some (QuantityParser.value q)).
  { intros q Hq. unfold QuantityParser.parse.
    rewrite (QuantityParserFacts.parse_words_exact l q Hq). reflexivity. }
  split; [exact H|]. intros n Hn.
  destruct (QuantityParserFacts.say_exact (Z.to_nat n) ltac:(lia)) as [Hwf Hv].
  split; [exact Hwf|]. rewrite (H _ Hwf), Hv. f_equal. lia.
Qed.

(** ** The claims on concrete conversations *)

(** C1 as stated fails: after the reply yes, with no result received, the
    borrow flow is at [done] and its edit buffer is gone. *)
Lemma commit_once_then_done_counterexample :
  let inputs := [Heard "borrow"; Heard "Ravi"; Heard "500"; Heard "200"; Heard "yes"] in
  let s := run true digitsOnly inputs initial in
  Forall (fun i => match i with BorrowResult _ => False | _ => True end) inputs
  /\ dispatched s = [AddBorrow "Ravi" "500" "200"; DataUpdated]
  /\ Borrow.step (borrowState s) = Borrow.done
  /\ borrowConfirmEdit s = None.
Proof.
  cbv zeta. split; [repeat constructor|]. vm_compute. repeat split.
Qed.

(** Witness for C1: the reply yes and a Save click in the sample
    conversations. *)
Lemma commit_once_then_done_witness :
  is_affirmative "yes" = true
  /\ Borrow.step (borrowState (handleBorrowReply true digitsOnly "yes" Sample.borrow_confirming))
     = Borrow.done
  /\ Purchase.step
       (purchaseState (handlePurchaseReply true digitsOnly "yes" Sample.purchase_confirming))
     = Purchase.done
  /\ borrowPanelShown Sample.borrow_confirming = true
  /\ borrowSaveDisabled Sample.borrow_confirming = false
  /\ Borrow.step (borrowState (clickBorrowSave true true Sample.borrow_confirming))
     = Borrow.confirm
  /\ Borrow.step
       (borrowState (addBorrowResult true (result true EmptyString)
                       (clickBorrowSave true true Sample.borrow_confirming)))
     = Borrow.done
  /\ Purchase.step
       (purchaseState (addPurchaseResult true (result true EmptyString)
                         (clickPurchaseSave true true Sample.purchase_confirming)))
     = Purchase.done.
Proof.
  destruct (commit_once_then_done true digitsOnly "yes" Sample.borrow_confirming)
    as (Hreply & _ & Hsave & _).
  destruct (commit_once_then_done true digitsOnly "yes" Sample.purchase_confirming)
    as (_ & Hreply' & _ & Hsave').
  destruct (Hreply eq_refl eq_refl eq_refl) as (_ & Hdone & _).
  destruct (Hreply' eq_refl eq_refl eq_refl) as (_ & Hdone' & _).
  destruct (Hsave eq_refl eq_refl) as (_ & _ & _ & Hresult).
  destruct (Hsave' eq_refl eq_refl) as (_ & _ & _ & Hresult').
  destruct (Hresult EmptyString) as (Hdone2 & _).
  destruct (Hresult' EmptyString) as (Hdone2' & _).
  repeat split; try assumption; reflexivity.
Defined.

(** C2, on the code.  With the amount of the purchase panel edited to ['0'],
    the Save button is enabled and a click dispatches the commit with a total
    of ['0'], although the affirmative reply refuses the same fields and the
    borrow Save button is disabled on a ['0'] amount. *)
Theorem purchase_save_commits_zero_amount :
  let s := Sample.purchase_amount_zeroed in
  Purchase.step (purchaseState s) = Purchase.confirm
  /\ purchaseConfirmEdit s = Some (Purchase.mk Purchase.confirm "ABC Traders" "0" "400")
  /\ purchaseSaveDisabled s = false
  /\ dispatched (clickPurchaseSave true true s)
     = (dispatched s ++ [AddPurchase "ABC Traders" "0" "400"; DataUpdated])%list
  /\ dispatched (handlePurchaseReply true digitsOnly "yes" s) = dispatched s
  /\ borrowSaveDisabled (editBorrowAmount "0" Sample.borrow_confirming) = true.
Proof. vm_compute. repeat split. Qed.

(** C3 as stated fails: a commit made by an affirmative reply has already
    reached [done] when its failure arrives, and nothing is said of the
    failure; a failed purchase Save shows the stock message without the
    reported reason. *)
Lemma failed_save_stays_confirming_counterexample :
  (let s := run true digitsOnly [Heard "yes"; BorrowResult Sample.disk_full]
                Sample.borrow_confirming in
   Borrow.step (borrowState s) = Borrow.done
   /\ borrowConfirmEdit s = None
   /\ forallb (fun u => negb (Js.includes "disk full" (text u))) (spoken s) = true)
  /\
  (let s := run true digitsOnly [PurchaseSaveClicked true; PurchaseResult Sample.disk_full]
                Sample.purchase_confirming in
   Purchase.step (purchaseState s) = Purchase.confirm
   /\ response s = "Failed to save purchase. Please try again."
   /\ forallb (fun u => negb (Js.includes "disk full" (text u))) (spoken s) = true).
Proof. vm_compute. repeat split. Qed.

(** Witness for C3: a Save click in each sample conversation, answered by a
    failed result. *)
Lemma failed_save_stays_confirming_witness :
  success Sample.disk_full = false
  /\ borrowPanelShown Sample.borrow_confirming = true
  /\ borrowSaveDisabled Sample.borrow_confirming = false
  /\ purchasePanelShown Sample.purchase_confirming = true
  /\ purchaseSaveDisabled Sample.purchase_confirming = false
  /\ Borrow.step
       (borrowState (addBorrowResult true Sample.disk_full
                       (clickBorrowSave true true Sample.borrow_confirming)))
     = Borrow.confirm
  /\ Purchase.step
       (purchaseState (addPurchaseResult true Sample.disk_full
                         (clickPurchaseSave true true Sample.purchase_confirming)))
     = Purchase.confirm.
Proof.
  destruct (failed_save_stays_confirming true Sample.disk_full Sample.borrow_confirming eq_refl)
    as (Hb & _).
  destruct (failed_save_stays_confirming true Sample.disk_full Sample.purchase_confirming eq_refl)
    as (_ & Hp).
  destruct (Hb eq_refl eq_refl) as (Hstep & _).
  destruct (Hp eq_refl eq_refl) as (Hstep' & _).
  repeat split; try assumption; reflexivity.
Defined.

(** Witness for C4: a reply whose only digit run is zero. *)
Lemma amount_reply_not_understood_witness :
  (forall n, digitsOnly "0 rupees" = Some n -> n <= 0)
  /\ Forall (fun d => Js.parseInt d <= 0) (Js.digit_runs "0 rupees")
  /\ Borrow.step (borrowState Sample.borrow_asking_amount) = Borrow.askAmount
  /\ Purchase.step (purchaseState Sample.purchase_asking_amount) = Purchase.askAmount
  /\ borrowState (handleBorrowReply true digitsOnly "0 rupees" Sample.borrow_asking_amount)
     = borrowState Sample.borrow_asking_amount
  /\ purchaseState
       (handlePurchaseReply true digitsOnly "0 rupees" Sample.purchase_asking_amount)
     = purchaseState Sample.purchase_asking_amount.
Proof.
  assert (Hwords : forall n, digitsOnly "0 rupees" = Some n -> n <= 0)
    by (intros n H; discriminate H).
  assert (Hruns : Forall (fun d => Js.parseInt d <= 0) (Js.digit_runs "0 rupees"))
    by (constructor; [vm_compute; discriminate|constructor]).
  destruct (amount_reply_not_understood true digitsOnly "0 rupees"
              Sample.borrow_asking_amount Hwords Hruns) as (Hb & _).
  destruct (amount_reply_not_understood true digitsOnly "0 rupees"
              Sample.purchase_asking_amount Hwords Hruns) as (_ & Hp).
  destruct (Hb eq_refl) as (Hsame & _).
  destruct (Hp eq_refl) as (Hsame' & _).
  repeat split; try assumption; reflexivity.
Defined.

(** Witness for C5: a reply without digits. *)
Lemma paid_reply_defaults_to_zero_witness :
  digitsOnly "nothing yet" = None
  /\ Js.match_digits "nothing yet" = None
  /\ Borrow.step (borrowState Sample.borrow_asking_paid) = Borrow.askPaid
  /\ Purchase.step (purchaseState Sample.purchase_asking_paid) = Purchase.askPaid
  /\ borrowState (handleBorrowReply true digitsOnly "nothing yet" Sample.borrow_asking_paid)
     = Borrow.mk Borrow.confirm "Ravi" "500" "0"
  /\ purchaseState
       (handlePurchaseReply true digitsOnly "nothing yet" Sample.purchase_asking_paid)
     = Purchase.mk Purchase.confirm "ABC Traders" "1000" "0".
Proof.
  destruct (paid_reply_defaults_to_zero true digitsOnly "nothing yet"
              Sample.borrow_asking_paid eq_refl eq_refl) as (Hb & _).
  destruct (paid_reply_defaults_to_zero true digitsOnly "nothing yet"
              Sample.purchase_asking_paid eq_refl eq_refl) as (_ & Hp).
  destruct (Hb eq_refl) as (Hstate & _).
  destruct (Hp eq_refl) as (Hstate' & _).
  repeat split; try assumption; reflexivity.
Defined.

(** C6 as stated fails: a reply with a negative word and the word save is
    taken as affirmative and committed. *)
Lemma negative_reply_returns_to_amount_counterexample :
  let t := "no, do not save it" in
  let s := handleBorrowReply true digitsOnly t Sample.borrow_confirming in
  Borrow.step (borrowState Sample.borrow_confirming) = Borrow.confirm
  /\ is_negative t = true
  /\ Borrow.step (borrowState s) = Borrow.done
  /\ dispatched s = [AddBorrow "Ravi" "500" "200"; DataUpdated]
  /\ run true digitsOnly [Heard t] Sample.borrow_confirming = s.
Proof. vm_compute. repeat split. Qed.

(** Witness for C6: a plain negative reply. *)
Lemma negative_reply_returns_to_amount_witness :
  is_negative "change it" = true
  /\ is_affirmative "change it" = false
  /\ Borrow.step (borrowState Sample.borrow_confirming) = Borrow.confirm
  /\ Purchase.step (purchaseState Sample.purchase_confirming) = Purchase.confirm
  /\ Borrow.step
       (borrowState (handleBorrowReply true digitsOnly "change it" Sample.borrow_confirming))
     = Borrow.askAmount
  /\ Purchase.step
       (purchaseState
          (handlePurchaseReply true digitsOnly "change it" Sample.purchase_confirming))
     = Purchase.askAmount.
Proof.
  destruct (negative_reply_returns_to_amount true digitsOnly "change it"
              Sample.borrow_confirming eq_refl eq_refl) as (Hb & _).
  destruct (negative_reply_returns_to_amount true digitsOnly "change it"
              Sample.purchase_confirming eq_refl eq_refl) as (_ & Hp).
  destruct (Hb eq_refl) as (Hstep & _).
  destruct (Hp eq_refl) as (Hstep' & _).
  repeat split; try assumption; reflexivity.
Defined.

(** [number_words_parse_exactly] on the examples of the spec, and on 2500 and
    1234 in both languages. *)
Lemma number_words_parse_exactly_witness :
  QuantityParser.parse "two thousand five hundred" QuantityParser.english = Some 2500
  /\ QuantityParser.parse "five hundred" QuantityParser.english = Some 500
  /\ QuantityParser.parse "twenty five" QuantityParser.english = Some 25
  /\ QuantityParser.parse "ആയിരം" QuantityParser.secondaryLanguage = Some 1000
  /\ QuantityParser.parse "two five zero zero" QuantityParser.english = Some 2500
  /\ QuantityParser.utterance QuantityParser.english (QuantityParser.say 1234)
     = "one thousand two hundred thirty four"
  /\ QuantityParser.parse "one thousand two hundred thirty four" QuantityParser.english
     = Some 1234
  /\ QuantityParser.utterance QuantityParser.secondaryLanguage (QuantityParser.say 2500)
     = "രണ്ട് ആയിരം അഞ്ച് നൂറ്"
  /\ QuantityParser.parse "രണ്ട് ആയിരം അഞ്ച് നൂറ്" QuantityParser.secondaryLanguage
     = Some 2500.
Proof.
  destruct (number_words_parse_exactly QuantityParser.english) as [Hen Hsay].
  destruct (number_words_parse_exactly QuantityParser.secondaryLanguage) as [Hml Hsay'].
  pose proof (Hen (QuantityParser.say 2500) eq_refl) as H1.
  pose proof (Hen (QuantityParser.Composed None
                     (Some (Some (QuantityParser.Single 5))) None) eq_refl) as H2.
  pose proof (Hen (QuantityParser.Composed None None
                     (Some (QuantityParser.TensUnits 2 5))) eq_refl) as H3.
  pose proof (Hml (QuantityParser.Composed (Some None) None None) eq_refl) as H4.
  pose proof (Hen (QuantityParser.Spelled [2; 5; 0; 0]%nat) eq_refl) as H5.
  destruct (Hsay 1234 ltac:(lia)) as [_ H6].
  destruct (Hsay' 2500 ltac:(lia)) as [_ H7].
  exact (conj H1 (conj H2 (conj H3 (conj H4 (conj H5
          (conj eq_refl (conj H6 (conj eq_refl H7)))))))).
Defined.

(** C8 as stated fails: at [done] the reset command starts the flow again and
    the cancel command brings it back to [idle]. *)
Lemma reply_at_done_is_ignored_counterexample :
  Borrow.step (borrowState Sample.borrow_done) = Borrow.done
  /\ borrowState (run true digitsOnly [Heard "reset"] Sample.borrow_done)
     = Borrow.mk Borrow.askName EmptyString EmptyString EmptyString
  /\ borrowState (run true digitsOnly [Heard "cancel"] Sample.borrow_done)
     = Borrow.mk Borrow.idle EmptyString EmptyString EmptyString
  /\ Purchase.step (purchaseState Sample.purchase_done) = Purchase.done
  /\ purchaseState (run true digitsOnly [Heard "reset"] Sample.purchase_done)
     = Purchase.mk Purchase.askSupplier EmptyString EmptyString EmptyString.
Proof. vm_compute. repeat split. Qed.

(** Witness for C8: a word of thanks at the end of the sample
    conversations. *)
Lemma reply_at_done_is_ignored_witness :
  is_reset "thank you" = false
  /\ is_cancel "thank you" = false
  /\ Borrow.step (borrowState Sample.borrow_done) = Borrow.done
  /\ Purchase.step (purchaseState Sample.borrow_done) = Purchase.idle
  /\ Purchase.step (purchaseState Sample.purchase_done) = Purchase.done
  /\ handleTranscript true digitsOnly "thank you" Sample.borrow_done = Sample.borrow_done
  /\ handleTranscript true digitsOnly "thank you" Sample.purchase_done
     = Sample.purchase_done.
Proof.
  destruct (reply_at_done_is_ignored true digitsOnly "thank you" Sample.borrow_done)
    as (_ & _ & _ & Hb).
  destruct (reply_at_done_is_ignored true digitsOnly "thank you" Sample.purchase_done)
    as (_ & _ & Hp & _).
  destruct (Hb eq_refl eq_refl) as (Hborrow & _).
  destruct (Hp eq_refl) as (Hpurchase & _).
  pose proof (Hborrow eq_refl eq_refl) as Hsame.
  pose proof (Hpurchase eq_refl eq_refl) as Hsame'.
  repeat split; try assumption; reflexivity.
Defined.

(** C9 as stated fails: after Save and then cancel the borrow flow is at
    [idle], and the late successful result moves it to [done]. *)
Lemma late_result_ignored_when_done_counterexample :
  let cancelled :=
    run true digitsOnly [BorrowSaveClicked true; Heard "cancel"] Sample.borrow_confirming in
  let late := run true digitsOnly [BorrowResult (result true EmptyString)] cancelled in
  borrowState cancelled = Borrow.mk Borrow.idle EmptyString EmptyString EmptyString
  /\ borrowState late = Borrow.mk Borrow.done EmptyString EmptyString EmptyString
  /\ borrowState (handleAddBorrowResult true (result true EmptyString) cancelled)
     = Borrow.mk Borrow.done EmptyString EmptyString EmptyString.
Proof. vm_compute. repeat split. Qed.

(** Witness for C9: a result that arrives at the end of the sample
    conversations. *)
Lemma late_result_ignored_when_done_witness :
  Borrow.step (borrowState Sample.borrow_done) = Borrow.done
  /\ borrowSaveListeners Sample.borrow_done = 0%nat
  /\ Purchase.step (purchaseState Sample.purchase_done) = Purchase.done
  /\ purchaseSaveListeners Sample.purchase_done = 0%nat
  /\ addBorrowResult true (result true EmptyString) Sample.borrow_done = Sample.borrow_done
  /\ addPurchaseResult true (result true EmptyString) Sample.purchase_done
     = Sample.purchase_done.
Proof.
  destruct (late_result_ignored_when_done true (result true EmptyString)
              Sample.borrow_done) as (Hb & _).
  destruct (late_result_ignored_when_done true (result true EmptyString)
              Sample.purchase_done) as (_ & Hp).
  destruct (Hb eq_refl) as (_ & _ & Hsame).
  destruct (Hp eq_refl) as (_ & Hsame').
  pose proof (Hsame eq_refl) as Hborrow.
  pose proof (Hsame' eq_refl) as Hpurchase.
  repeat split; try assumption; reflexivity.
Defined.

(** C10 as stated fails: a transcript with a cancel word and a reset word is
    taken as reset, and the flow asks for the name again instead of going
    back to [idle]. *)
Lemma cancel_word_at_confirm_counterexample :
  let t := "stop and reset" in
  let s := run true digitsOnly [Heard t] Sample.borrow_confirming in
  Borrow.step (borrowState Sample.borrow_confirming) = Borrow.confirm
  /\ is_cancel t = true
  /\ borrowState s = Borrow.mk Borrow.askName EmptyString EmptyString EmptyString
  /\ Borrow.step (borrowState s) <> Borrow.idle.
Proof. vm_compute. repeat split. discriminate. Qed.

(** Witness for C10: the Malayalam word at [confirm] in the sample
    conversations. *)
Lemma cancel_word_at_confirm_witness :
  is_cancel "വേണ്ട" = true
  /\ is_reset "വേണ്ട" = false
  /\ Purchase.step (purchaseState Sample.borrow_confirming) = Purchase.idle
  /\ Borrow.step (borrowState Sample.borrow_confirming) = Borrow.confirm
  /\ Purchase.step (purchaseState Sample.purchase_confirming) = Purchase.confirm
  /\ borrowState (handleTranscript true digitsOnly "വേണ്ട" Sample.borrow_confirming)
     = Borrow.mk Borrow.idle EmptyString EmptyString EmptyString
  /\ purchaseState (handleTranscript true digitsOnly "വേണ്ട" Sample.purchase_confirming)
     = Purchase.mk Purchase.idle EmptyString EmptyString EmptyString.
Proof.
  destruct (cancel_word_at_confirm true digitsOnly "വേണ്ട" Sample.borrow_confirming
              eq_refl) as (Hb & _ & _).
  destruct (cancel_word_at_confirm true digitsOnly "വേണ്ട" Sample.purchase_confirming
              eq_refl) as (_ & Hp & _).
  destruct (Hb eq_refl eq_refl) as (_ & _ & _ & _ & _ & Hidle & _).
  destruct (Hp eq_refl) as (_ & _ & _ & _ & _ & Hidle' & _).
  destruct (Hidle eq_refl) as (Hstate & _).
  destruct (Hidle' eq_refl) as (Hstate' & _).
  repeat split; try assumption; reflexivity.
Defined.

(** * More of the component *)

(** ** Invariants of a session *)

Ltac split_cases :=
  repeat match goal with
         | |- context [if ?b then _ else _] => destruct b
         | |- context [match ?x with _ => _ end] => destruct x
         end.

Ltac unfold_handlers :=
  unfold react, handleTranscript, handlePurchaseQuickCommands, handleQuickCommands,
    handlePurchaseReply, handleBorrowReply, startPurchaseConversation,
    startBorrowConversation, processVoiceCommand, commandProcessed,
    editBorrowName, editBorrowAmount, editBorrowPaid, editPurchaseSupplier,
    editPurchaseAmount, editPurchasePaid, clickBorrowEdit, clickPurchaseEdit.

Ltac open_state s :=
  destruct s as [iP iS rsp dbg [bst bnm bam bpd] [pst psu pam ppd] bE pE dsp spk cmd bL pL].

Section Session.

Variable isEnglish : bool.
Variable universalNumberParser : string -> option Z.

(** Everything but the Save clicks and the results leaves the saving flag and
    the waiting listeners alone. *)
Lemma react_keeps_saving i s :
  match i with
  | BorrowSaveClicked _ | PurchaseSaveClicked _ | BorrowResult _ | PurchaseResult _ => False
  | _ => True
  end ->
  let s' := react isEnglish universalNumberParser i s in
  isSaving s' = isSaving s
  /\ borrowSaveListeners s' = borrowSaveListeners s
  /\ purchaseSaveListeners s' = purchaseSaveListeners s.
Proof.
  intros Hi. cbv zeta.
  destruct i; try contradiction; unfold_handlers;
    split_cases; run_updates; repeat split.
Qed.

Lemma one_save_pending_step i s :
  saves_pending s = (if isSaving s then 1 else 0)%nat ->
  saves_pending (react isEnglish universalNumberParser i s)
  = (if isSaving (react isEnglish universalNumberParser i s) then 1 else 0)%nat.
Proof.
  unfold saves_pending. intros Hinv.
  pose proof (react_keeps_saving i s) as Hkeeps.
  destruct i;
    try (destruct (Hkeeps I) as (H1 & H2 & H3); rewrite H1, H2, H3; exact Hinv);
    clear Hkeeps.
  - (* the borrow Save button *)
    cbn [react]. unfold clickBorrowSave.
    destruct (borrowConfirmEdit s) as [e|]; [|exact Hinv].
    destruct (borrowPanelShown s); [|exact Hinv].
    destruct (borrowSaveDisabled s) eqn:Hdis; [exact Hinv|].
    assert (Hsaving : isSaving s = false).
    { unfold borrowSaveDisabled in Hdis. apply orb_false_iff in Hdis. apply Hdis. }
    rewrite Hsaving in Hinv. cbn [andb negb].
    destruct eventDispatched; run_updates; lia.
  - (* the purchase Save button *)
    cbn [react]. unfold clickPurchaseSave.
    destruct (purchaseConfirmEdit s) as [e|]; [|exact Hinv].
    destruct (purchasePanelShown s); [|exact Hinv].
    destruct (purchaseSaveDisabled s) eqn:Hdis; [exact Hinv|].
    assert (Hsaving : isSaving s = false).
    { unfold purchaseSaveDisabled in Hdis. apply orb_false_iff in Hdis. apply Hdis. }
    rewrite Hsaving in Hinv. cbn [andb negb].
    destruct eventDispatched; run_updates; lia.
  - (* a borrow result *)
    cbn [react]. unfold addBorrowResult.
    assert (Hl : isSaving (handleAddBorrowResult isEnglish e s) = isSaving s
                 /\ purchaseSaveListeners (handleAddBorrowResult isEnglish e s)
                    = purchaseSaveListeners s).
    { unfold handleAddBorrowResult. split_cases; run_updates; split; reflexivity. }
    destruct Hl as [Hs Hp].
    destruct (borrowSaveListeners s) as [|n] eqn:Hn.
    + cbn [Nat.iter nat_rect]. run_updates. rewrite Hs, Hp. exact Hinv.
    + destruct (success e);
        [rewrite iter_borrowSaveSucceeded|rewrite iter_borrowSaveFailed];
        run_updates; rewrite Hp; destruct (isSaving s); lia.
  - (* a purchase result *)
    cbn [react]. unfold addPurchaseResult.
    destruct (purchaseSaveListeners s) as [|n] eqn:Hn.
    + cbn [Nat.iter nat_rect]. run_updates. exact Hinv.
    + destruct (success e);
        [rewrite iter_purchaseSaveSucceeded|rewrite iter_purchaseSaveFailed];
        run_updates; destruct (isSaving s); lia.
Qed.

(** X1.  Whatever happens to the component from its first render, the Save
    clicks still waiting for a result are one when the saving flag is up and
    none when it is down: two saves are never pending at once, over both
    panels. *)
Theorem one_save_pending inputs :
  let s := run isEnglish universalNumberParser inputs initial in
  saves_pending s = (if isSaving s then 1 else 0)%nat.
Proof.
  cbv zeta. unfold run.
  assert (H : saves_pending initial = (if isSaving initial then 1 else 0)%nat)
    by reflexivity.
  revert H. generalize initial as s.
  induction inputs as [|i inputs IH]; intros s H; [exact H|].
  cbn [fold_left]. apply IH, one_save_pending_step, H.
Qed.

End Session.

Section Flows.

Variable isEnglish : bool.
Variable universalNumberParser : string -> option Z.

Lemma one_flow_step i s :
  is_result i = false ->
  one_flow s = true ->
  one_flow (react isEnglish universalNumberParser i s) = true.
Proof.
  intros Hi Hone. unfold one_flow in *.
  destruct i; try discriminate Hi; clear Hi.
  - open_state s. unfold_handlers. run_updates.
    destruct pst, bst; try discriminate Hone; run_updates;
      split_cases; run_updates; reflexivity.
  - unfold_handlers. split_cases; run_updates; exact Hone.
  - unfold_handlers. split_cases; run_updates; exact Hone.
  - unfold_handlers. split_cases; run_updates; exact Hone.
  - unfold_handlers. split_cases; run_updates; exact Hone.
  - cbn [react]. unfold clickBorrowSave, borrowSaveFailed.
    split_cases; run_updates; exact Hone.
  - open_state s. unfold_handlers. unfold borrowPanelShown. run_updates.
    destruct pst, bst; try discriminate Hone; run_updates;
      split_cases; run_updates; reflexivity.
  - unfold_handlers. split_cases; run_updates; exact Hone.
  - unfold_handlers. split_cases; run_updates; exact Hone.
  - unfold_handlers. split_cases; run_updates; exact Hone.
  - cbn [react]. unfold clickPurchaseSave, purchaseSaveFailed.
    split_cases; run_updates; exact Hone.
  - open_state s. unfold_handlers. unfold purchasePanelShown. run_updates.
    destruct pst, bst; try discriminate Hone; run_updates;
      split_cases; run_updates; reflexivity.
Qed.

(** X2.  As long as no result notification comes in, the borrow flow and the
    purchase flow are never under way together: one of them is at [idle]. *)
Theorem one_flow_at_a_time inputs :
  forallb (fun i => negb (is_result i)) inputs = true ->
  one_flow (run isEnglish universalNumberParser inputs initial) = true.
Proof.
  unfold run.
  assert (H : one_flow initial = true) by reflexivity.
  revert H. generalize initial as s.
  induction inputs as [|i inputs IH]; intros s H Hin; [exact H|].
  cbn [forallb] in Hin. apply andb_true_iff in Hin as [Hi Hin].
  apply negb_true_iff in Hi.
  cbn [fold_left]. apply IH; [|exact Hin]. apply one_flow_step; assumption.
Qed.

End Flows.

Section Dispatching.

Variable isEnglish : bool.
Variable universalNumberParser : string -> option Z.

(** What an input adds to the dispatched events: nothing, one commit with its
    [data-updated], or what a processed voice command sends. *)
Lemma react_dispatches i s :
  let s' := react isEnglish universalNumberParser i s in
  dispatched s' = dispatched s
  \/ (exists n a p,
        Borrow.step (borrowState s) = Borrow.confirm
        /\ dispatched s' = (dispatched s ++ [AddBorrow n a p; DataUpdated])%list)
  \/ (exists n a p,
        Purchase.step (purchaseState s) = Purchase.confirm
        /\ dispatched s' = (dispatched s ++ [AddPurchase n a p; DataUpdated])%list)
  \/ (exists r,
        i = CommandProcessed r
        /\ (dispatched s' = (dispatched s ++ [DataUpdated])%list
            \/ (complete_transaction
                  (AddTransaction (Command.type r) (Command.amount r)
                                  (Command.category r) (Command.description r)) = true
                /\ dispatched s'
                   = (dispatched s
                      ++ [AddTransaction (Command.type r) (Command.amount r)
                                         (Command.category r) (Command.description r);
                          DataUpdated])%list))).
Proof.
  cbv zeta. destruct i.
  - (* a transcript *)
    open_state s. unfold_handlers. run_updates.
    destruct pst, bst; run_updates; split_cases; run_updates;
      rewrite <- ?app_assoc; cbn [app];
      first [ left; reflexivity
            | right; left; do 3 eexists; split; reflexivity
            | right; right; left; do 3 eexists; split; reflexivity ].
  - (* a processed command *)
    cbn [react]. unfold commandProcessed.
    destruct (Command.success r && _); [|left; run_updates; reflexivity].
    right. right. right. exists r. split; [reflexivity|].
    unfold complete_transaction.
    destruct (Js.truthy (Command.type r) && negb (Command.amount r =? 0)
              && Js.truthy (Command.category r)); run_updates.
    + right. split; [reflexivity|]. rewrite <- app_assoc. reflexivity.
    + left. reflexivity.
  - left. unfold_handlers. split_cases; run_updates; reflexivity.
  - left. unfold_handlers. split_cases; run_updates; reflexivity.
  - left. unfold_handlers. split_cases; run_updates; reflexivity.
  - (* the borrow Save button *)
    cbn [react]. unfold clickBorrowSave.
    destruct (borrowConfirmEdit s) as [e|]; [|left; reflexivity].
    destruct (borrowPanelShown s) eqn:Hshown; [|left; reflexivity].
    destruct (borrowSaveDisabled s); [left; reflexivity|].
    apply borrow_panel_shown in Hshown as [Hstep _].
    right. left. do 3 eexists. split; [exact Hstep|].
    cbn [andb negb]. destruct eventDispatched; run_updates;
      rewrite <- app_assoc; reflexivity.
  - left. unfold_handlers. split_cases; run_updates; reflexivity.
  - left. unfold_handlers. split_cases; run_updates; reflexivity.
  - left. unfold_handlers. split_cases; run_updates; reflexivity.
  - left. unfold_handlers. split_cases; run_updates; reflexivity.
  - (* the purchase Save button *)
    cbn [react]. unfold clickPurchaseSave.
    destruct (purchaseConfirmEdit s) as [e|]; [|left; reflexivity].
    destruct (purchasePanelShown s) eqn:Hshown; [|left; reflexivity].
    destruct (purchaseSaveDisabled s); [left; reflexivity|].
    apply purchase_panel_shown in Hshown as [Hstep _].
    right. right. left. do 3 eexists. split; [exact Hstep|].
    cbn [andb negb]. destruct eventDispatched; run_updates;
      rewrite <- app_assoc; reflexivity.
  - left. unfold_handlers. split_cases; run_updates; reflexivity.
  - (* a borrow result *)
    left. cbn [react]. unfold addBorrowResult.
    assert (Hl : dispatched (handleAddBorrowResult isEnglish e s) = dispatched s).
    { unfold handleAddBorrowResult. split_cases; run_updates; reflexivity. }
    destruct (borrowSaveListeners s) as [|n].
    + cbn [Nat.iter nat_rect]. run_updates. exact Hl.
    + destruct (success e);
        [rewrite iter_borrowSaveSucceeded|rewrite iter_borrowSaveFailed];
        run_updates; exact Hl.
  - (* a purchase result *)
    left. cbn [react]. unfold addPurchaseResult.
    destruct (purchaseSaveListeners s) as [|n].
    + reflexivity.
    + destruct (success e);
        [rewrite iter_purchaseSaveSucceeded|rewrite iter_purchaseSaveFailed];
        reflexivity.
Qed.

(** X3.  No input makes the component dispatch a commit of a flow that is
    not at [confirm], and no input makes it dispatch more than one commit. *)
Theorem commits_need_confirm i s :
  let s' := react isEnglish universalNumberParser i s in
  (Borrow.step (borrowState s) <> Borrow.confirm ->
   borrow_commits (dispatched s') = borrow_commits (dispatched s))
  /\
  (Purchase.step (purchaseState s) <> Purchase.confirm ->
   purchase_commits (dispatched s') = purchase_commits (dispatched s))
  /\
  (length (borrow_commits (dispatched s')) + length (purchase_commits (dispatched s'))
   <= S (length (borrow_commits (dispatched s))
         + length (purchase_commits (dispatched s))))%nat.
Proof.
  cbv zeta. unfold borrow_commits, purchase_commits.
  destruct (react_dispatches i s)
    as [H | [(n & a & p & Hstep & H) | [(n & a & p & Hstep & H)
       | (r & _ & [H | [_ H]])]]];
    rewrite H, ?filter_app, ?length_app; cbn [filter app length];
    rewrite ?app_nil_r; repeat split; intros; try contradiction; try lia.
Qed.

Lemma transactions_complete_step i s :
  forallb complete_transaction (dispatched s) = true ->
  forallb complete_transaction
    (dispatched (react isEnglish universalNumberParser i s)) = true.
Proof.
  intros Hall.
  destruct (react_dispatches i s)
    as [H | [(n & a & p & _ & H) | [(n & a & p & _ & H)
       | (r & _ & [H | [Hc H]])]]];
    rewrite H, ?forallb_app, ?Hall; cbn [forallb andb complete_transaction];
    try reflexivity.
  unfold complete_transaction in Hc. rewrite Hc. reflexivity.
Qed.

(** X4.  Every [add-transaction] event the component ever dispatches carries
    a type, a non-zero amount and a category. *)
Theorem transactions_are_complete inputs :
  forallb complete_transaction
    (dispatched (run isEnglish universalNumberParser inputs initial)) = true.
Proof.
  unfold run.
  assert (H : forallb complete_transaction (dispatched initial) = true) by reflexivity.
  revert H. generalize initial as s.
  induction inputs as [|i inputs IH]; intros s H; [exact H|].
  cbn [fold_left]. apply IH, transactions_complete_step, H.
Qed.

End Dispatching.

(** ** Digits and number texts *)

Lemma take_digits_split s :
  exists post,
    s = (Js.take_digits s ++ post)%string
    /\ Text.digits_only (Js.take_digits s) = true
    /\ Js.starts_in Js.is_digit post = false.
Proof.
  induction s as [|c s (post & Hs & Hd & Hp)].
  - exists EmptyString. repeat split.
  - cbn [Js.take_digits]. destruct (Js.is_digit c) eqn:Hc.
    + exists post. cbn [append Text.digits_only Text.every]. rewrite Hc.
      repeat split; [f_equal; exact Hs|exact Hd|exact Hp].
    + exists (String c s). cbn [append Js.starts_in]. repeat split. exact Hc.
Qed.

Lemma match_digits_spec t :
  match Js.match_digits t with
  | Some d =>
      d <> EmptyString
      /\ Text.digits_only d = true
      /\ exists pre post,
           t = (pre ++ d ++ post)%string
           /\ Text.no_digit pre = true
           /\ Js.starts_in Js.is_digit post = false
  | None => Text.no_digit t = true
  end.
Proof.
  induction t as [|c t IH]; [reflexivity|].
  cbn [Js.match_digits]. destruct (Js.is_digit c) eqn:Hc.
  - destruct (take_digits_split (String c t)) as (post & Hs & Hd & Hp).
    split; [|split; [exact Hd|]].
    + cbn [Js.take_digits]. rewrite Hc. discriminate.
    + exists EmptyString, post. repeat split; [exact Hs|exact Hp].
  - destruct (Js.match_digits t) as [d|].
    + destruct IH as (Hne & Hd & pre & post & Ht & Hpre & Hpost).
      split; [exact Hne|]. split; [exact Hd|].
      exists (String c pre), post. cbn [append Text.no_digit Text.every].
      rewrite Hc. repeat split; [f_equal; exact Ht|exact Hpre|exact Hpost].
    + cbn [Text.no_digit Text.every]. rewrite Hc. exact IH.
Qed.

(** X5.  The digits taken from a transcript are its leftmost maximal run of
    digits: the run is not empty, made of digits only, nothing before it is a
    digit and what follows it does not start with one; no run is found only
    when the transcript has no digit at all. *)
Theorem match_digits_leftmost t :
  match Js.match_digits t with
  | Some d =>
      d <> EmptyString
      /\ Text.digits_only d = true
      /\ exists pre post,
           t = (pre ++ d ++ post)%string
           /\ Text.no_digit pre = true
           /\ Js.starts_in Js.is_digit post = false
  | None => Text.no_digit t = true
  end.
Proof. exact (match_digits_spec t). Qed.

Lemma digit_value_range c :
  Js.is_digit c = true -> 0 <= Js.digit_value c <= 9.
Proof.
  unfold Js.is_digit, Js.digit_value. intros H.
  apply andb_true_iff in H as [Hlo Hhi].
  apply Nat.leb_le in Hlo, Hhi. lia.
Qed.

Lemma parseInt_from_nonneg s :
  Text.digits_only s = true -> forall acc, 0 <= acc -> acc <= Js.parseInt_from acc s.
Proof.
  induction s as [|c s IH]; intros Hd acc Hacc; [cbn; lia|].
  cbn [Text.digits_only Text.every] in Hd. apply andb_true_iff in Hd as [Hc Hd].
  cbn [Js.parseInt_from]. pose proof (digit_value_range c Hc).
  specialize (IH Hd (10 * acc + Js.digit_value c)). lia.
Qed.

Lemma parseInt_nonneg s : Text.digits_only s = true -> 0 <= Js.parseInt s.
Proof. intros Hd. apply (parseInt_from_nonneg s Hd 0). lia. Qed.

Lemma toString_positive p :
  Js.toString (Zpos p) <> EmptyString /\ Js.toString (Zpos p) <> "0".
Proof.
  unfold Js.toString. cbn [Z.to_int NilZero.string_of_int].
  pose proof (DecimalPos.Unsigned.to_uint_nonnil p) as Hnil.
  pose proof (DecimalPos.Unsigned.to_uint_nonzero p) as Hzero.
  destruct (Pos.to_uint p) as [|u|u|u|u|u|u|u|u|u|u];
    try contradiction; cbn [NilZero.string_of_uint NilEmpty.string_of_uint];
    split; try discriminate.
  intros H. injection H as H. apply Hzero.
  destruct u; try discriminate H. reflexivity.
Qed.

Lemma toString_not_empty n : Js.toString n <> EmptyString.
Proof.
  destruct n as [|p|p]; [discriminate|apply toString_positive|discriminate].
Qed.

Section Amounts.

Variable universalNumberParser : string -> option Z.

Lemma amountOf_spec t a :
  amountOf universalNumberParser t = Some a ->
  a <> EmptyString
  /\ a <> "0"
  /\ forall name, Js.truthy name = true -> invalid name a = false.
Proof.
  intros Ha.
  assert (H : a <> EmptyString /\ a <> "0").
  { unfold amountOf in Ha.
    assert (Hd : match Js.match_digits t with
                 | Some d => if 0 <? Js.parseInt d then Some d else None
                 | None => None
                 end = Some a -> a <> EmptyString /\ a <> "0").
    { destruct (Js.match_digits t) as [d|]; [|discriminate].
      destruct (Z.ltb_spec 0 (Js.parseInt d)) as [Hpos|]; [|discriminate].
      intros [= <-]. split; intros ->; vm_compute in Hpos; discriminate Hpos. }
    destruct (universalNumberParser t) as [n|]; [|exact (Hd Ha)].
    destruct (Z.ltb_spec 0 n) as [Hpos|]; [|exact (Hd Ha)].
    injection Ha as <-. split; [apply toString_not_empty|].
    destruct n as [|p|p]; try lia. apply toString_positive. }
  destruct H as [Hne H0]. repeat split; try assumption.
  intros name Hname. unfold invalid. rewrite Hname.
  destruct a as [|c a]; [contradiction|].
  cbn [negb Js.truthy orb].
  destruct (String.eqb_spec (String c a) "0"); [contradiction|reflexivity].
Qed.

(** X6.  An amount taken from a reply at [askAmount] is never empty and never
    ['0'], whichever parser is plugged in: with a name that is not empty it
    always passes the validation of the confirm step. *)
Theorem heard_amount_is_valid t a :
  amountOf universalNumberParser t = Some a ->
  a <> EmptyString
  /\ a <> "0"
  /\ forall name, Js.truthy name = true -> invalid name a = false.
Proof. exact (amountOf_spec t a). Qed.

Lemma paidOf_spec t :
  paidOf universalNumberParser t <> EmptyString
  /\ (universalNumberParser t = None ->
      paidOf universalNumberParser t
      = match Js.match_digits t with Some d => d | None => "0" end).
Proof.
  assert (Hd : match Js.match_digits t with
               | Some d => if 0 <=? Js.parseInt d then d else "0"
               | None => "0"
               end = match Js.match_digits t with Some d => d | None => "0" end).
  { pose proof (match_digits_spec t) as Hm.
    destruct (Js.match_digits t) as [d|]; [|reflexivity].
    destruct Hm as (_ & Hdigits & _).
    pose proof (parseInt_nonneg d Hdigits).
    destruct (Z.leb_spec 0 (Js.parseInt d)); [reflexivity|lia]. }
  assert (Hne : match Js.match_digits t with Some d => d | None => "0" end
                <> EmptyString).
  { pose proof (match_digits_spec t) as Hm.
    destruct (Js.match_digits t) as [d|]; [apply Hm|discriminate]. }
  unfold paidOf. rewrite Hd. split.
  - destruct (universalNumberParser t) as [n|]; [|exact Hne].
    destruct (0 <=? n); [apply toString_not_empty|exact Hne].
  - intros ->. reflexivity.
Qed.

(** X7.  The paid amount taken from a reply at [askPaid] is never empty; when
    the number-word parser gives nothing it is the first run of digits exactly
    as heard, leading zeros included, and ['0'] when there is no digit. *)
Theorem heard_paid_amount t :
  paidOf universalNumberParser t <> EmptyString
  /\ (universalNumberParser t = None ->
      paidOf universalNumberParser t
      = match Js.match_digits t with Some d => d | None => "0" end).
Proof. exact (paidOf_spec t). Qed.

End Amounts.

(** ** Vocabularies *)

Lemma starts_with_ci_longer p t post :
  Js.starts_with_ci p t = true -> Js.starts_with_ci p (t ++ post) = true.
Proof.
  revert t. induction p as [|a p IH]; intros t H; [reflexivity|].
  destruct t as [|b t]; [discriminate|].
  cbn [append Js.starts_with_ci] in *.
  apply andb_true_iff in H as [Hab H]. rewrite Hab, (IH t H). reflexivity.
Qed.

Lemma includes_ci_longer p t post :
  Js.includes_ci p t = true -> Js.includes_ci p (t ++ post) = true.
Proof.
  induction t as [|b t IH]; intros H.
  - cbn [Js.includes_ci] in H. rewrite orb_false_r in H.
    destruct p; [|discriminate]. destruct post; reflexivity.
  - cbn [Js.includes_ci] in H. apply orb_true_iff in H as [H|H].
    + pose proof (starts_with_ci_longer p (String b t) post H) as Hs.
      cbn [append] in Hs. cbn [append Js.includes_ci]. rewrite Hs. reflexivity.
    + cbn [append Js.includes_ci]. rewrite (IH H). apply orb_true_r.
Qed.

Lemma includes_ci_later p pre t :
  Js.includes_ci p t = true -> Js.includes_ci p (pre ++ t) = true.
Proof.
  intros H. induction pre as [|c pre IH]; [exact H|].
  cbn [append Js.includes_ci]. rewrite IH. apply orb_true_r.
Qed.

Lemma fold_case_twice c : Js.fold_case (Js.fold_case c) = Js.fold_case c.
Proof.
  destruct c as [[] [] [] [] [] [] [] []]; vm_compute; reflexivity.
Qed.

Lemma starts_with_ci_lowercase p t :
  Js.starts_with_ci p (Text.lowercase t) = Js.starts_with_ci p t.
Proof.
  revert t. induction p as [|a p IH]; intros t; [reflexivity|].
  destruct t as [|b t]; [reflexivity|].
  cbn [Text.lowercase Js.starts_with_ci]. unfold Js.eqb_ci.
  rewrite fold_case_twice, IH. reflexivity.
Qed.

Lemma includes_ci_lowercase p t :
  Js.includes_ci p (Text.lowercase t) = Js.includes_ci p t.
Proof.
  induction t as [|b t IH]; [reflexivity|].
  change (Text.lowercase (String b t))
    with (String (Js.fold_case b) (Text.lowercase t)).
  cbn [Js.includes_ci]. rewrite IH. f_equal.
  apply (starts_with_ci_lowercase p (String b t)).
Qed.

Lemma test_alternatives_anywhere alts t pre post :
  Js.test_alternatives alts t = true ->
  Js.test_alternatives alts (pre ++ t ++ post) = true.
Proof.
  unfold Js.test_alternatives. intros H.
  apply existsb_exists in H as (p & Hin & Hp).
  apply existsb_exists. exists p. split; [exact Hin|].
  apply includes_ci_later, includes_ci_longer, Hp.
Qed.

Lemma test_alternatives_lowercase alts t :
  Js.test_alternatives alts (Text.lowercase t) = Js.test_alternatives alts t.
Proof.
  unfold Js.test_alternatives.
  induction alts as [|p alts IH]; [reflexivity|].
  cbn [existsb]. rewrite IH, includes_ci_lowercase. reflexivity.
Qed.

(** X8.  Each vocabulary of the component is looked for anywhere in the
    transcript and without regard to the case of ASCII letters: a transcript
    that matches still matches with anything said before and after it, and
    lowering its case changes no answer. *)
Theorem vocabulary_matches_anywhere t pre post :
  Forall (fun alts =>
            (Js.test_alternatives alts t = true ->
             Js.test_alternatives alts (pre ++ t ++ post) = true)
            /\ Js.test_alternatives alts (Text.lowercase t)
               = Js.test_alternatives alts t)
         vocabularies.
Proof.
  apply Forall_forall. intros alts _. split.
  - apply test_alternatives_anywhere.
  - apply test_alternatives_lowercase.
Qed.

(** [vocabulary_matches_anywhere] on a loud yes. *)
Lemma vocabulary_matches_anywhere_witness :
  is_affirmative "YES" = true
  /\ is_affirmative "oh YES please" = true
  /\ is_affirmative (Text.lowercase "YES") = is_affirmative "YES".
Proof.
  pose proof (vocabulary_matches_anywhere "YES" "oh " " please") as H.
  apply Forall_inv in H. destruct H as (Hany & Hlow).
  exact (conj eq_refl (conj (Hany eq_refl) Hlow)).
Defined.



(** ** The flows from end to end *)

Section Conversations.

Variable isEnglish : bool.
Variable universalNumberParser : string -> option Z.

(** X9.  The quick commands are served at every step but [idle], before any
    reply handler: a reset word re-arms the flow at its first question with
    empty slots, a cancel word that is no reset word takes it back to [idle];
    neither dispatches anything nor touches the edit buffer. *)
Theorem quick_commands_at_any_step t s :
  (Purchase.step (purchaseState s) = Purchase.idle ->
   Borrow.step (borrowState s) <> Borrow.idle ->
   let s' := handleTranscript isEnglish universalNumberParser t s in
   (is_reset t = true ->
    borrowState s' = Borrow.mk Borrow.askName EmptyString EmptyString EmptyString
    /\ dispatched s' = dispatched s
    /\ borrowConfirmEdit s' = borrowConfirmEdit s)
   /\
   (is_reset t = false -> is_cancel t = true ->
    borrowState s' = Borrow.mk Borrow.idle EmptyString EmptyString EmptyString
    /\ dispatched s' = dispatched s
    /\ borrowConfirmEdit s' = borrowConfirmEdit s))
  /\
  (Purchase.step (purchaseState s) <> Purchase.idle ->
   let s' := handleTranscript isEnglish universalNumberParser t s in
   (is_reset t = true ->
    purchaseState s'
    = Purchase.mk Purchase.askSupplier EmptyString EmptyString EmptyString
    /\ dispatched s' = dispatched s
    /\ purchaseConfirmEdit s' = purchaseConfirmEdit s)
   /\
   (is_reset t = false -> is_cancel t = true ->
    purchaseState s' = Purchase.mk Purchase.idle EmptyString EmptyString EmptyString
    /\ dispatched s' = dispatched s
    /\ purchaseConfirmEdit s' = purchaseConfirmEdit s)).
Proof.
  split.
  - intros Hidle Hstep. cbv zeta. unfold handleTranscript, handleQuickCommands.
    rewrite Hidle. cbn [Purchase.step_eqb negb].
    destruct (Borrow.step (borrowState s)); try contradiction;
      cbn [Borrow.step_eqb negb];
      (split; [intros Hr|intros Hr Hc]; rewrite Hr, ?Hc; run_updates; repeat split).
  - intros Hstep. cbv zeta. unfold handleTranscript, handlePurchaseQuickCommands.
    destruct (Purchase.step (purchaseState s)); try contradiction;
      cbn [Purchase.step_eqb negb];
      (split; [intros Hr|intros Hr Hc]; rewrite Hr, ?Hc; run_updates; repeat split).
Qed.

(** Typing into the three inputs of a panel that is shown leaves the typed
    values in the edit buffer. *)
Lemma borrow_fields_typed n a p s :
  borrowPanelShown s = true ->
  editBorrowPaid p (editBorrowAmount a (editBorrowName n s))
  = setBorrowConfirmEdit
      (fun _ => Some (Borrow.mk (Borrow.step (borrowData s)) n a p)) s.
Proof.
  intros Hshown. destruct (borrow_panel_shown s Hshown) as [Hstep _].
  unfold borrowData, editBorrowPaid, editBorrowAmount, editBorrowName,
    borrowPanelShown in *.
  destruct (borrowConfirmEdit s) as [e|] eqn:He;
    [|rewrite andb_false_r in Hshown; discriminate Hshown].
  repeat (run_updates; rewrite ?Hstep, ?He; cbn [option_map]).
  apply state_ext; run_updates; rewrite ?He; reflexivity.
Qed.

Lemma purchase_fields_typed n a p s :
  purchasePanelShown s = true ->
  editPurchasePaid p (editPurchaseAmount a (editPurchaseSupplier n s))
  = setPurchaseConfirmEdit
      (fun _ => Some (Purchase.mk (Purchase.step (purchaseData s)) n a p)) s.
Proof.
  intros Hshown. destruct (purchase_panel_shown s Hshown) as [Hstep _].
  unfold purchaseData, editPurchasePaid, editPurchaseAmount, editPurchaseSupplier,
    purchasePanelShown in *.
  destruct (purchaseConfirmEdit s) as [e|] eqn:He;
    [|rewrite andb_false_r in Hshown; discriminate Hshown].
  repeat (run_updates; rewrite ?Hstep, ?He; cbn [option_map]).
  apply state_ext; run_updates; rewrite ?He; reflexivity.
Qed.

(** X10.  What the user typed into the three inputs of a confirmation panel
    is what a spoken yes commits: the event carries the typed name, amount and
    paid amount (['0'] for an empty paid field), while the slots keep what was
    heard. *)
Theorem typed_fields_are_committed n a p t s :
  (borrowPanelShown s = true ->
   is_affirmative t = true ->
   invalid n a = false ->
   let edited := editBorrowPaid p (editBorrowAmount a (editBorrowName n s)) in
   let s' := handleBorrowReply isEnglish universalNumberParser t edited in
   borrowState edited = borrowState s
   /\ dispatched s'
      = (dispatched s ++ [AddBorrow n a (Js.or_else p "0"); DataUpdated])%list
   /\ borrowState s' = Borrow.with_step Borrow.done (borrowState s))
  /\
  (purchasePanelShown s = true ->
   is_affirmative t = true ->
   invalid n a = false ->
   let edited :=
     editPurchasePaid p (editPurchaseAmount a (editPurchaseSupplier n s)) in
   let s' := handlePurchaseReply isEnglish universalNumberParser t edited in
   purchaseState edited = purchaseState s
   /\ dispatched s'
      = (dispatched s ++ [AddPurchase n a (Js.or_else p "0"); DataUpdated])%list
   /\ purchaseState s' = Purchase.with_step Purchase.done (purchaseState s)).
Proof.
  split.
  - intros Hshown Haff Hvalid. cbv zeta.
    destruct (borrow_panel_shown s Hshown) as [Hstep _].
    rewrite (borrow_fields_typed n a p s Hshown). split; [reflexivity|].
    unfold handleBorrowReply, borrowData. run_updates.
    rewrite Hstep, Haff, Hvalid. run_updates.
    rewrite <- app_assoc. split; reflexivity.
  - intros Hshown Haff Hvalid. cbv zeta.
    destruct (purchase_panel_shown s Hshown) as [Hstep _].
    rewrite (purchase_fields_typed n a p s Hshown). split; [reflexivity|].
    unfold handlePurchaseReply, purchaseData. run_updates.
    rewrite Hstep, Haff, Hvalid. run_updates.
    rewrite <- app_assoc. split; reflexivity.
Qed.

End Conversations.

Section EndToEnd.

Variable isEnglish : bool.
Variable universalNumberParser : string -> option Z.

(** With both flows at [idle] a transcript starts the purchase flow when it
    has a purchase word, else the borrow flow when it has a borrow word. *)
Lemma handleTranscript_starts t s :
  Purchase.step (purchaseState s) = Purchase.idle ->
  Borrow.step (borrowState s) = Borrow.idle ->
  handleTranscript isEnglish universalNumberParser t s
  = if Js.test_alternatives purchase_words t then startPurchaseConversation isEnglish s
    else if Js.test_alternatives borrow_words t then startBorrowConversation isEnglish s
    else processVoiceCommand t s.
Proof.
  intros Hp Hb. unfold handleTranscript. rewrite Hp, Hb. reflexivity.
Qed.

(** What a reply that is no quick command does to the flow under way, one
    step at a time; nothing is dispatched and the other flow is not touched. *)
Lemma borrow_reply_heard t s :
  Purchase.step (purchaseState s) = Purchase.idle ->
  is_reset t = false -> is_cancel t = false ->
  let s' := handleTranscript isEnglish universalNumberParser t s in
  (Borrow.step (borrowState s) = Borrow.askName ->
   borrowState s'
   = Borrow.with_step Borrow.askAmount (Borrow.with_name t (borrowState s))
   /\ dispatched s' = dispatched s /\ purchaseState s' = purchaseState s)
  /\
  (Borrow.step (borrowState s) = Borrow.askAmount ->
   forall amount, amountOf universalNumberParser t = Some amount ->
   borrowState s'
   = Borrow.with_step Borrow.askPaid (Borrow.with_amount amount (borrowState s))
   /\ dispatched s' = dispatched s /\ purchaseState s' = purchaseState s)
  /\
  (Borrow.step (borrowState s) = Borrow.askPaid ->
   borrowState s'
   = Borrow.with_step Borrow.confirm
       (Borrow.with_paid (paidOf universalNumberParser t) (borrowState s))
   /\ borrowConfirmEdit s' = Some (borrowState s')
   /\ dispatched s' = dispatched s /\ purchaseState s' = purchaseState s).
Proof.
  intros Hidle Hr Hc. cbv zeta.
  refine (conj _ (conj _ _));
    [intros Hstep|intros Hstep amount Hamount|intros Hstep];
    (rewrite handleTranscript_borrow_reply
      by (try assumption; rewrite Hstep; discriminate));
    unfold handleBorrowReply; rewrite Hstep, ?Hamount; repeat split.
Qed.

Lemma purchase_reply_heard t s :
  is_reset t = false -> is_cancel t = false ->
  let s' := handleTranscript isEnglish universalNumberParser t s in
  (Purchase.step (purchaseState s) = Purchase.askSupplier ->
   purchaseState s'
   = Purchase.with_step Purchase.askAmount
       (Purchase.with_supplier t (purchaseState s))
   /\ dispatched s' = dispatched s /\ borrowState s' = borrowState s)
  /\
  (Purchase.step (purchaseState s) = Purchase.askAmount ->
   forall amount, amountOf universalNumberParser t = Some amount ->
   purchaseState s'
   = Purchase.with_step Purchase.askPaid
       (Purchase.with_amount amount (purchaseState s))
   /\ dispatched s' = dispatched s /\ borrowState s' = borrowState s)
  /\
  (Purchase.step (purchaseState s) = Purchase.askPaid ->
   purchaseState s'
   = Purchase.with_step Purchase.confirm
       (Purchase.with_paid (paidOf universalNumberParser t) (purchaseState s))
   /\ purchaseConfirmEdit s' = Some (purchaseState s')
   /\ dispatched s' = dispatched s /\ borrowState s' = borrowState s).
Proof.
  intros Hr Hc. cbv zeta.
  refine (conj _ (conj _ _));
    [intros Hstep|intros Hstep amount Hamount|intros Hstep];
    (rewrite handleTranscript_purchase_reply
      by (try assumption; rewrite Hstep; discriminate));
    unfold handlePurchaseReply; rewrite Hstep, ?Hamount; repeat split.
Qed.

(** X11.  A whole conversation: from rest, a start word followed by a name,
    an amount reply and a paid reply (none of them a quick command) brings the
    flow to [confirm] with exactly the heard name, amount and paid amount in the
    slots and in the edit buffer, and nothing dispatched on the way; a yes then
    dispatches one commit of these three values and ends the flow. *)
Theorem conversation_reaches_confirm t0 name t1 t2 t3 amount s :
  Purchase.step (purchaseState s) = Purchase.idle ->
  Borrow.step (borrowState s) = Borrow.idle ->
  is_reset name = false -> is_cancel name = false ->
  is_reset t1 = false -> is_cancel t1 = false ->
  amountOf universalNumberParser t1 = Some amount ->
  is_reset t2 = false -> is_cancel t2 = false ->
  let paid := paidOf universalNumberParser t2 in
  let heard := [Heard t0; Heard name; Heard t1; Heard t2] in
  (Js.test_alternatives purchase_words t0 = false ->
   Js.test_alternatives borrow_words t0 = true ->
   let confirming := run isEnglish universalNumberParser heard s in
   borrowState confirming = Borrow.mk Borrow.confirm name amount paid
   /\ borrowConfirmEdit confirming = Some (Borrow.mk Borrow.confirm name amount paid)
   /\ dispatched confirming = dispatched s
   /\ purchaseState confirming = purchaseState s
   /\ (Js.truthy name = true ->
       is_reset t3 = false -> is_cancel t3 = false -> is_affirmative t3 = true ->
       let s' := run isEnglish universalNumberParser [Heard t3] confirming in
       dispatched s' = (dispatched s ++ [AddBorrow name amount paid; DataUpdated])%list
       /\ Borrow.step (borrowState s') = Borrow.done))
  /\
  (Js.test_alternatives purchase_words t0 = true ->
   let confirming := run isEnglish universalNumberParser heard s in
   purchaseState confirming = Purchase.mk Purchase.confirm name amount paid
   /\ purchaseConfirmEdit confirming
      = Some (Purchase.mk Purchase.confirm name amount paid)
   /\ dispatched confirming = dispatched s
   /\ borrowState confirming = borrowState s
   /\ (Js.truthy name = true ->
       is_reset t3 = false -> is_cancel t3 = false -> is_affirmative t3 = true ->
       let s' := run isEnglish universalNumberParser [Heard t3] confirming in
       dispatched s'
       = (dispatched s ++ [AddPurchase name amount paid; DataUpdated])%list
       /\ Purchase.step (purchaseState s') = Purchase.done)).
Proof.
  intros Hpidle Hbidle Hr0 Hc0 Hr1 Hc1 Hamount Hr2 Hc2. cbv zeta.
  destruct (amountOf_spec universalNumberParser t1 amount Hamount)
    as (_ & _ & Hvalid).
  destruct (paidOf_spec universalNumberParser t2) as (Hpaid & _).
  assert (Hor : Js.or_else (paidOf universalNumberParser t2) "0"
                = paidOf universalNumberParser t2).
  { destruct (paidOf universalNumberParser t2); [contradiction|reflexivity]. }
  unfold run. cbn [fold_left react].
  rewrite (handleTranscript_starts t0 s Hpidle Hbidle). split.
  - intros Hnot Hword. rewrite Hnot, Hword.
    set (s0 := startBorrowConversation isEnglish s).
    assert (H0 : borrowState s0
                 = Borrow.mk Borrow.askName EmptyString EmptyString EmptyString
                 /\ dispatched s0 = dispatched s
                 /\ purchaseState s0 = purchaseState s) by (repeat split).
    destruct H0 as (Hb0 & Hd0 & Hp0).
    assert (Hi0 : Purchase.step (purchaseState s0) = Purchase.idle)
      by (rewrite Hp0; exact Hpidle).
    destruct (borrow_reply_heard name s0 Hi0 Hr0 Hc0) as (H1 & _).
    destruct H1 as (Hb1 & Hd1 & Hp1); [rewrite Hb0; reflexivity|].
    set (s1 := handleTranscript isEnglish universalNumberParser name s0) in *.
    rewrite Hb0 in Hb1. cbn [Borrow.with_step Borrow.with_name Borrow.with_amount Borrow.with_paid] in Hb1.
    assert (Hi1 : Purchase.step (purchaseState s1) = Purchase.idle)
      by (rewrite Hp1; exact Hi0).
    destruct (borrow_reply_heard t1 s1 Hi1 Hr1 Hc1) as (_ & H2 & _).
    destruct (H2 ltac:(rewrite Hb1; reflexivity) amount Hamount) as (Hb2 & Hd2 & Hp2).
    set (s2 := handleTranscript isEnglish universalNumberParser t1 s1) in *.
    rewrite Hb1 in Hb2. cbn [Borrow.with_step Borrow.with_name Borrow.with_amount Borrow.with_paid] in Hb2.
    assert (Hi2 : Purchase.step (purchaseState s2) = Purchase.idle)
      by (rewrite Hp2; exact Hi1).
    destruct (borrow_reply_heard t2 s2 Hi2 Hr2 Hc2) as (_ & _ & H3).
    destruct (H3 ltac:(rewrite Hb2; reflexivity)) as (Hb3 & He3 & Hd3 & Hp3).
    set (s3 := handleTranscript isEnglish universalNumberParser t2 s2) in *.
    rewrite Hb2 in Hb3. cbn [Borrow.with_step Borrow.with_name Borrow.with_amount Borrow.with_paid] in Hb3.
    assert (Hi3 : Purchase.step (purchaseState s3) = Purchase.idle)
      by (rewrite Hp3; exact Hi2).
    refine (conj Hb3 (conj _ (conj _ (conj _ _)))).
    + rewrite He3, Hb3. reflexivity.
    + rewrite Hd3, Hd2, Hd1. exact Hd0.
    + rewrite Hp3, Hp2, Hp1. exact Hp0.
    + intros Hname Hr3 Hc3 Haff.
      rewrite handleTranscript_borrow_reply;
        try assumption; try (rewrite Hb3; discriminate).
      assert (Hdata : borrowData s3
                      = Borrow.mk Borrow.confirm name amount
                          (paidOf universalNumberParser t2))
        by (unfold borrowData; rewrite He3; exact Hb3).
      unfold handleBorrowReply. rewrite Hdata, Hb3. cbv zeta.
      cbn [Borrow.step Borrow.name Borrow.amount Borrow.paid].
      rewrite Haff, (Hvalid name Hname), Hor. run_updates.
      rewrite <- app_assoc, Hd3, Hd2, Hd1, Hd0, ?Hb3. split; reflexivity.
  - intros Hword. rewrite Hword.
    set (s0 := startPurchaseConversation isEnglish s).
    assert (H0 : purchaseState s0
                 = Purchase.mk Purchase.askSupplier EmptyString EmptyString EmptyString
                 /\ dispatched s0 = dispatched s
                 /\ borrowState s0 = borrowState s) by (repeat split).
    destruct H0 as (Hb0 & Hd0 & Hp0).
    destruct (purchase_reply_heard name s0 Hr0 Hc0) as (H1 & _).
    destruct H1 as (Hb1 & Hd1 & Hp1); [rewrite Hb0; reflexivity|].
    set (s1 := handleTranscript isEnglish universalNumberParser name s0) in *.
    rewrite Hb0 in Hb1. cbn [Purchase.with_step Purchase.with_supplier Purchase.with_amount Purchase.with_paid] in Hb1.
    destruct (purchase_reply_heard t1 s1 Hr1 Hc1) as (_ & H2 & _).
    destruct (H2 ltac:(rewrite Hb1; reflexivity) amount Hamount) as (Hb2 & Hd2 & Hp2).
    set (s2 := handleTranscript isEnglish universalNumberParser t1 s1) in *.
    rewrite Hb1 in Hb2. cbn [Purchase.with_step Purchase.with_supplier Purchase.with_amount Purchase.with_paid] in Hb2.
    destruct (purchase_reply_heard t2 s2 Hr2 Hc2) as (_ & _ & H3).
    destruct (H3 ltac:(rewrite Hb2; reflexivity)) as (Hb3 & He3 & Hd3 & Hp3).
    set (s3 := handleTranscript isEnglish universalNumberParser t2 s2) in *.
    rewrite Hb2 in Hb3. cbn [Purchase.with_step Purchase.with_supplier Purchase.with_amount Purchase.with_paid] in Hb3.
    refine (conj Hb3 (conj _ (conj _ (conj _ _)))).
    + rewrite He3, Hb3. reflexivity.
    + rewrite Hd3, Hd2, Hd1. exact Hd0.
    + rewrite Hp3, Hp2, Hp1. exact Hp0.
    + intros Hname Hr3 Hc3 Haff.
      rewrite handleTranscript_purchase_reply;
        try assumption; try (rewrite Hb3; discriminate).
      assert (Hdata : purchaseData s3
                      = Purchase.mk Purchase.confirm name amount
                          (paidOf universalNumberParser t2))
        by (unfold purchaseData; rewrite He3; exact Hb3).
      unfold handlePurchaseReply. rewrite Hdata, Hb3. cbv zeta.
      cbn [Purchase.step Purchase.supplier Purchase.amount Purchase.paid].
      rewrite Haff, (Hvalid name Hname), Hor. run_updates.
      rewrite <- app_assoc, Hd3, Hd2, Hd1, Hd0, ?Hb3. split; reflexivity.
Qed.

End EndToEnd.


(** [one_flow_at_a_time] on a session that tries to start both flows. *)
Lemma one_flow_at_a_time_witness :
  forallb (fun i => negb (is_result i))
    [Heard "borrow"; Heard "purchase"; BorrowEditClicked] = true
  /\ one_flow (run true digitsOnly
                 [Heard "borrow"; Heard "purchase"; BorrowEditClicked] initial) = true.
Proof.
  split; [reflexivity|].
  apply (one_flow_at_a_time true digitsOnly
           [Heard "borrow"; Heard "purchase"; BorrowEditClicked]).
  reflexivity.
Defined.

(** [commits_need_confirm] on a yes said too early. *)
Lemma commits_need_confirm_witness :
  Borrow.step (borrowState Sample.borrow_asking_paid) <> Borrow.confirm
  /\ Purchase.step (purchaseState Sample.borrow_asking_paid) <> Purchase.confirm
  /\ borrow_commits
       (dispatched (react true digitsOnly (Heard "yes") Sample.borrow_asking_paid))
     = borrow_commits (dispatched Sample.borrow_asking_paid)
  /\ purchase_commits
       (dispatched (react true digitsOnly (Heard "yes") Sample.borrow_asking_paid))
     = purchase_commits (dispatched Sample.borrow_asking_paid).
Proof.
  assert (Hb : Borrow.step (borrowState Sample.borrow_asking_paid) <> Borrow.confirm)
    by (vm_compute; discriminate).
  assert (Hp : Purchase.step (purchaseState Sample.borrow_asking_paid)
               <> Purchase.confirm) by (vm_compute; discriminate).
  destruct (commits_need_confirm true digitsOnly (Heard "yes")
              Sample.borrow_asking_paid) as (Hborrow & Hpurchase & _).
  exact (conj Hb (conj Hp (conj (Hborrow Hb) (Hpurchase Hp)))).
Defined.

(** [heard_amount_is_valid] on a spoken amount. *)
Lemma heard_amount_is_valid_witness :
  amountOf digitsOnly "about 500 rupees" = Some "500"
  /\ "500" <> EmptyString
  /\ "500" <> "0"
  /\ invalid "Ravi" "500" = false.
Proof.
  destruct (heard_amount_is_valid digitsOnly "about 500 rupees" "500" eq_refl)
    as (Hne & Hnz & Hvalid).
  exact (conj eq_refl (conj Hne (conj Hnz (Hvalid "Ravi" eq_refl)))).
Defined.

(** [heard_paid_amount] on a reply with leading zeros. *)
Lemma heard_paid_amount_witness :
  digitsOnly "gave 007 back" = None
  /\ paidOf digitsOnly "gave 007 back" = "007".
Proof.
  destruct (heard_paid_amount digitsOnly "gave 007 back") as (_ & Hpaid).
  exact (conj eq_refl (Hpaid eq_refl)).
Defined.

(** [quick_commands_at_any_step] on a finished borrow flow and a purchase flow under way. *)
Lemma quick_commands_at_any_step_witness :
  Purchase.step (purchaseState Sample.borrow_done) = Purchase.idle
  /\ Borrow.step (borrowState Sample.borrow_done) <> Borrow.idle
  /\ is_reset "reset" = true
  /\ borrowState (handleTranscript true digitsOnly "reset" Sample.borrow_done)
     = Borrow.mk Borrow.askName EmptyString EmptyString EmptyString
  /\ Purchase.step (purchaseState Sample.purchase_asking_paid) <> Purchase.idle
  /\ is_reset "stop" = false
  /\ is_cancel "stop" = true
  /\ purchaseState (handleTranscript true digitsOnly "stop" Sample.purchase_asking_paid)
     = Purchase.mk Purchase.idle EmptyString EmptyString EmptyString.
Proof.
  assert (Hb : Borrow.step (borrowState Sample.borrow_done) <> Borrow.idle)
    by (vm_compute; discriminate).
  assert (Hp : Purchase.step (purchaseState Sample.purchase_asking_paid)
               <> Purchase.idle) by (vm_compute; discriminate).
  destruct (quick_commands_at_any_step true digitsOnly "reset" Sample.borrow_done)
    as (Hborrow & _).
  destruct (quick_commands_at_any_step true digitsOnly "stop"
              Sample.purchase_asking_paid) as (_ & Hpurchase).
  destruct (Hborrow eq_refl Hb) as (Hreset & _).
  destruct (Hpurchase Hp) as (_ & Hcancel).
  destruct (Hreset eq_refl) as (Hstate & _).
  destruct (Hcancel eq_refl eq_refl) as (Hstate' & _).
  exact (conj eq_refl (conj Hb (conj eq_refl (conj Hstate
          (conj Hp (conj eq_refl (conj eq_refl Hstate'))))))).
Defined.

(** [typed_fields_are_committed] on both sample panels. *)
Lemma typed_fields_are_committed_witness :
  borrowPanelShown Sample.borrow_confirming = true
  /\ purchasePanelShown Sample.purchase_confirming = true
  /\ is_affirmative "yes" = true
  /\ invalid "Ravi Kumar" "750" = false
  /\ dispatched
       (handleBorrowReply true digitsOnly "yes"
          (editBorrowPaid EmptyString
             (editBorrowAmount "750"
                (editBorrowName "Ravi Kumar" Sample.borrow_confirming))))
     = (dispatched Sample.borrow_confirming
        ++ [AddBorrow "Ravi Kumar" "750" "0"; DataUpdated])%list
  /\ dispatched
       (handlePurchaseReply true digitsOnly "yes"
          (editPurchasePaid EmptyString
             (editPurchaseAmount "750"
                (editPurchaseSupplier "Ravi Kumar" Sample.purchase_confirming))))
     = (dispatched Sample.purchase_confirming
        ++ [AddPurchase "Ravi Kumar" "750" "0"; DataUpdated])%list.
Proof.
  destruct (typed_fields_are_committed true digitsOnly "Ravi Kumar" "750" EmptyString
              "yes" Sample.borrow_confirming) as (Hborrow & _).
  destruct (typed_fields_are_committed true digitsOnly "Ravi Kumar" "750" EmptyString
              "yes" Sample.purchase_confirming) as (_ & Hpurchase).
  destruct (Hborrow eq_refl eq_refl eq_refl) as (_ & Hsent & _).
  destruct (Hpurchase eq_refl eq_refl eq_refl) as (_ & Hsent' & _).
  exact (conj eq_refl (conj eq_refl (conj eq_refl (conj eq_refl (conj Hsent Hsent'))))).
Defined.

(** [conversation_reaches_confirm] on both sample conversations. *)
Lemma conversation_reaches_confirm_witness :
  borrowState (run true digitsOnly
                 [Heard "I want to borrow"; Heard "Ravi"; Heard "500"; Heard "none"]
                 initial)
  = Borrow.mk Borrow.confirm "Ravi" "500" "0"
  /\ dispatched (run true digitsOnly [Heard "yes"]
                   (run true digitsOnly
                      [Heard "I want to borrow"; Heard "Ravi"; Heard "500"; Heard "none"]
                      initial))
     = [AddBorrow "Ravi" "500" "0"; DataUpdated]
  /\ purchaseState (run true digitsOnly
                      [Heard "buy"; Heard "ABC Traders"; Heard "1000"; Heard "400"]
                      initial)
     = Purchase.mk Purchase.confirm "ABC Traders" "1000" "400".
Proof.
  destruct (conversation_reaches_confirm true digitsOnly "I want to borrow" "Ravi"
              "500" "none" "yes" "500" initial
              eq_refl eq_refl eq_refl eq_refl eq_refl eq_refl eq_refl eq_refl eq_refl)
    as (Hborrow & _).
  destruct (conversation_reaches_confirm true digitsOnly "buy" "ABC Traders"
              "1000" "400" "yes" "1000" initial
              eq_refl eq_refl eq_refl eq_refl eq_refl eq_refl eq_refl eq_refl eq_refl)
    as (_ & Hpurchase).
  destruct (Hborrow eq_refl eq_refl) as (Hstate & _ & _ & _ & Hyes).
  destruct (Hyes eq_refl eq_refl eq_refl eq_refl) as (Hsent & _).
  destruct (Hpurchase eq_refl) as (Hstate' & _).
  exact (conj Hstate (conj Hsent Hstate')).
Defined.

(** * The rest of the component and the accessibility hook *)

(** ** Last elements *)

Lemma last_cons {A : Type} (l : list A) : forall x d, last (x :: l) d = last l x.
Proof.
  induction l as [|y l IH]; intros x d; [reflexivity|].
  change (last (x :: y :: l) d) with (last (y :: l) d).
  rewrite !IH. reflexivity.
Qed.

Lemma last_in {A : Type} (rest : list A) : forall first,
  In (last rest first) (first :: rest).
Proof.
  induction rest as [|x rest IH]; intros first; [left; reflexivity|].
  right. rewrite last_cons. apply IH.
Qed.

(** ** The voice of the assistant *)

Lemma default_voice_some vs uri :
  Voices.default_voice vs = Some uri ->
  exists v, In v vs /\ Voices.voiceURI v = uri
            /\ (Voices.preferred v = true
                \/ (forall w, In w vs -> Voices.preferred w = false)
                   /\ hd_error vs = Some v).
Proof.
  unfold Voices.default_voice. destruct (find Voices.preferred vs) as [p|] eqn:Hfind.
  - intros [= <-]. apply find_some in Hfind as [Hin Hp].
    exists p. repeat split; [exact Hin|left; exact Hp].
  - destruct vs as [|first vs]; [discriminate|]. intros [= <-].
    exists first. repeat split; [left; reflexivity|].
    right. split; [|reflexivity]. intros w Hw. exact (find_none _ _ Hfind w Hw).
Qed.

Lemma default_voice_found vs :
  vs <> [] -> exists uri, Voices.default_voice vs = Some uri.
Proof.
  unfold Voices.default_voice. intros Hvs.
  destruct (find Voices.preferred vs) as [p|]; [eexists; reflexivity|].
  destruct vs as [|first vs]; [contradiction|eexists; reflexivity].
Qed.

Lemma of_lang_empty l voices :
  (0 <? length (Voices.of_lang l voices))%nat = false <-> Voices.of_lang l voices = [].
Proof.
  destruct (Voices.of_lang l voices); cbn; split; intros H;
    try reflexivity; discriminate H.
Qed.

(** X15.  The default voice: a voice the user has chosen is never replaced;
    otherwise, when the browser has voices of the language of the session,
    one of those is chosen, a Google, Microsoft or Apple voice whenever there
    is one and the first voice of the language else; with no such voice, or
    for another language, nothing is chosen. *)
Theorem default_voice_speaks_language language selected voices :
  let chosen :=
    Voices.selectedVoiceURI (Voices.populateVoices language selected voices) in
  (Voices.unselected selected = false -> chosen = selected)
  /\ (Voices.lang_of language = None -> chosen = selected)
  /\ (forall l, Voices.lang_of language = Some l ->
      Voices.of_lang l voices = [] -> chosen = selected)
  /\ (forall l, Voices.lang_of language = Some l ->
      Voices.of_lang l voices <> [] ->
      Voices.unselected selected = true ->
      exists v, In v voices
                /\ Voices.lang v = l
                /\ chosen = Some (Voices.voiceURI v)
                /\ (Voices.preferred v = true
                    \/ (forall w, In w voices -> Voices.lang w = l ->
                                  Voices.preferred w = false)
                       /\ hd_error (Voices.of_lang l voices) = Some v)).
Proof.
  cbv zeta. unfold Voices.populateVoices, Voices.lang_of.
  cbn [Voices.selectedVoiceURI].
  assert (Hpick : forall l, Voices.of_lang l voices <> [] ->
            exists v, In v voices
                /\ Voices.lang v = l
                /\ Voices.default_voice (Voices.of_lang l voices)
                   = Some (Voices.voiceURI v)
                /\ (Voices.preferred v = true
                    \/ (forall w, In w voices -> Voices.lang w = l ->
                                  Voices.preferred w = false)
                       /\ hd_error (Voices.of_lang l voices) = Some v)).
  { intros l Hne. destruct (default_voice_found _ Hne) as [uri Huri].
    destruct (default_voice_some _ _ Huri) as (v & Hin & Hv & Hpref).
    unfold Voices.of_lang in Hin. apply filter_In in Hin as [Hin Hlang].
    apply String.eqb_eq in Hlang.
    exists v. repeat split; [exact Hin|exact Hlang|rewrite Huri, Hv; reflexivity|].
    destruct Hpref as [Hp|[Hnone Hfirst]]; [left; exact Hp|right].
    split; [|exact Hfirst]. intros w Hw Hwl. apply Hnone.
    unfold Voices.of_lang. apply filter_In. split; [exact Hw|].
    apply String.eqb_eq, Hwl. }
  destruct (String.eqb_spec language "malayalam") as [->|Hml];
    [|destruct (String.eqb_spec language "english") as [->|Hen]];
    cbn [String.eqb Ascii.eqb Bool.eqb andb].
  - split; [intros ->; rewrite !andb_false_r; reflexivity|].
    split; [discriminate|]. split.
    + intros l [= <-] Hnone. apply of_lang_empty in Hnone. rewrite Hnone. reflexivity.
    + intros l [= <-] Hne Hun. rewrite Hun, andb_true_r.
      destruct (0 <? length (Voices.of_lang "ml-IN" voices))%nat eqn:Hlen;
        [|apply of_lang_empty in Hlen; contradiction].
      apply Hpick, Hne.
  - split; [intros ->; rewrite !andb_false_r; reflexivity|].
    split; [discriminate|]. split.
    + intros l [= <-] Hnone. apply of_lang_empty in Hnone. rewrite Hnone. reflexivity.
    + intros l [= <-] Hne Hun. rewrite Hun, andb_true_r.
      destruct (0 <? length (Voices.of_lang "en-US" voices))%nat eqn:Hlen;
        [|apply of_lang_empty in Hlen; contradiction].
      apply Hpick, Hne.
  - split; [reflexivity|]. split; [reflexivity|].
    split; intros l Hl; discriminate Hl.
Qed.

(** [default_voice_speaks_language] on a browser with an espeak and a Google
    voice for Malayalam. *)
Lemma default_voice_speaks_language_witness :
  Voices.lang_of "malayalam" = Some "ml-IN"
  /\ Voices.unselected None = true
  /\ Voices.unselected (Some "urn:picked") = false
  /\ Voices.selectedVoiceURI
       (Voices.populateVoices "malayalam" (Some "urn:picked")
          [Voices.voice "espeak ml" "ml-IN" "urn:espeak";
           Voices.voice "Google മലയാളം" "ml-IN" "urn:google"])
     = Some "urn:picked"
  /\ exists v,
       Voices.preferred v = true
       /\ Voices.selectedVoiceURI
            (Voices.populateVoices "malayalam" None
               [Voices.voice "espeak ml" "ml-IN" "urn:espeak";
                Voices.voice "Google മലയാളം" "ml-IN" "urn:google"])
          = Some (Voices.voiceURI v).
Proof.
  destruct (default_voice_speaks_language "malayalam" (Some "urn:picked")
              [Voices.voice "espeak ml" "ml-IN" "urn:espeak";
               Voices.voice "Google മലയാളം" "ml-IN" "urn:google"])
    as (Hkept & _).
  destruct (default_voice_speaks_language "malayalam" None
              [Voices.voice "espeak ml" "ml-IN" "urn:espeak";
               Voices.voice "Google മലയാളം" "ml-IN" "urn:google"])
    as (_ & _ & _ & Hchosen).
  refine (conj eq_refl (conj eq_refl (conj eq_refl (conj (Hkept eq_refl) _)))).
  destruct (Hchosen "ml-IN" eq_refl ltac:(vm_compute; discriminate) eq_refl)
    as (v & Hin & _ & Huri & Hpref).
  exists v. split; [|exact Huri].
  destruct Hpref as [Hp|[Hnone _]]; [exact Hp|].
  exfalso.
  assert (H : Voices.preferred (Voices.voice "Google മലയാളം" "ml-IN" "urn:google")
              = false)
    by (apply Hnone; [right; left; reflexivity|reflexivity]).
  vm_compute in H. discriminate H.
Defined.

(** ** Focus and ARIA attributes of a dialog *)

(** X16.  The focus trap: whenever the key handler moves the focus itself,
    the key was Tab, the element it focuses is one of the container that is
    enabled and rendered, and the same key with the Shift key the other way
    round brings the focus back to where it was. *)
Theorem focus_trap_wraps key shiftKey activeElement matches el :
  Accessibility.handleKeyDown key shiftKey activeElement matches = Some el ->
  key = Accessibility.Tab
  /\ In el matches
  /\ Accessibility.disabled el = false
  /\ Accessibility.rendered el = true
  /\ exists back,
       Accessibility.handleKeyDown Accessibility.Tab (negb shiftKey)
         (Accessibility.node el) matches = Some back
       /\ Accessibility.node back = activeElement.
Proof.
  unfold Accessibility.handleKeyDown.
  destruct key; [|discriminate]. intros H. split; [reflexivity|].
  destruct (Accessibility.focusableElements matches) as [|first rest] eqn:Hf;
    [discriminate|].
  assert (Hall : forall x, In x (first :: rest) ->
                   In x matches /\ Accessibility.disabled x = false
                   /\ Accessibility.rendered x = true).
  { intros x Hx. rewrite <- Hf in Hx. unfold Accessibility.focusableElements in Hx.
    apply filter_In in Hx as [Hin Hok]. apply andb_true_iff in Hok as [Hd Hr].
    apply negb_true_iff in Hd. repeat split; assumption. }
  pose proof (last_in rest first) as Hlast.
  cbv zeta in H.
  destruct shiftKey; cbn [negb].
  - destruct (Nat.eqb_spec activeElement (Accessibility.node first)) as [->|];
      [|discriminate].
    injection H as <-. destruct (Hall _ Hlast) as (Hin & Hd & Hr).
    repeat split; try assumption.
    exists first. rewrite Nat.eqb_refl. split; reflexivity.
  - destruct (Nat.eqb_spec activeElement (Accessibility.node (last rest first)))
      as [->|]; [|discriminate].
    injection H as <-. destruct (Hall first (or_introl eq_refl)) as (Hin & Hd & Hr).
    repeat split; try assumption.
    exists (last rest first). rewrite Nat.eqb_refl. split; reflexivity.
Qed.

(** ** Speech recognition errors *)

Section Errors.

Variable isEnglish : bool.
Variable universalNumberParser : string -> option Z.

Ltac conv_done := unfold conversation; run_updates; reflexivity.

Lemma react_conversation i s1 s2 :
  conversation s1 = conversation s2 ->
  conversation (react isEnglish universalNumberParser i s1)
  = conversation (react isEnglish universalNumberParser i s2).
Proof.
  intros H.
  destruct s1 as [iP iS rsp dbg [bst bnm bam bpd] [pst psu pam ppd] bE pE dsp spk cmd bL pL].
  destruct s2 as [iP2 iS2 rsp2 dbg2 bs2 ps2 bE2 pE2 dsp2 spk2 cmd2 bL2 pL2].
  unfold conversation in H. cbn in H.
  injection H as -> -> <- <- <- <- <- <- <-.
  destruct i.
  - unfold_handlers. unfold borrowData, purchaseData. run_updates.
    destruct pst, bst; run_updates; split_cases; conv_done.
  - unfold_handlers. split_cases; conv_done.
  - unfold_handlers. unfold borrowPanelShown. run_updates. split_cases; conv_done.
  - unfold_handlers. unfold borrowPanelShown. run_updates. split_cases; conv_done.
  - unfold_handlers. unfold borrowPanelShown. run_updates. split_cases; conv_done.
  - cbn [react]. unfold clickBorrowSave, borrowPanelShown, borrowSaveDisabled.
    run_updates. split_cases; conv_done.
  - unfold_handlers. unfold borrowPanelShown. run_updates. split_cases; conv_done.
  - unfold_handlers. unfold purchasePanelShown. run_updates. split_cases; conv_done.
  - unfold_handlers. unfold purchasePanelShown. run_updates. split_cases; conv_done.
  - unfold_handlers. unfold purchasePanelShown. run_updates. split_cases; conv_done.
  - cbn [react]. unfold clickPurchaseSave, purchasePanelShown, purchaseSaveDisabled.
    run_updates. split_cases; conv_done.
  - unfold_handlers. unfold purchasePanelShown. run_updates. split_cases; conv_done.
  - cbn [react]. unfold addBorrowResult. run_updates.
    destruct bL as [|n].
    + cbn [Nat.iter nat_rect]. unfold handleAddBorrowResult. run_updates.
      split_cases; conv_done.
    + destruct (success e);
        [rewrite !iter_borrowSaveSucceeded|rewrite !iter_borrowSaveFailed];
        unfold handleAddBorrowResult; run_updates; split_cases; conv_done.
  - cbn [react]. unfold addPurchaseResult. run_updates.
    destruct pL as [|n].
    + reflexivity.
    + destruct (success e);
        [rewrite !iter_purchaseSaveSucceeded|rewrite !iter_purchaseSaveFailed];
        conv_done.
Qed.

Lemma run_conversation inputs : forall s1 s2,
  conversation s1 = conversation s2 ->
  conversation (run isEnglish universalNumberParser inputs s1)
  = conversation (run isEnglish universalNumberParser inputs s2).
Proof.
  unfold run. induction inputs as [|i inputs IH]; intros s1 s2 H; [exact H|].
  cbn [fold_left]. apply IH, react_conversation, H.
Qed.

Lemma speechErrorMessage_not_empty error :
  speechErrorMessage isEnglish error <> EmptyString.
Proof.
  unfold speechErrorMessage, localized.
  destruct (Js.includes "no-speech" error), (Js.includes "audio-capture" error),
    (Js.includes "network" error), isEnglish; discriminate.
Qed.

(** X12.  A speech recognition error is always reported, with a text that is
    not empty, on the screen, aloud and next to the microphone; an error of no
    known kind is quoted in it.  It disturbs nothing else: whatever comes
    next, the flows, the edit buffers, the pending saves and the dispatched
    events go on as if the error had not happened. *)
Theorem speech_error_keeps_conversation error inputs s :
  let s' := fst (handleSpeechError isEnglish error s) in
  let micError := snd (handleSpeechError isEnglish error s) in
  micError <> EmptyString
  /\ response s' = micError
  /\ spoken s' = (spoken s ++ [say micError false])%list
  /\ (Js.includes "no-speech" error = false ->
      Js.includes "audio-capture" error = false ->
      Js.includes "network" error = false ->
      Js.includes error micError = true)
  /\ conversation (run isEnglish universalNumberParser inputs s')
     = conversation (run isEnglish universalNumberParser inputs s).
Proof.
  cbv zeta. unfold handleSpeechError. cbn [fst snd].
  split; [apply speechErrorMessage_not_empty|].
  split; [reflexivity|]. split; [reflexivity|]. split.
  - intros H1 H2 H3. unfold speechErrorMessage, localized. rewrite H1, H2, H3.
    destruct isEnglish; apply includes_after, includes_here.
  - apply run_conversation. reflexivity.
Qed.

End Errors.

(** [speech_error_keeps_conversation] on an error of no known kind in the
    middle of the borrow conversation. *)
Lemma speech_error_keeps_conversation_witness :
  Js.includes "aborted"
    (snd (handleSpeechError true "aborted" Sample.borrow_asking_amount)) = true
  /\ conversation
       (run true digitsOnly [Heard "500"; Heard "200"; Heard "yes"]
          (fst (handleSpeechError true "aborted" Sample.borrow_asking_amount)))
     = conversation Sample.borrow_done.
Proof.
  destruct (speech_error_keeps_conversation true digitsOnly "aborted"
              [Heard "500"; Heard "200"; Heard "yes"] Sample.borrow_asking_amount)
    as (_ & _ & _ & Hquoted & Hsame).
  split; [exact (Hquoted eq_refl eq_refl eq_refl)|].
  rewrite Hsame. vm_compute. reflexivity.
Defined.

(** ** The debounce helper *)

Section DebounceFacts.

Variable Args : Type.
Variable delay : nat.

Lemma elapse_early t0 (timer : option (Debounce.Timeout Args)) :
  (forall tm, timer = Some tm -> (t0 < Debounce.due tm)%nat) ->
  Debounce.elapse t0 timer = (timer, []).
Proof.
  intros Hdue. unfold Debounce.elapse. destruct timer as [tm|]; [|reflexivity].
  specialize (Hdue tm eq_refl).
  destruct (Nat.leb_spec (Debounce.due tm) t0); [lia|reflexivity].
Qed.

Lemma elapse_late t0 (timer : option (Debounce.Timeout Args)) :
  (forall tm, timer = Some tm -> (Debounce.due tm < t0)%nat) ->
  Debounce.elapse t0 timer
  = (None, match timer with Some tm => [Debounce.args tm] | None => [] end).
Proof.
  intros Hdue. unfold Debounce.elapse. destruct timer as [tm|]; [|reflexivity].
  specialize (Hdue tm eq_refl).
  destruct (Nat.leb_spec (Debounce.due tm) t0); [reflexivity|lia].
Qed.

Lemma calls_rapid (cs : list (nat * Args)) :
  forall t0 a0 (timer : option (Debounce.Timeout Args)),
  Debounce.rapid delay ((t0, a0) :: cs) = true ->
  (forall tm, timer = Some tm -> (t0 < Debounce.due tm)%nat) ->
  Debounce.calls delay ((t0, a0) :: cs) timer = [snd (last cs (t0, a0))].
Proof.
  induction cs as [|[t1 a1] cs IH]; intros t0 a0 timer Hrapid Hdue.
  - cbn [Debounce.calls]. rewrite (elapse_early _ _ Hdue). reflexivity.
  - change (Debounce.calls delay ((t0, a0) :: (t1, a1) :: cs) timer)
      with (let (timer', ran) := Debounce.elapse t0 timer in
            (ran ++ Debounce.calls delay ((t1, a1) :: cs)
                      (Debounce.debounce delay t0 a0 timer'))%list).
    cbn [Debounce.rapid] in Hrapid.
    apply andb_true_iff in Hrapid as [Hgap Hrapid].
    apply andb_true_iff in Hgap as [_ Hgap]. apply Nat.ltb_lt in Hgap.
    rewrite (elapse_early _ _ Hdue). cbn [app].
    rewrite (IH t1 a1 _ Hrapid).
    + rewrite (last_cons cs (t1, a1) (t0, a0)). reflexivity.
    + unfold Debounce.debounce. intros tm [= <-]. exact Hgap.
Qed.

Lemma calls_spaced (cs : list (nat * Args)) :
  forall timer : option (Debounce.Timeout Args),
  Debounce.spaced delay cs = true ->
  (forall tm t0 a0 cs', timer = Some tm -> cs = (t0, a0) :: cs' ->
                        (Debounce.due tm < t0)%nat) ->
  Debounce.calls delay cs timer
  = (match timer with Some tm => [Debounce.args tm] | None => [] end
     ++ map snd cs)%list.
Proof.
  induction cs as [|[t0 a0] cs IH]; intros timer Hspaced Hdue.
  - cbn [Debounce.calls map]. rewrite app_nil_r. reflexivity.
  - cbn [Debounce.calls]. rewrite elapse_late.
    + cbn [Debounce.spaced] in Hspaced.
      apply andb_true_iff in Hspaced as [Hgap Hspaced].
      rewrite (IH _ Hspaced).
      * reflexivity.
      * unfold Debounce.debounce. intros tm t1 a1 cs' [= <-] ->.
        apply Nat.ltb_lt in Hgap. exact Hgap.
    + intros tm Htm. exact (Hdue tm t0 a0 cs Htm eq_refl).
Qed.

(** X13.  Debouncing: of calls that follow each other by less than the delay
    only the last one reaches the function, once; calls that are more than the
    delay apart all reach it, in order. *)
Theorem debounce_keeps_last_of_burst (cs : list (nat * Args)) t a :
  (Debounce.rapid delay (cs ++ [(t, a)]) = true ->
   Debounce.calls delay (cs ++ [(t, a)]) None = [a])
  /\ (Debounce.spaced delay cs = true ->
      Debounce.calls delay cs None = map snd cs).
Proof.
  split.
  - intros Hrapid. destruct cs as [|[t0 a0] cs].
    + reflexivity.
    + cbn [app] in *. rewrite (calls_rapid _ t0 a0 None Hrapid).
      * rewrite last_last. reflexivity.
      * discriminate.
  - intros Hspaced. rewrite (calls_spaced cs None Hspaced); [reflexivity|].
    discriminate.
Qed.

Lemma calls_bounded (cs : list (nat * Args)) :
  forall timer : option (Debounce.Timeout Args),
  (length (Debounce.calls delay cs timer)
   <= length cs + match timer with Some _ => 1 | None => 0 end)%nat
  /\ incl (Debounce.calls delay cs timer)
          (match timer with Some tm => [Debounce.args tm] | None => [] end
           ++ map snd cs)%list.
Proof.
  induction cs as [|[t0 a0] cs IH]; intros timer.
  - cbn [Debounce.calls length map]. rewrite app_nil_r.
    destruct timer; split; cbn [length]; try lia; apply incl_refl.
  - cbn [Debounce.calls].
    destruct (IH (Debounce.debounce delay t0 a0 (fst (Debounce.elapse t0 timer))))
      as [Hlen Hin].
    unfold Debounce.debounce in *.
    unfold Debounce.elapse in *. destruct timer as [tm|].
    + destruct (Debounce.due tm <=? t0)%nat; cbn [fst] in *; cbn [length map app] in *;
        split; try (rewrite ?length_app; cbn [length]; lia).
      * cbn [Debounce.args] in Hin. apply incl_cons; [left; reflexivity|].
        apply incl_tl. exact Hin.
      * cbn [Debounce.args] in Hin. apply incl_tl. exact Hin.
    + cbn [fst length map app] in *. split; [lia|].
      cbn [Debounce.args] in Hin. exact Hin.
Qed.

Lemma calls_last (cs : list (nat * Args)) :
  forall (timer : option (Debounce.Timeout Args)) t a,
  exists ran, Debounce.calls delay (cs ++ [(t, a)]) timer = (ran ++ [a])%list.
Proof.
  induction cs as [|[t0 a0] cs IH]; intros timer t a.
  - cbn [app Debounce.calls]. destruct (Debounce.elapse t timer) as [timer' ran].
    exists ran. reflexivity.
  - cbn [app Debounce.calls]. destruct (Debounce.elapse t0 timer) as [timer' ran].
    destruct (IH (Debounce.debounce delay t0 a0 timer') t a) as [ran' ->].
    exists (ran ++ ran')%list. apply app_assoc.
Qed.

(** X14.  Whatever the times of the calls, the debounced function runs the
    function at most once per call and only on arguments it was called with,
    and the last call always gets through, as the last run. *)
Theorem debounce_never_invents (cs : list (nat * Args)) :
  (length (Debounce.calls delay cs None) <= length cs)%nat
  /\ incl (Debounce.calls delay cs None) (map snd cs)
  /\ forall t a, exists ran,
       Debounce.calls delay (cs ++ [(t, a)]) None = (ran ++ [a])%list.
Proof.
  destruct (calls_bounded cs None) as [Hlen Hin].
  split; [lia|]. split; [exact Hin|]. intros t a. apply calls_last.
Qed.

End DebounceFacts.

(** [debounce_keeps_last_of_burst] on three transcripts 100 ms apart and on
    two transcripts a second apart, with the delay of 400 ms of the
    component. *)
Lemma debounce_keeps_last_of_burst_witness :
  Debounce.rapid 400
    (app [(0%nat, "bor"); (100%nat, "borrow")] [(200%nat, "borrow from Ravi")]) = true
  /\ Debounce.calls 400
       (app [(0%nat, "bor"); (100%nat, "borrow")] [(200%nat, "borrow from Ravi")]) None
     = ["borrow from Ravi"]
  /\ Debounce.spaced 400 [(0%nat, "borrow"); (1000%nat, "Ravi")] = true
  /\ Debounce.calls 400 [(0%nat, "borrow"); (1000%nat, "Ravi")] None
     = ["borrow"; "Ravi"].
Proof.
  destruct (debounce_keeps_last_of_burst string 400
              [(0%nat, "bor"); (100%nat, "borrow")] 200%nat "borrow from Ravi")
    as (Hburst & _).
  destruct (debounce_keeps_last_of_burst string 400
              [(0%nat, "borrow"); (1000%nat, "Ravi")] 0%nat EmptyString)
    as (_ & Hspaced).
  exact (conj eq_refl (conj (Hburst eq_refl) (conj eq_refl (Hspaced eq_refl)))).
Defined.

(** ** The focus trap and the ARIA effect *)

(** [focus_trap_wraps] on a dialog with a disabled and a hidden control,
    Tab pressed on its last control. *)
Lemma focus_trap_wraps_witness :
  Accessibility.handleKeyDown Accessibility.Tab false 3
    [Accessibility.element 1 false true; Accessibility.element 2 true true;
     Accessibility.element 3 false true; Accessibility.element 4 false false]
  = Some (Accessibility.element 1 false true)
  /\ exists back,
       Accessibility.handleKeyDown Accessibility.Tab true 1
         [Accessibility.element 1 false true; Accessibility.element 2 true true;
          Accessibility.element 3 false true; Accessibility.element 4 false false]
       = Some back
       /\ Accessibility.node back = 3%nat.
Proof.
  split; [reflexivity|].
  destruct (focus_trap_wraps Accessibility.Tab false 3
              [Accessibility.element 1 false true; Accessibility.element 2 true true;
               Accessibility.element 3 false true; Accessibility.element 4 false false]
              (Accessibility.element 1 false true) eq_refl)
    as (_ & _ & _ & _ & Hback).
  exact Hback.
Defined.

Lemma getAttribute_set_same name value attrs :
  Accessibility.getAttribute name (Accessibility.setAttribute name value attrs)
  = Some value.
Proof.
  unfold Accessibility.getAttribute.
  induction attrs as [|[n v] attrs IH]; cbn [Accessibility.setAttribute].
  - cbn [find fst]. rewrite String.eqb_refl. reflexivity.
  - destruct (String.eqb n name) eqn:E; cbn [find fst]; rewrite E;
      [reflexivity|exact IH].
Qed.

Lemma getAttribute_set_other name name' value attrs :
  name' <> name ->
  Accessibility.getAttribute name' (Accessibility.setAttribute name value attrs)
  = Accessibility.getAttribute name' attrs.
Proof.
  intros Hne. unfold Accessibility.getAttribute.
  induction attrs as [|[n v] attrs IH]; cbn [Accessibility.setAttribute].
  - cbn [find fst]. destruct (String.eqb_spec name name'); [congruence|reflexivity].
  - destruct (String.eqb_spec n name) as [->|Hn]; cbn [find fst].
    + destruct (String.eqb_spec name name'); [congruence|reflexivity].
    + destruct (String.eqb n name'); [reflexivity|exact IH].
Qed.

Lemma hasAttribute_set_same name value attrs :
  Accessibility.hasAttribute name (Accessibility.setAttribute name value attrs) = true.
Proof.
  unfold Accessibility.hasAttribute. rewrite getAttribute_set_same. reflexivity.
Qed.

Lemma hasAttribute_set_other name name' value attrs :
  name' <> name ->
  Accessibility.hasAttribute name' (Accessibility.setAttribute name value attrs)
  = Accessibility.hasAttribute name' attrs.
Proof.
  intros Hne. unfold Accessibility.hasAttribute.
  rewrite getAttribute_set_other by exact Hne. reflexivity.
Qed.

(** Setting an attribute that is absent keeps every attribute that is there. *)
Lemma getAttribute_set_absent name value attrs n v :
  Accessibility.hasAttribute name attrs = false ->
  Accessibility.getAttribute n attrs = Some v ->
  Accessibility.getAttribute n (Accessibility.setAttribute name value attrs) = Some v.
Proof.
  intros Habs Hget. destruct (String.eqb_spec n name) as [->|Hne].
  - unfold Accessibility.hasAttribute in Habs. rewrite Hget in Habs. discriminate.
  - rewrite getAttribute_set_other by exact Hne. exact Hget.
Qed.

Lemma addAriaAttributes_fixed heading attrs :
  Accessibility.hasAttribute "role" attrs = true ->
  Accessibility.hasAttribute "aria-modal" attrs = true ->
  Accessibility.hasAttribute "aria-label" attrs
  || Accessibility.hasAttribute "aria-labelledby" attrs = true ->
  Accessibility.addAriaAttributes heading attrs = attrs.
Proof.
  intros Hrole Hmodal Hlabel. unfold Accessibility.addAriaAttributes.
  rewrite Hrole. cbn [negb]. rewrite Hmodal. cbn [negb].
  destruct (Accessibility.hasAttribute "aria-label" attrs),
    (Accessibility.hasAttribute "aria-labelledby" attrs);
    try discriminate Hlabel; reflexivity.
Qed.

(** X17.  The ARIA effect: afterwards the container has a role, an
    [aria-modal] and an accessible name ([aria-label] or [aria-labelledby]);
    every attribute it had keeps its value, no attribute of another name is
    added, and running the effect again changes nothing. *)
Theorem aria_attributes_complete heading attrs :
  let attrs' := Accessibility.addAriaAttributes heading attrs in
  Accessibility.hasAttribute "role" attrs' = true
  /\ Accessibility.hasAttribute "aria-modal" attrs' = true
  /\ Accessibility.hasAttribute "aria-label" attrs'
     || Accessibility.hasAttribute "aria-labelledby" attrs' = true
  /\ (forall name value,
        Accessibility.getAttribute name attrs = Some value ->
        Accessibility.getAttribute name attrs' = Some value)
  /\ (forall name,
        ~ In name Accessibility.aria_names ->
        Accessibility.getAttribute name attrs' = Accessibility.getAttribute name attrs)
  /\ Accessibility.addAriaAttributes heading attrs' = attrs'.
Proof.
  cbv zeta.
  assert (H : Accessibility.hasAttribute "role"
                (Accessibility.addAriaAttributes heading attrs) = true
              /\ Accessibility.hasAttribute "aria-modal"
                   (Accessibility.addAriaAttributes heading attrs) = true
              /\ Accessibility.hasAttribute "aria-label"
                   (Accessibility.addAriaAttributes heading attrs)
                 || Accessibility.hasAttribute "aria-labelledby"
                      (Accessibility.addAriaAttributes heading attrs) = true
              /\ (forall name value,
                    Accessibility.getAttribute name attrs = Some value ->
                    Accessibility.getAttribute name
                      (Accessibility.addAriaAttributes heading attrs) = Some value)
              /\ (forall name,
                    ~ In name Accessibility.aria_names ->
                    Accessibility.getAttribute name
                      (Accessibility.addAriaAttributes heading attrs)
                    = Accessibility.getAttribute name attrs)).
  { unfold Accessibility.addAriaAttributes. cbv zeta.
    set (attrs1 := if negb (Accessibility.hasAttribute "role" attrs)
                   then Accessibility.setAttribute "role" "dialog" attrs else attrs).
    assert (H1 : Accessibility.hasAttribute "role" attrs1 = true
                 /\ (forall n v, Accessibility.getAttribute n attrs = Some v ->
                                 Accessibility.getAttribute n attrs1 = Some v)
                 /\ (forall n, n <> "role" ->
                       Accessibility.getAttribute n attrs1
                       = Accessibility.getAttribute n attrs)).
    { subst attrs1. destruct (Accessibility.hasAttribute "role" attrs) eqn:E;
        cbn [negb].
      - repeat split; auto.
      - split; [apply hasAttribute_set_same|]. split.
        + intros n v. apply getAttribute_set_absent, E.
        + intros n Hn. apply getAttribute_set_other, Hn. }
    destruct H1 as (Hrole1 & Hkeep1 & Hother1). clearbody attrs1.
    set (attrs2 := if negb (Accessibility.hasAttribute "aria-modal" attrs1)
                   then Accessibility.setAttribute "aria-modal" "true" attrs1
                   else attrs1).
    assert (H2 : Accessibility.hasAttribute "aria-modal" attrs2 = true
                 /\ (forall n v, Accessibility.getAttribute n attrs1 = Some v ->
                                 Accessibility.getAttribute n attrs2 = Some v)
                 /\ (forall n, n <> "aria-modal" ->
                       Accessibility.getAttribute n attrs2
                       = Accessibility.getAttribute n attrs1)).
    { subst attrs2. destruct (Accessibility.hasAttribute "aria-modal" attrs1) eqn:E;
        cbn [negb].
      - repeat split; auto.
      - split; [apply hasAttribute_set_same|]. split.
        + intros n v. apply getAttribute_set_absent, E.
        + intros n Hn. apply getAttribute_set_other, Hn. }
    destruct H2 as (Hmodal2 & Hkeep2 & Hother2). clearbody attrs2.
    assert (Hrole2 : Accessibility.hasAttribute "role" attrs2 = true).
    { unfold Accessibility.hasAttribute in *.
      rewrite Hother2 by discriminate. exact Hrole1. }
    assert (Hnames : forall name, ~ In name Accessibility.aria_names ->
              name <> "role" /\ name <> "aria-modal" /\ name <> "aria-label"
              /\ name <> "aria-labelledby").
    { intros name Hn. unfold Accessibility.aria_names in Hn. cbn [In] in Hn.
      repeat split; intros ->; apply Hn; auto. }
    destruct (Accessibility.hasAttribute "aria-label" attrs2) eqn:El;
      [|destruct (Accessibility.hasAttribute "aria-labelledby" attrs2) eqn:Eb];
      cbn [negb andb].
    - rewrite El. repeat split; auto.
      intros name Hn. destruct (Hnames name Hn) as (N1 & N2 & _).
      rewrite Hother2, Hother1 by assumption. reflexivity.
    - rewrite El, Eb. repeat split; auto.
      intros name Hn. destruct (Hnames name Hn) as (N1 & N2 & _).
      rewrite Hother2, Hother1 by assumption. reflexivity.
    - assert (Hset : forall nm val,
                nm = "aria-label" \/ nm = "aria-labelledby" ->
                Accessibility.hasAttribute nm attrs2 = false ->
                Accessibility.hasAttribute "role"
                  (Accessibility.setAttribute nm val attrs2) = true
                /\ Accessibility.hasAttribute "aria-modal"
                     (Accessibility.setAttribute nm val attrs2) = true
                /\ Accessibility.hasAttribute "aria-label"
                     (Accessibility.setAttribute nm val attrs2)
                   || Accessibility.hasAttribute "aria-labelledby"
                        (Accessibility.setAttribute nm val attrs2) = true
                /\ (forall name value,
                      Accessibility.getAttribute name attrs = Some value ->
                      Accessibility.getAttribute name
                        (Accessibility.setAttribute nm val attrs2) = Some value)
                /\ (forall name,
                      ~ In name Accessibility.aria_names ->
                      Accessibility.getAttribute name
                        (Accessibility.setAttribute nm val attrs2)
                      = Accessibility.getAttribute name attrs)).
      { intros nm val Hnm Habs.
        split; [rewrite hasAttribute_set_other
                  by (destruct Hnm as [-> | ->]; discriminate); exact Hrole2|].
        split; [rewrite hasAttribute_set_other
                  by (destruct Hnm as [-> | ->]; discriminate); exact Hmodal2|].
        split.
        { destruct Hnm as [-> | ->]; rewrite hasAttribute_set_same;
            [reflexivity|apply orb_true_r]. }
        split.
        - intros name value Hget.
          apply getAttribute_set_absent; [exact Habs|]. apply Hkeep2, Hkeep1, Hget.
        - intros name Hn. destruct (Hnames name Hn) as (N1 & N2 & N3 & N4).
          rewrite getAttribute_set_other
            by (destruct Hnm as [-> | ->]; assumption).
          rewrite Hother2, Hother1 by assumption. reflexivity. }
      destruct heading as [id|]; [destruct (Js.truthy id)|];
        apply Hset; auto. }
  destruct H as (Hrole & Hmodal & Hlabel & Hkeep & Hother).
  repeat split; try assumption.
  apply addAriaAttributes_fixed; assumption.
Qed.

(** [aria_attributes_complete] on a container that has its own role and a
    heading with an id. *)
Lemma aria_attributes_complete_witness :
  Accessibility.getAttribute "role" [("class", "modal"); ("role", "alertdialog")]
  = Some "alertdialog"
  /\ Accessibility.getAttribute "role"
       (Accessibility.addAriaAttributes (Some "title")
          [("class", "modal"); ("role", "alertdialog")])
     = Some "alertdialog"
  /\ Accessibility.addAriaAttributes (Some "title")
       [("class", "modal"); ("role", "alertdialog")]
     = [("class", "modal"); ("role", "alertdialog"); ("aria-modal", "true");
        ("aria-labelledby", "title")].
Proof.
  destruct (aria_attributes_complete (Some "title")
              [("class", "modal"); ("role", "alertdialog")])
    as (_ & _ & _ & Hkeep & _).
  exact (conj eq_refl (conj (Hkeep "role" "alertdialog" eq_refl) eq_refl)).
Defined.

(** ** The buttons of the confirmation panels *)

Section Panels.

Variable isEnglish : bool.
Variable universalNumberParser : string -> option Z.

(** X18.  A Save click whose commit event a listener cancels fails at once:
    the flow stays at [confirm] with its edit buffer, the failure text is
    shown, the saving flag is down again, no listener is left waiting for a
    result, and Save is enabled for another try. *)
Theorem cancelled_save_can_be_retried s :
  (borrowPanelShown s = true ->
   borrowSaveDisabled s = false ->
   let s' := clickBorrowSave isEnglish false s in
   borrowState s' = borrowState s
   /\ borrowConfirmEdit s' = borrowConfirmEdit s
   /\ response s' = borrowSaveFailure isEnglish
   /\ isSaving s' = false
   /\ saves_pending s' = saves_pending s
   /\ borrowSaveDisabled s' = false)
  /\
  (purchasePanelShown s = true ->
   purchaseSaveDisabled s = false ->
   let s' := clickPurchaseSave isEnglish false s in
   purchaseState s' = purchaseState s
   /\ purchaseConfirmEdit s' = purchaseConfirmEdit s
   /\ response s' = purchaseSaveFailure isEnglish
   /\ isSaving s' = false
   /\ saves_pending s' = saves_pending s
   /\ purchaseSaveDisabled s' = false).
Proof.
  split; intros Hshown Hdis; cbv zeta.
  - unfold clickBorrowSave. rewrite Hshown, Hdis.
    unfold borrowPanelShown in Hshown. apply andb_true_iff in Hshown as [_ He].
    destruct (borrowConfirmEdit s) as [e|] eqn:Hedit; [|discriminate He].
    cbn [andb negb]. unfold saves_pending, borrowSaveDisabled in *. run_updates.
    rewrite ?Hedit in Hdis |- *. repeat split.
    apply orb_false_iff in Hdis as [Hdis _]. rewrite Hdis. reflexivity.
  - unfold clickPurchaseSave. rewrite Hshown, Hdis.
    unfold purchasePanelShown in Hshown. apply andb_true_iff in Hshown as [_ He].
    destruct (purchaseConfirmEdit s) as [e|] eqn:Hedit; [|discriminate He].
    cbn [andb negb]. unfold saves_pending, purchaseSaveDisabled in *. run_updates.
    rewrite ?Hedit in Hdis |- *. repeat split.
    apply orb_false_iff in Hdis as [Hdis _]. rewrite Hdis. reflexivity.
Qed.

(** X19.  The Edit button asks for the amounts again and drops what was typed
    into the panel: after it, an amount reply and a paid reply bring the flow
    back to [confirm] with the name that was heard before, not the one typed,
    and with the two new amounts; nothing is dispatched on the way. *)
Theorem edit_button_discards_typed_fields n a p t1 t2 amount s :
  is_reset t1 = false -> is_cancel t1 = false ->
  is_reset t2 = false -> is_cancel t2 = false ->
  amountOf universalNumberParser t1 = Some amount ->
  (Purchase.step (purchaseState s) = Purchase.idle ->
   borrowPanelShown s = true ->
   let s' := run isEnglish universalNumberParser
               [BorrowNameEdited n; BorrowAmountEdited a; BorrowPaidEdited p;
                BorrowEditClicked; Heard t1; Heard t2] s in
   borrowState s'
   = Borrow.mk Borrow.confirm (Borrow.name (borrowState s)) amount
       (paidOf universalNumberParser t2)
   /\ borrowConfirmEdit s' = Some (borrowState s')
   /\ dispatched s' = dispatched s)
  /\
  (purchasePanelShown s = true ->
   let s' := run isEnglish universalNumberParser
               [PurchaseSupplierEdited n; PurchaseAmountEdited a;
                PurchasePaidEdited p; PurchaseEditClicked; Heard t1; Heard t2] s in
   purchaseState s'
   = Purchase.mk Purchase.confirm (Purchase.supplier (purchaseState s)) amount
       (paidOf universalNumberParser t2)
   /\ purchaseConfirmEdit s' = Some (purchaseState s')
   /\ dispatched s' = dispatched s).
Proof.
  intros Hr1 Hc1 Hr2 Hc2 Hamount. split.
  - intros Hidle Hshown. cbv zeta. unfold run. cbn [fold_left react].
    rewrite (borrow_fields_typed n a p s Hshown).
    destruct (borrow_panel_shown s Hshown) as [Hstep _].
    set (s1 := clickBorrowEdit _).
    assert (H1 : borrowState s1 = Borrow.with_step Borrow.askAmount (borrowState s)
                 /\ dispatched s1 = dispatched s
                 /\ purchaseState s1 = purchaseState s).
    { subst s1. unfold clickBorrowEdit, borrowPanelShown. run_updates.
      rewrite Hstep. cbn [Borrow.step_eqb andb]. run_updates. repeat split. }
    destruct H1 as (Hb1 & Hd1 & Hp1). clearbody s1.
    assert (Hi1 : Purchase.step (purchaseState s1) = Purchase.idle)
      by (rewrite Hp1; exact Hidle).
    destruct (borrow_reply_heard isEnglish universalNumberParser t1 s1 Hi1 Hr1 Hc1)
      as (_ & H2 & _).
    destruct (H2 ltac:(rewrite Hb1; destruct (borrowState s); reflexivity)
                 amount Hamount) as (Hb2 & Hd2 & Hp2).
    set (s2 := handleTranscript isEnglish universalNumberParser t1 s1) in *.
    clearbody s2.
    assert (Hi2 : Purchase.step (purchaseState s2) = Purchase.idle)
      by (rewrite Hp2; exact Hi1).
    destruct (borrow_reply_heard isEnglish universalNumberParser t2 s2 Hi2 Hr2 Hc2)
      as (_ & _ & H3).
    destruct (H3 ltac:(rewrite Hb2; destruct (borrowState s1); reflexivity))
      as (Hb3 & He3 & Hd3 & _).
    split; [|split; [exact He3|rewrite Hd3, Hd2; exact Hd1]].
    rewrite Hb3, Hb2, Hb1. destruct (borrowState s). reflexivity.
  - intros Hshown. cbv zeta. unfold run. cbn [fold_left react].
    rewrite (purchase_fields_typed n a p s Hshown).
    destruct (purchase_panel_shown s Hshown) as [Hstep _].
    set (s1 := clickPurchaseEdit _).
    assert (H1 : purchaseState s1
                 = Purchase.with_step Purchase.askAmount (purchaseState s)
                 /\ dispatched s1 = dispatched s).
    { subst s1. unfold clickPurchaseEdit, purchasePanelShown. run_updates.
      rewrite Hstep. cbn [Purchase.step_eqb andb]. run_updates. repeat split. }
    destruct H1 as (Hb1 & Hd1). clearbody s1.
    destruct (purchase_reply_heard isEnglish universalNumberParser t1 s1 Hr1 Hc1)
      as (_ & H2 & _).
    destruct (H2 ltac:(rewrite Hb1; destruct (purchaseState s); reflexivity)
                 amount Hamount) as (Hb2 & Hd2 & _).
    set (s2 := handleTranscript isEnglish universalNumberParser t1 s1) in *.
    clearbody s2.
    destruct (purchase_reply_heard isEnglish universalNumberParser t2 s2 Hr2 Hc2)
      as (_ & _ & H3).
    destruct (H3 ltac:(rewrite Hb2; destruct (purchaseState s1); reflexivity))
      as (Hb3 & He3 & Hd3 & _).
    split; [|split; [exact He3|rewrite Hd3, Hd2; exact Hd1]].
    rewrite Hb3, Hb2, Hb1. destruct (purchaseState s). reflexivity.
Qed.

End Panels.

(** [cancelled_save_can_be_retried] on both sample panels. *)
Lemma cancelled_save_can_be_retried_witness :
  borrowPanelShown Sample.borrow_confirming = true
  /\ borrowSaveDisabled Sample.borrow_confirming = false
  /\ borrowSaveDisabled (clickBorrowSave true false Sample.borrow_confirming) = false
  /\ purchasePanelShown Sample.purchase_confirming = true
  /\ purchaseSaveDisabled Sample.purchase_confirming = false
  /\ purchaseSaveDisabled (clickPurchaseSave true false Sample.purchase_confirming)
     = false.
Proof.
  destruct (cancelled_save_can_be_retried true Sample.borrow_confirming)
    as (Hborrow & _).
  destruct (cancelled_save_can_be_retried true Sample.purchase_confirming)
    as (_ & Hpurchase).
  destruct (Hborrow eq_refl eq_refl) as (_ & _ & _ & _ & _ & Hb).
  destruct (Hpurchase eq_refl eq_refl) as (_ & _ & _ & _ & _ & Hp).
  exact (conj eq_refl (conj eq_refl (conj Hb (conj eq_refl (conj eq_refl Hp))))).
Defined.

(** [edit_button_discards_typed_fields] on both sample panels, the name
    typed over and the Edit button pressed. *)
Lemma edit_button_discards_typed_fields_witness :
  borrowState
    (run true digitsOnly
       [BorrowNameEdited "Ravi Kumar"; BorrowAmountEdited "750"; BorrowPaidEdited "10";
        BorrowEditClicked; Heard "600"; Heard "100"] Sample.borrow_confirming)
  = Borrow.mk Borrow.confirm "Ravi" "600" "100"
  /\ purchaseState
       (run true digitsOnly
          [PurchaseSupplierEdited "Ravi Kumar"; PurchaseAmountEdited "750";
           PurchasePaidEdited "10"; PurchaseEditClicked; Heard "600"; Heard "100"]
          Sample.purchase_confirming)
     = Purchase.mk Purchase.confirm "ABC Traders" "600" "100".
Proof.
  destruct (edit_button_discards_typed_fields true digitsOnly "Ravi Kumar" "750" "10"
              "600" "100" "600" Sample.borrow_confirming
              eq_refl eq_refl eq_refl eq_refl eq_refl) as (Hborrow & _).
  destruct (edit_button_discards_typed_fields true digitsOnly "Ravi Kumar" "750" "10"
              "600" "100" "600" Sample.purchase_confirming
              eq_refl eq_refl eq_refl eq_refl eq_refl) as (_ & Hpurchase).
  destruct (Hborrow eq_refl eq_refl) as (Hb & _).
  destruct (Hpurchase eq_refl) as (Hp & _).
  exact (conj Hb Hp).
Defined.
